(** * odm_controller: the mapping engine that builds ODM requests

    A shallow embedding of [odm_controller.py].  The class turns a flat
    record of external values into an ODM request, driven by a mapping
    document ([co_fields], [variables], [constants], [required_odm]).

    Python values are an inductive type, dictionaries are association
    lists in insertion order, exceptions are an error monad, and the only
    mutable attribute that matters, [self.odm_request], is threaded as
    explicit state.  The library calls are those of Python 3.11 with its
    default settings; running out of memory or of call stack (values
    nested about a thousand levels deep) is outside the model. *)

From Stdlib Require Import ZArith List String Ascii Bool Lia.
From Stdlib Require Import Floats.PrimFloat Floats.SpecFloat Floats.FloatOps Floats.FloatAxioms.
Import ListNotations.

Local Open Scope string_scope.
Local Open Scope list_scope.
Local Open Scope Z_scope.

(** ** Exceptions *)

(** The exceptions the module can raise, one constructor per raise site or
    per failing library call; [exc_class] gives the Python class. *)
Inductive pyexc : Type :=
| ExternalNotDict                          (* line 65 *)
| MappingFileNotFound (path : string)      (* line 91 *)
| MissingRequired (missing : list string)  (* line 74 *)
| NoRequestBuilt                           (* line 85 *)
| UnsupportedVarType (vtype : string)      (* line 229 *)
| InvalidDateType                          (* line 243 *)
| DateParseError                           (* strptime / fromisoformat reject the text *)
| DateFormatNotStr                         (* strptime given a format that is no str *)
| DateFormatUnmodelled                     (* a strptime directive outside this model *)
| Unhashable                               (* a list or dict used as a dict key *)
| NotIterable                              (* iterating a number, a bool or a date *)
| FloatOfBadType | FloatOfBadText | FloatOfHugeInt       (* float(x) *)
| IntOfBadType | IntOfBadText | IntOfInfinity | IntOfNaN (* int(x) *)
| IntStrLimit                              (* str(x), json.dumps on an int over the digit cap *)
| NoAppend                                 (* .append on a value that is no list *)
| NotSerializable.                         (* json.dumps on a date *)

Inductive exc_class : Type :=
| TypeError | ValueError | AttributeError | OverflowError
| RuntimeError | FileNotFoundError | OutsideModel.

Definition class_of (e : pyexc) : exc_class :=
  match e with
  | ExternalNotDict => TypeError
  | MappingFileNotFound _ => FileNotFoundError
  | MissingRequired _ => ValueError
  | NoRequestBuilt => RuntimeError
  | UnsupportedVarType _ => ValueError
  | InvalidDateType => ValueError
  | DateParseError => ValueError
  | DateFormatNotStr => TypeError
  | DateFormatUnmodelled => OutsideModel
  | Unhashable => TypeError
  | NotIterable => TypeError
  | FloatOfBadType => TypeError
  | FloatOfBadText => ValueError
  | FloatOfHugeInt => OverflowError
  | IntOfBadType => TypeError
  | IntOfBadText => ValueError
  | IntOfInfinity => OverflowError
  | IntOfNaN => ValueError
  | IntStrLimit => ValueError
  | NoAppend => AttributeError
  | NotSerializable => TypeError
  end.

Inductive result (A : Type) : Type :=
| Ok (a : A)
| Raise (e : pyexc).
Arguments Ok {A} a.
Arguments Raise {A} e.

Definition bind {A B : Type} (r : result A) (k : A -> result B) : result B :=
  match r with
  | Ok a => k a
  | Raise e => Raise e
  end.

Notation "x <- r ;; k" := (bind r (fun x => k))
  (at level 61, r at next level, right associativity).
Notation "' p <- r ;; k" := (bind r (fun x => let 'p := x in k))
  (at level 61, p pattern, r at next level, right associativity).

(** A for loop whose body may raise: the state after the last element, or
    the first exception. *)
Fixpoint for_each {A S : Type} (body : S -> A -> result S) (l : list A) (s : S)
  : result S :=
  match l with
  | [] => Ok s
  | x :: rest => s' <- body s x ;; for_each body rest s'
  end.

(** A list comprehension whose element expression may raise. *)
Fixpoint map_result {A B : Type} (f : A -> result B) (l : list A) : result (list B) :=
  match l with
  | [] => Ok []
  | x :: rest => y <- f x ;; ys <- map_result f rest ;; Ok (y :: ys)
  end.

(** ** Text

    Strings are ASCII text; the [str] methods below act on the ASCII
    range, where [str.strip] removes the characters 9-13, 28-31 and 32. *)
Module Text.

Definition is_space (c : ascii) : bool :=
  let n := nat_of_ascii c in
  ((9 <=? n)%nat && (n <=? 13)%nat) || ((28 <=? n)%nat && (n <=? 32)%nat).

Definition is_digit (c : ascii) : bool :=
  let n := nat_of_ascii c in (48 <=? n)%nat && (n <=? 57)%nat.

Definition digit_val (c : ascii) : Z := Z.of_nat (nat_of_ascii c) - 48.

Fixpoint lstrip (s : string) : string :=
  match s with
  | String c rest => if is_space c then lstrip rest else s
  | EmptyString => EmptyString
  end.

Fixpoint rstrip (s : string) : string :=
  match s with
  | String c rest =>
      match rstrip rest with
      | EmptyString => if is_space c then EmptyString else String c EmptyString
      | r => String c r
      end
  | EmptyString => EmptyString
  end.

Definition strip (s : string) : string := rstrip (lstrip s).

(** The blanks that [float] and [int] skip around a numeral: 9-13 and 32
    only, fewer than [str.strip] removes. *)
Definition is_cspace (c : ascii) : bool :=
  let n := nat_of_ascii c in
  ((9 <=? n)%nat && (n <=? 13)%nat) || (n =? 32)%nat.

Fixpoint lstrip_c (s : string) : string :=
  match s with
  | String c rest => if is_cspace c then lstrip_c rest else s
  | EmptyString => EmptyString
  end.

Fixpoint rstrip_c (s : string) : string :=
  match s with
  | String c rest =>
      match rstrip_c rest with
      | EmptyString => if is_cspace c then EmptyString else String c EmptyString
      | r => String c r
      end
  | EmptyString => EmptyString
  end.

Definition strip_c (s : string) : string := rstrip_c (lstrip_c s).

(** [s.replace(a, b)] for one-character [a] and [b]. *)
Fixpoint replace_char (a b : ascii) (s : string) : string :=
  match s with
  | String c rest => String (if Ascii.eqb c a then b else c) (replace_char a b rest)
  | EmptyString => EmptyString
  end.

(** [s.split(sep)] for a one-character separator: always at least one
    field, empty fields kept. *)
Fixpoint split (sep : ascii) (s : string) : list string :=
  match s with
  | EmptyString => [EmptyString]
  | String c rest =>
      if Ascii.eqb c sep then EmptyString :: split sep rest
      else match split sep rest with
           | f :: fs => String c f :: fs
           | [] => [String c EmptyString]
           end
  end.

Definition upper_char (c : ascii) : ascii :=
  let n := nat_of_ascii c in
  if (97 <=? n)%nat && (n <=? 122)%nat then ascii_of_nat (n - 32) else c.

Definition lower_char (c : ascii) : ascii :=
  let n := nat_of_ascii c in
  if (65 <=? n)%nat && (n <=? 90)%nat then ascii_of_nat (n + 32) else c.

Fixpoint map_chars (f : ascii -> ascii) (s : string) : string :=
  match s with
  | String c rest => String (f c) (map_chars f rest)
  | EmptyString => EmptyString
  end.

Definition upper : string -> string := map_chars upper_char.
Definition lower : string -> string := map_chars lower_char.

Definition chars (s : string) : list string :=
  map (fun c => String c EmptyString) (list_ascii_of_string s).

(** Decimal numeral of a non-negative integer. *)
Fixpoint digits_of (fuel : nat) (n : Z) (acc : string) : string :=
  match fuel with
  | O => acc
  | S fuel' =>
      let acc' := String (ascii_of_nat (Z.to_nat (48 + n mod 10))) acc in
      if n / 10 =? 0 then acc' else digits_of fuel' (n / 10) acc'
  end.

Definition decimal (n : Z) : string :=
  digits_of (S (Z.to_nat (Z.log2 n))) n EmptyString.

(** [str(z)] for an int. *)
Definition of_int (z : Z) : string :=
  if z <? 0 then String "-" (decimal (- z)) else decimal z.

Fixpoint zeros (n : nat) : string :=
  match n with
  | O => EmptyString
  | S n' => String "0" (zeros n')
  end.

(** Zero-padded to [width] digits, as [%02d]. *)
Definition padded (width : nat) (n : Z) : string :=
  let d := decimal n in (zeros (width - String.length d) ++ d)%string.

End Text.

(** ** Floating point

    A Python float is an IEEE 754 binary64 number, here a primitive float.
    The conversions round to nearest, ties to even, as CPython does. *)
Module PyFloat.

(** The nearest float to [num / den], for positive [num] and [den]. *)
Definition of_ratio (neg : bool) (num den : Z) : spec_float :=
  let k := Z.max 0 (Z.log2 den - Z.log2 num + 66) in
  let n := Z.shiftl num k in
  let q := n / den in
  let r := n mod den in
  let loc := if r =? 0 then loc_Exact else loc_Inexact (2 * r ?= den) in
  binary_round_aux prec emax neg q (- k) loc.

(** The nearest float to [m * 10 ^ e], for [0 <= m]. *)
Definition of_decimal (neg : bool) (m e : Z) : spec_float :=
  if m =? 0 then S754_zero neg
  else if 400 <? e then S754_infinity neg
  else if e + Z.log2 m <? - 1200 then S754_zero neg
  else if 0 <=? e then binary_normalize prec emax (if neg then - (m * 10 ^ e) else m * 10 ^ e) 0 neg
  else of_ratio neg m (10 ^ (- e)).

(** [float(z)] for an int: [None] is OverflowError. *)
Definition of_int (z : Z) : option float :=
  match binary_normalize prec emax z 0 false with
  | S754_infinity _ => None
  | sf => Some (SF2Prim sf)
  end.

(** Underscores in a numeral: only between two digits; [None] if misplaced. *)
Fixpoint drop_underscores (prev : ascii) (s : string) : option string :=
  match s with
  | EmptyString => if Ascii.eqb prev "_" then None else Some EmptyString
  | String c rest =>
      if Ascii.eqb c "_" then
        if Text.is_digit prev then drop_underscores c rest else None
      else if Ascii.eqb prev "_" && negb (Text.is_digit c) then None
      else option_map (String c) (drop_underscores c rest)
  end.

(** A maximal run of digits: its value, its length and what follows. *)
Fixpoint digits (s : string) (acc : Z) (n : Z) : Z * Z * string :=
  match s with
  | String c rest =>
      if Text.is_digit c then digits rest (10 * acc + Text.digit_val c) (n + 1)
      else (acc, n, s)
  | EmptyString => (acc, n, s)
  end.

Definition sign (s : string) : bool * string :=
  match s with
  | String "-" rest => (true, rest)
  | String "+" rest => (false, rest)
  | _ => (false, s)
  end.

(** The exponent part: [e], an optional sign and at least one digit. *)
Definition exponent (s : string) : option Z :=
  match s with
  | EmptyString => Some 0
  | String c rest =>
      if Ascii.eqb c "e" || Ascii.eqb c "E" then
        let '(neg, rest') := sign rest in
        match digits rest' 0 0 with
        | (v, n, EmptyString) => if 0 <? n then Some (if neg then - v else v) else None
        | _ => None
        end
      else None
  end.

(** [float(s)] for a str: [None] is ValueError. *)
Definition of_string (s : string) : option float :=
  match drop_underscores "000" (Text.strip_c s) with
  | None => None
  | Some t =>
      let '(neg, body) := sign t in
      let low := Text.lower body in
      if String.eqb low "inf" || String.eqb low "infinity" then
        Some (if neg then neg_infinity else infinity)
      else if String.eqb low "nan" then Some nan
      else
        let '(ip, ni, after_int) := digits body 0 0 in
        let '(m, nf, after_frac) :=
          match after_int with
          | String "." rest => digits rest ip 0
          | _ => (ip, 0, after_int)
          end in
        if (ni + nf =? 0) then None
        else match exponent after_frac with
             | Some e => Some (SF2Prim (of_decimal neg m (e - nf)))
             | None => None
             end
  end.

(** [int(f)] for a float: truncation towards zero. *)
Definition to_int (f : float) : result Z :=
  match Prim2SF f with
  | S754_nan => Raise IntOfNaN
  | S754_infinity _ => Raise IntOfInfinity
  | S754_zero _ => Ok 0
  | S754_finite s m e =>
      let a := if 0 <=? e then Z.shiftl (Zpos m) e else Z.shiftr (Zpos m) (- e) in
      Ok (if s then - a else a)
  end.

(** Truth value of a float: everything but the two zeros. *)
Definition truthy (f : float) : bool := negb (PrimFloat.eqb f zero).

End PyFloat.

(** The cap of the interpreter on the length of a decimal numeral that is
    converted to or from an int: 4300 digits, the default of
    [sys.set_int_max_str_digits]. *)
Definition int_max_str_digits : Z := 4300.

(** [str(z)] returns: [z] has at most [int_max_str_digits] digits. *)
Definition int_str_ok (z : Z) : bool := Z.abs z <? 10 ^ int_max_str_digits.

(** [int(s)] for a str in base 10: [None] is ValueError, for a text that is
    no numeral and for one with more digits than the cap (leading zeros
    count, underscores do not). *)
Definition int_of_string (s : string) : option Z :=
  let '(neg, body) := PyFloat.sign (Text.strip_c s) in
  match body with
  | String c _ =>
      if Text.is_digit c then
        match PyFloat.drop_underscores "000" body with
        | Some t =>
            match PyFloat.digits t 0 0 with
            | (v, n, EmptyString) =>
                if n <=? int_max_str_digits then Some (if neg then - v else v) else None
            | _ => None
            end
        | None => None
        end
      else None
  | EmptyString => None
  end.

(** ** Dates: the parts of [datetime] the module calls *)
Module PyDate.

Record date : Type := { year : Z; month : Z; day : Z }.

(** Time of day of a [datetime]; [_normalize_date] drops it. *)
Record clock : Type := { hour : Z; minute : Z; second : Z; microsecond : Z }.

Definition is_leap (y : Z) : bool :=
  (y mod 4 =? 0) && (negb (y mod 100 =? 0) || (y mod 400 =? 0)).

Definition days_in_month (y m : Z) : Z :=
  if m =? 2 then (if is_leap y then 29 else 28)
  else if (m =? 4) || (m =? 6) || (m =? 9) || (m =? 11) then 30
  else 31.

(** [date(y, m, d)]: ValueError outside the calendar. *)
Definition make (y m d : Z) : result date :=
  if (1 <=? y) && (y <=? 9999) && (1 <=? m) && (m <=? 12)
     && (1 <=? d) && (d <=? days_in_month y m)
  then Ok {| year := y; month := m; day := d |}
  else Raise DateParseError.

(** [d.strftime(fmt)] for the directives [%Y], [%m], [%d] and [%%]; the
    C library prints the year unpadded. *)
Fixpoint strftime (d : date) (fmt : string) : string :=
  match fmt with
  | String "%" (String c rest) =>
      ((if Ascii.eqb c "Y" then Text.decimal (year d)
        else if Ascii.eqb c "m" then Text.padded 2 (month d)
        else if Ascii.eqb c "d" then Text.padded 2 (day d)
        else if Ascii.eqb c "%" then "%"
        else String "%" (String c EmptyString)) ++ strftime d rest)%string
  | String c rest => String c (strftime d rest)
  | EmptyString => EmptyString
  end.

(** [str(d)], the ISO form with a four-digit year. *)
Definition isoformat (d : date) : string :=
  (Text.padded 4 (year d) ++ "-" ++ Text.padded 2 (month d) ++ "-"
   ++ Text.padded 2 (day d))%string.

(** *** [datetime.strptime]

    The format is compiled to a pattern that is matched against the
    text from its start, alternatives tried in order with backtracking;
    the text must then be used up.  Modelled directives: [%Y], [%m],
    [%d] and [%%].  The other directives of the library, and a directive
    used twice, yield [DateFormatUnmodelled]. *)
Inductive fmt_item : Type :=
| FYear | FMonth | FDay
| FSpace                (* a run of whitespace in the format: one or more in the text *)
| FLit (c : ascii).     (* any other character, matched without regard to case *)

Definition other_directives : string := "aAbBcfGHIjMpSUuVwWxXyzZ".

Fixpoint mem_char (c : ascii) (s : string) : bool :=
  match s with
  | String c' rest => Ascii.eqb c c' || mem_char c rest
  | EmptyString => false
  end.

Definition directive (c : ascii) : result fmt_item :=
  if Ascii.eqb c "Y" then Ok FYear
  else if Ascii.eqb c "m" then Ok FMonth
  else if Ascii.eqb c "d" then Ok FDay
  else if Ascii.eqb c "%" then Ok (FLit "%")
  else if mem_char c other_directives then Raise DateFormatUnmodelled
  else Raise DateParseError.

Fixpoint parse_format (fmt : string) : result (list fmt_item) :=
match fmt with
| EmptyString => Ok []
| String c rest =>
    if Ascii.eqb c "%" then
      match rest with
      | EmptyString => Raise DateParseError
      | String c' rest' =>
          it <- directive c' ;; items <- parse_format rest' ;; Ok (it :: items)
      end
    else
      items <- parse_format rest ;;
      if Text.is_space c then
        match items with
        | FSpace :: _ => Ok items
        | _ => Ok (FSpace :: items)
        end
      else Ok (FLit c :: items)
end.

Definition is_item (a b : fmt_item) : bool :=
  match a, b with
  | FYear, FYear | FMonth, FMonth | FDay, FDay => true
  | _, _ => false
  end.

Definition used_once (items : list fmt_item) : bool :=
  forallb (fun it => (List.length (filter (is_item it) items) <=? 1)%nat) [FYear; FMonth; FDay].

Definition in_range (lo hi : ascii) (c : ascii) : bool :=
  (nat_of_ascii lo <=? nat_of_ascii c)%nat && (nat_of_ascii c <=? nat_of_ascii hi)%nat.

(** Two characters [ab] with [p a] and [q b], read as a number. *)
Definition two (p q : ascii -> bool) (s : string) : list (Z * string) :=
  match s with
  | String a (String b rest) =>
      if p a && q b then [(10 * Text.digit_val a + Text.digit_val b, rest)] else []
  | _ => []
  end.

Definition one (p : ascii -> bool) (s : string) : list (Z * string) :=
  match s with
  | String a rest => if p a then [(Text.digit_val a, rest)] else []
  | _ => []
  end.

Definition four_digits (s : string) : list (Z * string) :=
  match s with
  | String a (String b (String c (String d rest))) =>
      if Text.is_digit a && Text.is_digit b && Text.is_digit c && Text.is_digit d then
        [(1000 * Text.digit_val a + 100 * Text.digit_val b
          + 10 * Text.digit_val c + Text.digit_val d, rest)]
      else []
  | _ => []
  end.

(** [1[0-2]|0[1-9]|[1-9]] *)
Definition month_alts (s : string) : list (Z * string) :=
  (two (in_range "1" "1") (in_range "0" "2") s
   ++ two (in_range "0" "0") (in_range "1" "9") s
   ++ one (in_range "1" "9") s).

(** [3[0-1]|[1-2]\d|0[1-9]|[1-9]| [1-9]] *)
Definition day_alts (s : string) : list (Z * string) :=
  (two (in_range "3" "3") (in_range "0" "1") s
   ++ two (in_range "1" "2") Text.is_digit s
   ++ two (in_range "0" "0") (in_range "1" "9") s
   ++ one (in_range "1" "9") s
   ++ match s with
      | String " " rest => one (in_range "1" "9") rest
      | _ => []
      end).

(** [\s+], greedy: the longest run first. *)
Fixpoint space_alts (s : string) : list string :=
  match s with
  | String c rest => if Text.is_space c then (space_alts rest ++ [rest]) else []
  | EmptyString => []
  end.

Record fields : Type := { fY : option Z; fm : option Z; fd : option Z }.

Definition alternatives (it : fmt_item) (s : string) (acc : fields)
  : list (fields * string) :=
  match it with
  | FYear => map (fun '(v, r) => ({| fY := Some v; fm := fm acc; fd := fd acc |}, r)) (four_digits s)
  | FMonth => map (fun '(v, r) => ({| fY := fY acc; fm := Some v; fd := fd acc |}, r)) (month_alts s)
  | FDay => map (fun '(v, r) => ({| fY := fY acc; fm := fm acc; fd := Some v |}, r)) (day_alts s)
  | FSpace => map (fun r => (acc, r)) (space_alts s)
  | FLit c =>
      match s with
      | String c' rest =>
          if Ascii.eqb (Text.lower_char c) (Text.lower_char c') then [(acc, rest)] else []
      | EmptyString => []
      end
  end.

Fixpoint find_first {A B : Type} (f : A -> option B) (l : list A) : option B :=
  match l with
  | [] => None
  | x :: rest => match f x with Some y => Some y | None => find_first f rest end
  end.

Fixpoint match_items (items : list fmt_item) (s : string) (acc : fields)
  : option (fields * string) :=
  match items with
  | [] => Some (acc, s)
  | it :: rest =>
      find_first (fun '(acc', s') => match_items rest s' acc') (alternatives it s acc)
  end.

Definition or_default (o : option Z) (d : Z) : Z :=
  match o with Some v => v | None => d end.

(** [datetime.strptime(s, fmt).date()] *)
Definition strptime (s fmt : string) : result date :=
  items <- parse_format fmt ;;
  if negb (used_once items) then Raise DateFormatUnmodelled
  else match match_items items s {| fY := None; fm := None; fd := None |} with
       | Some (f, EmptyString) => make (or_default (fY f) 1900) (or_default (fm f) 1) (or_default (fd f) 1)
       | _ => Raise DateParseError
       end.

(** *** [date.fromisoformat]

    As the library reads it from Python 3.11 on: a text of 7, 8 or 10
    characters, [YYYY-MM-DD] or [YYYYMMDD], or a week date [YYYY-Www-D],
    [YYYYWwwD], [YYYY-Www], [YYYYWww].  The parser stops once it has its
    fields, so what follows them in a text of the right length is not
    looked at; past the end of the text it reads the terminating NUL. *)

Definition peek (s : string) : ascii :=
  match s with String c _ => c | EmptyString => "000"%char end.

Definition advance (s : string) : string :=
  match s with String _ rest => rest | EmptyString => EmptyString end.

(** [parse_digits]: exactly [n] digits, added to [acc]. *)
Fixpoint parse_digits (n : nat) (acc : Z) (s : string) : option (Z * string) :=
  match n with
  | O => Some (acc, s)
  | S n' =>
      match s with
      | String c rest =>
          if Text.is_digit c then parse_digits n' (10 * acc + Text.digit_val c) rest
          else None
      | EmptyString => None
      end
  end.

Definition days_before_month_table : list Z :=
  [0; 0; 31; 59; 90; 120; 151; 181; 212; 243; 273; 304; 334].

Definition days_before_month (y m : Z) : Z :=
  nth (Z.to_nat m) days_before_month_table 0
  + (if (2 <? m) && is_leap y then 1 else 0).

Definition days_before_year (y : Z) : Z :=
  let y := y - 1 in y * 365 + y / 4 - y / 100 + y / 400.

(** Ordinal of a day, 1 for the first of January of the year 1. *)
Definition ymd_to_ord (y m d : Z) : Z := days_before_year y + days_before_month y m + d.

(** The date of an ordinal, for [1 <= ordinal]. *)
Definition ord_to_ymd (ordinal : Z) : Z * Z * Z :=
  let ordinal := ordinal - 1 in
  let n400 := ordinal / 146097 in
  let n := ordinal mod 146097 in
  let n100 := n / 36524 in
  let n := n mod 36524 in
  let n4 := n / 1461 in
  let n := n mod 1461 in
  let n1 := n / 365 in
  let n := n mod 365 in
  let y := n400 * 400 + 1 + n100 * 100 + n4 * 4 + n1 in
  if (n1 =? 4) || (n100 =? 4) then (y - 1, 12, 31)
  else
    let leapyear := (n1 =? 3) && (negb (n4 =? 24) || (n100 =? 3)) in
    let m := Z.shiftr (n + 50) 5 in
    let preceding :=
      nth (Z.to_nat m) days_before_month_table 0
      + (if (2 <? m) && leapyear then 1 else 0) in
    if n <? preceding then
      (y, m - 1, n - (preceding - days_in_month y (m - 1)) + 1)
    else (y, m, n - preceding + 1).

(** Monday is 0. *)
Definition weekday (y m d : Z) : Z := (ymd_to_ord y m d + 6) mod 7.

(** Ordinal of the Monday that starts the first ISO week of a year. *)
Definition iso_week1_monday (y : Z) : Z :=
  let first_day := ymd_to_ord y 1 1 in
  let first_weekday := (first_day + 6) mod 7 in
  let week1_monday := first_day - first_weekday in
  if 3 <? first_weekday then week1_monday + 7 else week1_monday.

(** [iso_to_ymd]: the date of a day of an ISO week.  Week 53 exists in the
    years that start on a Thursday, and in the leap years that start on a
    Wednesday.  The ISO year 0 lies before the first day of the calendar
    and is always refused. *)
Definition iso_to_ymd (y w d : Z) : result (Z * Z * Z) :=
  let first_weekday := weekday y 1 1 in
  let week_ok :=
    ((1 <=? w) && (w <=? 52))
    || ((w =? 53) && ((first_weekday =? 3) || ((first_weekday =? 2) && is_leap y))) in
  if negb week_ok then Raise DateParseError
  else if negb ((1 <=? d) && (d <=? 7)) then Raise DateParseError
  else if y <? 1 then Raise DateParseError
  else Ok (ord_to_ymd (iso_week1_monday y + (w - 1) * 7 + d - 1)).

Definition fromisoformat (s : string) : result date :=
  let len := String.length s in
  if negb ((len =? 7) || (len =? 8) || (len =? 10))%nat then Raise DateParseError
  else
    match parse_digits 4 0 s with
    | None => Raise DateParseError
    | Some (y, p) =>
        let uses_separator := Ascii.eqb (peek p) "-" in
        let p := if uses_separator then advance p else p in
        if Ascii.eqb (peek p) "W" then
          match parse_digits 2 0 (advance p) with
          | None => Raise DateParseError
          | Some (w, p) =>
              match p with
              | EmptyString =>
                  '(y', m', d') <- iso_to_ymd y w 1 ;; make y' m' d'
              | String c rest =>
                  if uses_separator && negb (Ascii.eqb c "-") then Raise DateParseError
                  else
                    match parse_digits 1 0 (if uses_separator then rest else p) with
                    | None => Raise DateParseError
                    | Some (d, _) =>
                        '(y', m', d') <- iso_to_ymd y w d ;; make y' m' d'
                    end
              end
          end
        else
          match parse_digits 2 0 p with
          | None => Raise DateParseError
          | Some (m, p) =>
              if uses_separator && negb (Ascii.eqb (peek p) "-") then Raise DateParseError
              else
                match parse_digits 2 0 (if uses_separator then advance p else p) with
                | None => Raise DateParseError
                | Some (d, _) => make y m d
                end
          end
    end.

End PyDate.

(** ** Python values *)

#[local] Set Warnings "-register-all".

(** The values that reach the controller: what [json.load] yields for the
    mapping document, and the numbers, texts, booleans and native dates of
    the external record. *)
Inductive pyval : Type :=
| VNone
| VBool (b : bool)
| VInt (z : Z)
| VFloat (f : float)
| VStr (s : string)
| VList (l : list pyval)
| VDict (d : list (string * pyval))
| VDate (d : PyDate.date)
| VDateTime (d : PyDate.date) (t : PyDate.clock).

(** Dictionaries with [str] keys, in insertion order. *)
Definition dict (V : Type) : Type := list (string * V).

Section Dict.
Context {V : Type}.

Fixpoint dict_get (k : string) (d : dict V) : option V :=
  match d with
  | [] => None
  | (k', v) :: rest => if String.eqb k' k then Some v else dict_get k rest
  end.

(** [k in d] *)
Definition dict_mem (k : string) (d : dict V) : bool :=
  match dict_get k d with Some _ => true | None => false end.

(** [d[k] = v]: in place when the key exists, at the end otherwise. *)
Fixpoint dict_set (k : string) (v : V) (d : dict V) : dict V :=
  match d with
  | [] => [(k, v)]
  | (k', v') :: rest =>
      if String.eqb k' k then (k', v) :: rest else (k', v') :: dict_set k v rest
  end.

(** [d.pop(k, None)] *)
Definition dict_pop (k : string) (d : dict V) : dict V :=
  filter (fun kv => negb (String.eqb (fst kv) k)) d.

Definition keys (d : dict V) : list string := map fst d.

End Dict.

(** [bool(v)] *)
Definition truthy (v : pyval) : bool :=
  match v with
  | VNone => false
  | VBool b => b
  | VInt z => negb (z =? 0)
  | VFloat f => PyFloat.truthy f
  | VStr s => negb (String.eqb s "")
  | VList l => match l with [] => false | _ => true end
  | VDict d => match d with [] => false | _ => true end
  | VDate _ | VDateTime _ _ => true
  end.

(** [a or b] *)
Definition py_or (a b : pyval) : pyval := if truthy a then a else b.

(** [d.get(k)] *)
Definition get (k : string) (d : dict pyval) : pyval :=
  match dict_get k d with Some v => v | None => VNone end.

Definition hashable (v : pyval) : bool :=
  match v with
  | VList _ | VDict _ => false
  | _ => true
  end.

(** [m.get(key, dflt)] on a dictionary with [str] keys: the key is hashed
    first, and only a [str] can be equal to one of the keys. *)
Definition get_default (m : dict pyval) (key dflt : pyval) : result pyval :=
  if hashable key then
    match key with
    | VStr s => Ok (match dict_get s m with Some v => v | None => dflt end)
    | _ => Ok dflt
    end
  else Raise Unhashable.

(** [float(v)] *)
Definition py_float (v : pyval) : result float :=
  match v with
  | VFloat f => Ok f
  | VInt z => match PyFloat.of_int z with Some f => Ok f | None => Raise FloatOfHugeInt end
  | VBool b => Ok (if b then one else zero)
  | VStr s => match PyFloat.of_string s with Some f => Ok f | None => Raise FloatOfBadText end
  | _ => Raise FloatOfBadType
  end.

(** [int(v)] *)
Definition py_int (v : pyval) : result Z :=
  match v with
  | VInt z => Ok z
  | VBool b => Ok (if b then 1 else 0)
  | VFloat f => PyFloat.to_int f
  | VStr s => match int_of_string s with Some z => Ok z | None => Raise IntOfBadText end
  | _ => Raise IntOfBadType
  end.

(** Every int in [v] can be written in decimal: none is over the cap. *)
Fixpoint ints_ok (v : pyval) : bool :=
  match v with
  | VInt z => int_str_ok z
  | VList l => forallb ints_ok l
  | VDict d => forallb (fun kv => ints_ok (snd kv)) d
  | _ => true
  end.

(** The result of [str(v)].  The text is spelled out where it is short to
    state; for a float, a list, a dict and a datetime it is kept as the
    application [str(v)], which nothing in the module inspects. *)
Inductive text : Type :=
| Plain (s : string)
| StrOf (v : pyval).

(** [str(v)]: ValueError when [v] is, or holds, an int over the cap. *)
Definition py_str (v : pyval) : result text :=
  if ints_ok v then
    Ok match v with
       | VStr s => Plain s
       | VNone => Plain "None"
       | VBool b => Plain (if b then "True" else "False")
       | VInt z => Plain (Text.of_int z)
       | VDate d => Plain (PyDate.isoformat d)
       | _ => StrOf v
       end
  else Raise IntStrLimit.

(** [for x in v]: the elements a value yields when iterated. *)
Definition iterate (v : pyval) : result (list pyval) :=
  match v with
  | VList l => Ok l
  | VStr s => Ok (map VStr (Text.chars s))
  | VDict d => Ok (map (fun kv => VStr (fst kv)) d)
  | _ => Raise NotIterable
  end.

(** ** The request *)

(** The value of one typed variable, after coercion. *)
Inductive var_value : Type :=
| StrValue (t : text)            (* dateVariables, stringVariables *)
| DoubleValue (f : float)        (* doubleVariables *)
| IntegerValue (z : Z)           (* integerVariables *)
| ListValue (l : list float).    (* listOfDoubleVariables *)

(** [{"name": name, "value": value}] *)
Record var_entry : Type := { var_name : string; var_value_of : var_value }.

(** A value held in [coRequest]: a scalar field, or a list to which typed
    variables have been appended.  [Vars plain entries] is the list
    [plain + entries]; the collections the controller creates have an empty
    [plain]. *)
Inductive co_value : Type :=
| Scalar (v : pyval)
| Vars (plain : list pyval) (entries : list var_entry).

(** [{"__DecisionID__": ..., "coRequest": ...}] *)
Record odm_request_t : Type := { DecisionID : string; coRequest : dict co_value }.

(** ** The mapping document *)

(** A rule of [co_fields] or [variables]: the shorthand ["source_key"], or a
    dictionary with [from] and the transformation options. *)
Inductive rule : Type :=
| Shorthand (src : string)
| Full (spec : dict pyval).

(** The mapping document as [json.load] returns it, read at the five places
    the controller looks at; a part that is missing or null is empty. *)
Record mapping_t : Type := {
  co_fields : dict rule;
  variables : dict (dict rule);
  constants_co_fields : dict pyval;
  constants_variables : dict (dict pyval);
  required_odm : list string
}.

(** What a run depends on besides its arguments. *)
Record environment : Type := {
  (** [str(Path(__file__).with_name("mapping.json"))] *)
  DEFAULT_MAPPING_PATH : string;
  (** The JSON documents on disk, by path; [None] where no file exists. *)
  files : string -> option mapping_t;
  (** The position of a text in the hash table of a set.  A set is iterated
      in table order, which for [str] elements changes from one interpreter
      run to the next. *)
  set_slot : string -> nat
}.

Definition DEFAULT_ODM_URL : string :=
  "https://odmdds.grouperci.com/DecisionService/rest/Credit_Risk_ES/CO/".
Definition ODM_DATE_FORMAT : string := "%Y-%m-%d".

(** *** Sets of names *)

Definition mem (x : string) (l : list string) : bool := existsb (String.eqb x) l.

Fixpoint insert_by (rank : string -> nat) (x : string) (l : list string) : list string :=
  match l with
  | [] => [x]
  | y :: rest => if (rank x <? rank y)%nat then x :: l else y :: insert_by rank x rest
  end.

(** [set(l)], as the list its iteration yields: each element once, in the
    order of the slots. *)
Definition py_set (rank : string -> nat) (l : list string) : list string :=
  fold_left (fun acc x => if mem x acc then acc else insert_by rank x acc) l [].

(** ** The controller *)

Record odm_controller : Type := {
  odm_url : string;
  headers : dict string;
  timeout : Z;
  odm_request : option odm_request_t;
  odm_response : option pyval;
  mapping_path : string
}.

(** An optional text that counts as true: given and not empty. *)
Definition nonempty (o : option string) : option string :=
  match o with
  | Some s => if String.eqb s "" then None else Some s
  | None => None
  end.

(** [odm_controller(odm_url, headers, timeout, decision_id, mapping_path)] *)
Definition __init__ (env : environment) (url : string) (hdrs : option (dict string))
    (tmo : Z) (decision_id : option string) (path : option string) : odm_controller :=
  {| odm_url := url;
     headers := match hdrs with
                | Some (h :: t) => h :: t
                | _ => [("Content-Type", "application/json")]
                end;
     timeout := tmo;
     odm_request := match nonempty decision_id with
                    | Some id => Some {| DecisionID := id; coRequest := [] |}
                    | None => None
                    end;
     odm_response := None;
     mapping_path := match nonempty path with
                     | Some p => p
                     | None => DEFAULT_MAPPING_PATH env
                     end |}.

(** *** [_normalize_date] *)
Definition _normalize_date (v : pyval) (fmt_in : pyval) : result pyval :=
  match v with
  | VNone => Ok VNone
  | VDate d | VDateTime d _ => Ok (VStr (PyDate.strftime d ODM_DATE_FORMAT))
  | VStr v' =>
      if String.eqb v' "" then Ok VNone
      else
        let s := Text.strip v' in
        if truthy fmt_in then
          match fmt_in with
          | VStr f => d <- PyDate.strptime s f ;; Ok (VStr (PyDate.strftime d ODM_DATE_FORMAT))
          | _ => Raise DateFormatNotStr
          end
        else
          d <- PyDate.fromisoformat (substring 0 10 s) ;;
          Ok (VStr (PyDate.strftime d ODM_DATE_FORMAT))
  | _ => Raise InvalidDateType
  end.

(** *** [_apply_transform] *)

(** [value is None or (isinstance(value, str) and value.strip() == "")] *)
Definition is_blank (value : pyval) : bool :=
  match value with
  | VNone => true
  | VStr s => String.eqb (Text.strip s) ""
  | _ => false
  end.

(** [[t.strip() for t in value.replace(";", ",").split(",") if t.strip()]] *)
Definition split_csv (value : string) : list string :=
  flat_map (fun t => if String.eqb (Text.strip t) "" then [] else [Text.strip t])
           (Text.split "," (Text.replace_char ";" "," value)).

Definition step_default (cfg : dict pyval) (value : pyval) : pyval :=
  if is_blank value && dict_mem "default" cfg then get "default" cfg else value.

Definition step_map_from (cfg : dict pyval) (value : pyval) : result pyval :=
  match py_or (get "map_from" cfg) (get "map" cfg) with
  | VDict map_from => get_default map_from value value
  | _ => Ok value
  end.

Definition step_split_csv (cfg : dict pyval) (value : pyval) : pyval :=
  match value with
  | VStr s => if truthy (get "split_csv" cfg) then VList (map VStr (split_csv s)) else value
  | _ => value
  end.

Definition step_date (cfg : dict pyval) (value : pyval) : result pyval :=
  if dict_mem "date_in" cfg || truthy (get "as_date" cfg)
  then _normalize_date value (get "date_in" cfg)
  else Ok value.

Definition step_strings (cfg : dict pyval) (value : pyval) : pyval :=
  match value with
  | VStr s =>
      let s := if truthy (get "strip" cfg) then Text.strip s else s in
      let s := if truthy (get "upper" cfg) then Text.upper s else s in
      let s := if truthy (get "lower" cfg) then Text.lower s else s in
      VStr s
  | _ => value
  end.

Definition step_bool_map (cfg : dict pyval) (value : pyval) : result pyval :=
  match get "bool_map" cfg with
  | VDict bool_map => get_default bool_map value (VBool (truthy value))
  | _ => Ok value
  end.

(** The [try] block: any exception of the two casts is swallowed. *)
Definition step_scale (cfg : dict pyval) (value : pyval) : pyval :=
  match value with
  | VNone => value
  | _ =>
      if dict_mem "scale" cfg then
        match py_float value, py_float (get "scale" cfg) with
        | Ok a, Ok b => VFloat (PrimFloat.mul a b)
        | _, _ => value
        end
      else value
  end.

Definition _apply_transform (value : pyval) (cfg : dict pyval) : result pyval :=
  let value := step_default cfg value in
  value <- step_map_from cfg value ;;
  let value := step_split_csv cfg value in
  value <- step_date cfg value ;;
  let value := step_strings cfg value in
  value <- step_bool_map cfg value ;;
  Ok (step_scale cfg value).

(** *** [_add_var] *)

(** [co.setdefault(key, [])], which must yield a list for [.append]. *)
Definition setdefault_list (co : dict co_value) (key : string)
  : result (list pyval * list var_entry) :=
  match dict_get key co with
  | None => Ok ([], [])
  | Some (Vars plain entries) => Ok (plain, entries)
  | Some (Scalar (VList l)) => Ok (l, [])
  | Some (Scalar _) => Raise NoAppend
  end.

(** [(co.setdefault(key, [])).append({"name": name, "value": value})]: the
    list is fetched before the value is computed. *)
Definition append_var (co : dict co_value) (key name : string) (value : result var_value)
  : result (dict co_value) :=
  '(plain, entries) <- setdefault_list co key ;;
  v <- value ;;
  Ok (dict_set key (Vars plain (entries ++ [{| var_name := name; var_value_of := v |}])) co).

(** [[float(x) for x in value]] when [value] is a list, and
    [[float(x) for x in (value or [])]] when it is not. *)
Definition list_double_values (value : pyval) : result (list float) :=
  match value with
  | VList l => map_result py_float l
  | _ =>
      xs <- (if truthy value then iterate value else Ok []) ;;
      map_result py_float xs
  end.

Definition _add_var (co : dict co_value) (vtype name : string) (value : pyval)
  : result (dict co_value) :=
  match value with
  | VNone => Ok co
  | _ =>
      if String.eqb vtype "date" then
        append_var co "dateVariables" name (t <- py_str value ;; Ok (StrValue t))
      else if String.eqb vtype "double" then
        append_var co "doubleVariables" name (f <- py_float value ;; Ok (DoubleValue f))
      else if String.eqb vtype "integer" then
        append_var co "integerVariables" name (z <- py_int value ;; Ok (IntegerValue z))
      else if String.eqb vtype "string" then
        append_var co "stringVariables" name (t <- py_str value ;; Ok (StrValue t))
      else if String.eqb vtype "list_double" then
        vals <- list_double_values value ;;
        append_var co "listOfDoubleVariables" name (Ok (ListValue vals))
      else Raise (UnsupportedVarType vtype)
  end.

(** *** [_build_by_odm_keys] *)

(** [src_key, cfg]: the source key and the options of a rule. *)
Definition source_and_cfg (spec : rule) : pyval * dict pyval :=
  match spec with
  | Shorthand s => (VStr s, [])
  | Full d => (get "from" d, dict_pop "from" d)
  end.

(** [src_key in external_flat], with [external_flat[src_key]] when it is. *)
Definition find (external_flat : dict pyval) (src_key : pyval) : result (option pyval) :=
  if hashable src_key then
    match src_key with
    | VStr s => Ok (dict_get s external_flat)
    | _ => Ok None
    end
  else Raise Unhashable.

(** The state of the loops: [co] and [produced_targets]. *)
Definition build_state : Type := dict co_value * list string.

(** Body of the loop over [constants.co_fields]. *)
Definition constant_field_step (st : build_state) (kv : string * pyval) : result build_state :=
  let '(co, produced_targets) := st in
  let '(k, v) := kv in
  Ok (dict_set k (Scalar v) co, produced_targets).

(** Body of the loop over [co_fields]. *)
Definition co_field_step (external_flat : dict pyval) (st : build_state)
    (item : string * rule) : result build_state :=
  let '(co, produced_targets) := st in
  let '(odm_name, spec) := item in
  let '(src_key, cfg) := source_and_cfg spec in
  found <- find external_flat src_key ;;
  match found with
  | Some v =>
      val <- _apply_transform v cfg ;;
      Ok (dict_set odm_name (Scalar val) co, produced_targets ++ [odm_name])
  | None =>
      if dict_mem "default" cfg
      then Ok (dict_set odm_name (Scalar (get "default" cfg)) co, produced_targets ++ [odm_name])
      else Ok (co, produced_targets)
  end.

Definition collection_keys : list string :=
  ["dateVariables"; "doubleVariables"; "integerVariables"; "stringVariables";
   "listOfDoubleVariables"].

(** The five typed collections start empty. *)
Definition init_collections (co : dict co_value) : dict co_value :=
  fold_left (fun co k => dict_set k (Vars [] []) co) collection_keys co.

(** Body of the inner loop over [constants.variables]. *)
Definition constant_var_step (vtype : string) (st : build_state) (kv : string * pyval)
  : result build_state :=
  let '(co, produced_targets) := st in
  let '(name, value) := kv in
  co' <- _add_var co vtype name value ;;
  Ok (co', produced_targets ++ [name]).

(** Body of the inner loop over [variables]. *)
Definition variable_step (external_flat : dict pyval) (vtype : string) (st : build_state)
    (item : string * rule) : result build_state :=
  let '(co, produced_targets) := st in
  let '(odm_name, spec) := item in
  let '(src_key, cfg) := source_and_cfg spec in
  found <- find external_flat src_key ;;
  match found with
  | Some v =>
      val <- _apply_transform v cfg ;;
      co' <- _add_var co vtype odm_name val ;;
      Ok (co', produced_targets ++ [odm_name])
  | None =>
      if dict_mem "default" cfg then
        co' <- _add_var co vtype odm_name (get "default" cfg) ;;
        Ok (co', produced_targets ++ [odm_name])
      else Ok (co, produced_targets)
  end.

(** Body of the outer loop over [constants.variables]. *)
Definition constant_vars_loop (st : build_state) (group : string * dict pyval)
  : result build_state :=
  let '(vtype, d) := group in for_each (constant_var_step vtype) d st.

(** Body of the outer loop over [variables]. *)
Definition variables_loop (external_flat : dict pyval) (st : build_state)
    (group : string * dict rule) : result build_state :=
  let '(vtype, spec_dict) := group in
  for_each (variable_step external_flat vtype) spec_dict st.

(** [not v] for a value of [co]. *)
Definition is_empty (v : co_value) : bool :=
  match v with
  | Scalar v => negb (truthy v)
  | Vars [] [] => true
  | Vars _ _ => false
  end.

(** [if not co[k]: co.pop(k)]; the five keys are present when this runs. *)
Definition prune (co : dict co_value) (k : string) : dict co_value :=
  match dict_get k co with
  | Some v => if is_empty v then dict_pop k co else co
  | None => co
  end.

(** [decision_id or (self.odm_request or {}).get("__DecisionID__")
     or f"Decision_{uuid4().hex[:12]}"], where [fresh] is the text the
    call of [uuid4] would give. *)
Definition choose_decision_id (self : odm_controller) (decision_id : option string)
    (fresh : string) : string :=
  match nonempty decision_id with
  | Some id => id
  | None =>
      match nonempty (option_map DecisionID (odm_request self)) with
      | Some held => held
      | None => ("Decision_" ++ fresh)%string
      end
  end.

Definition _build_by_odm_keys (self : odm_controller) (external_flat : dict pyval)
    (mapping : mapping_t) (decision_id : option string) (fresh : string)
  : result (odm_request_t * list string) :=
  st <- for_each constant_field_step (constants_co_fields mapping) ([], []) ;;
  st <- for_each (co_field_step external_flat) (co_fields mapping) st ;;
  let st := (init_collections (fst st), snd st) in
  st <- for_each constant_vars_loop (constants_variables mapping) st ;;
  st <- for_each (variables_loop external_flat) (variables mapping) st ;;
  let co := fold_left prune collection_keys (fst st) in
  let dec_id := choose_decision_id self decision_id fresh in
  Ok ({| DecisionID := dec_id; coRequest := co |}, snd st).

(** *** [build_request_from_mapping_file] *)

Definition _load_mapping_file_json (env : environment) (path : string) : result mapping_t :=
  match files env path with
  | Some m => Ok m
  | None => Raise (MappingFileNotFound path)
  end.

(** [[t for t in set(required_odm) if t not in produced_targets]] *)
Definition missing_required (env : environment) (mapping : mapping_t)
    (produced_targets : list string) : list string :=
  filter (fun t => negb (mem t produced_targets))
         (py_set (set_slot env) (required_odm mapping)).

(** The call up to its return value or exception. *)
Definition build_result (env : environment) (self : odm_controller) (external_flat : pyval)
    (path : option string) (decision_id : option string) (validate_required : bool)
    (fresh : string) : result odm_request_t :=
  match external_flat with
  | VDict record =>
      let path := match nonempty path with Some p => p | None => mapping_path self end in
      mapping <- _load_mapping_file_json env path ;;
      '(odm_req, produced_targets) <-
        _build_by_odm_keys self record mapping decision_id fresh ;;
      if validate_required then
        match missing_required env mapping produced_targets with
        | [] => Ok odm_req
        | missing => Raise (MissingRequired missing)
        end
      else Ok odm_req
  | _ => Raise ExternalNotDict
  end.

(** The call with its effect on [self]: a request that is returned is also
    stored; an exception leaves [self] as it was. *)
Definition build_request_from_mapping_file (env : environment) (self : odm_controller)
    (external_flat : pyval) (path : option string) (decision_id : option string)
    (validate_required : bool) (fresh : string) : result odm_request_t * odm_controller :=
  match build_result env self external_flat path decision_id validate_required fresh with
  | Ok odm_req =>
      (Ok odm_req,
       {| odm_url := odm_url self; headers := headers self; timeout := timeout self;
          odm_request := Some odm_req; odm_response := odm_response self;
          mapping_path := mapping_path self |})
  | Raise e => (Raise e, self)
  end.

(** *** [get_request_json] *)

(** What stops [json.dumps]: a date (TypeError) or an int over the cap
    (ValueError).  The encoder writes a list and a dict in order and
    raises at the first value that it cannot write. *)
Section FirstError.
Context {A : Type} (f : A -> option pyexc).

Fixpoint first_error (l : list A) : option pyexc :=
  match l with
  | [] => None
  | x :: rest => match f x with Some e => Some e | None => first_error rest end
  end.

End FirstError.

Fixpoint json_error (v : pyval) : option pyexc :=
  match v with
  | VDate _ | VDateTime _ _ => Some NotSerializable
  | VInt z => if int_str_ok z then None else Some IntStrLimit
  | VList l => first_error json_error l
  | VDict d => first_error (fun kv => json_error (snd kv)) d
  | _ => None
  end.

(** An entry [{"name": ..., "value": ...}] of a typed collection. *)
Definition entry_json_error (e : var_entry) : option pyexc :=
  match var_value_of e with
  | IntegerValue z => if int_str_ok z then None else Some IntStrLimit
  | _ => None
  end.

Definition co_json_error (v : co_value) : option pyexc :=
  match v with
  | Scalar v => json_error v
  | Vars plain entries =>
      match first_error json_error plain with
      | Some e => Some e
      | None => first_error entry_json_error entries
      end
  end.

(** What [json.dumps] can encode: no date, no int over the cap. *)
Fixpoint json_ok (v : pyval) : bool :=
  match v with
  | VDate _ | VDateTime _ _ => false
  | VInt z => int_str_ok z
  | VList l => forallb json_ok l
  | VDict d => forallb (fun '(_, x) => json_ok x) d
  | _ => true
  end.

Definition entry_json_ok (e : var_entry) : bool :=
  match var_value_of e with
  | IntegerValue z => int_str_ok z
  | _ => true
  end.

Definition co_json_ok (v : co_value) : bool :=
  match v with
  | Scalar v => json_ok v
  | Vars plain entries => forallb json_ok plain && forallb entry_json_ok entries
  end.

(** The text [json.dumps(obj, ensure_ascii=False, indent=indent)], kept as
    the application. *)
Inductive json_text : Type :=
| JsonDumps (obj : odm_request_t) (indent : Z).

Definition get_request_json (self : odm_controller) (indent : Z) : result json_text :=
  match odm_request self with
  | None => Raise NoRequestBuilt
  | Some req =>
      match first_error (fun kv => co_json_error (snd kv)) (coRequest req) with
      | Some e => Raise e
      | None => Ok (JsonDumps req indent)
      end
  end.

(** * Properties *)

(** ** Vocabulary of the statements *)

Definition convertible (x : pyval) : Prop := exists f, py_float x = Ok f.

Definition is_none (v : pyval) : bool :=
  match v with VNone => true | _ => false end.

(** The entries of a typed collection of [co]; none when the key is absent. *)
Definition entries_of (co : dict co_value) (key : string) : list var_entry :=
  match dict_get key co with
  | Some (Vars _ entries) => entries
  | _ => []
  end.

(** The collection [_add_var] routes a variable type to. *)
Definition collection_of (vtype : string) : option string :=
  if String.eqb vtype "date" then Some "dateVariables"
  else if String.eqb vtype "double" then Some "doubleVariables"
  else if String.eqb vtype "integer" then Some "integerVariables"
  else if String.eqb vtype "string" then Some "stringVariables"
  else if String.eqb vtype "list_double" then Some "listOfDoubleVariables"
  else None.

(** [_add_var] with this type and value appends to collection [key]. *)
Definition adds_to (key vtype : string) (value : pyval) : bool :=
  negb (is_none value)
  && match collection_of vtype with
     | Some k => String.eqb k key
     | None => false
     end.

(** The value a rule hands on: the pipeline's result when the source key is
    in the record, the default when it is not and one is configured. *)
Definition rule_value (external_flat : dict pyval) (spec : rule) : option pyval :=
  match find external_flat (fst (source_and_cfg spec)) with
  | Ok (Some v) =>
      match _apply_transform v (snd (source_and_cfg spec)) with
      | Ok val => Some val
      | Raise _ => None
      end
  | Ok None =>
      if dict_mem "default" (snd (source_and_cfg spec))
      then Some (get "default" (snd (source_and_cfg spec)))
      else None
  | Raise _ => None
  end.

(** Names the constants put into collection [key], in document order. *)
Definition constant_names (mapping : mapping_t) (key : string) : list string :=
  flat_map (fun '(vtype, d) =>
              flat_map (fun '(name, value) =>
                          if adds_to key vtype value then [name] else []) d)
           (constants_variables mapping).

(** Names the mapped rules put into collection [key], in document order. *)
Definition rule_names (external_flat : dict pyval) (mapping : mapping_t) (key : string)
  : list string :=
  flat_map (fun '(vtype, d) =>
              flat_map (fun '(name, spec) =>
                          match rule_value external_flat spec with
                          | Some val => if adds_to key vtype val then [name] else []
                          | None => []
                          end) d)
           (variables mapping).

(** [spec] is a rule of the mapping for target [name]. *)
Definition rule_for (mapping : mapping_t) (name : string) (spec : rule) : Prop :=
  In (name, spec) (co_fields mapping)
  \/ exists vtype d, In (vtype, d) (variables mapping) /\ In (name, spec) d.

(** [name] is a constant of [constants.variables]. *)
Definition constant_variable (mapping : mapping_t) (name : string) : Prop :=
  exists vtype d value, In (vtype, d) (constants_variables mapping) /\ In (name, value) d.

(** The rule resolves: its source key is in the record, or it is not and a
    default is configured. *)
Definition resolves (external_flat : dict pyval) (spec : rule) : Prop :=
  (exists v, find external_flat (fst (source_and_cfg spec)) = Ok (Some v))
  \/ (find external_flat (fst (source_and_cfg spec)) = Ok None
      /\ dict_mem "default" (snd (source_and_cfg spec)) = true).

(** What a rule adds to [produced_targets]. *)
Definition produced_by (external_flat : dict pyval) (item : string * rule) : list string :=
  match find external_flat (fst (source_and_cfg (snd item))) with
  | Ok (Some _) => [fst item]
  | Ok None => if dict_mem "default" (snd (source_and_cfg (snd item))) then [fst item] else []
  | Raise _ => []
  end.

(** The exceptions of the date step. *)
Definition date_error (e : pyexc) : Prop :=
  e = InvalidDateType \/ e = DateParseError \/ e = DateFormatNotStr
  \/ e = DateFormatUnmodelled.

Fixpoint sortedb (l : list string) : bool :=
  match l with
  | a :: (b :: _) as rest => String.leb a b && sortedb rest
  | _ => true
  end.

(** ** Example inputs *)

(** An environment with one mapping document, at the default path. *)
Definition env_with (m : mapping_t) (slot : string -> nat) : environment :=
  {| DEFAULT_MAPPING_PATH := "mapping.json";
     files := fun p => if String.eqb p "mapping.json" then Some m else None;
     set_slot := slot |}.

Definition empty_mapping : mapping_t :=
  {| co_fields := []; variables := []; constants_co_fields := [];
     constants_variables := []; required_odm := [] |}.

(** A hash table in which ["b"] comes before ["a"]. *)
Definition slot_b_first (s : string) : nat :=
  if String.eqb s "b" then 1%nat else 5%nat.

Definition mapping_two_required : mapping_t :=
  {| co_fields := [("a", Shorthand "fuente_a"); ("b", Shorthand "fuente_b")];
     variables := []; constants_co_fields := [];
     constants_variables := []; required_odm := ["a"; "b"] |}.

(** A name that is both a constant and a mapped rule of type [string]. *)
Definition mapping_constant_and_rule : mapping_t :=
  {| co_fields := []; variables := [("string", [("segment", Shorthand "segmento")])];
     constants_co_fields := [];
     constants_variables := [("string", [("segment", VStr "A")])];
     required_odm := ["segment"] |}.

Definition mapping_constant_only : mapping_t :=
  {| co_fields := []; variables := []; constants_co_fields := [];
     constants_variables := [("string", [("channel", VStr "WEB")])];
     required_odm := ["channel"] |}.

Definition mapping_null_scalar : mapping_t :=
  {| co_fields := [("birthDate", Full [("from", VStr "fecha_nacimiento"); ("as_date", VBool true)])];
     variables := [("date", [("birthDate", Full [("from", VStr "fecha_nacimiento");
                                                  ("as_date", VBool true)])])];
     constants_co_fields := []; constants_variables := []; required_odm := [] |}.

Definition fresh_controller (env : environment) : odm_controller :=
  __init__ env DEFAULT_ODM_URL None 15 None None.

Definition cfg_split_bool : dict pyval :=
  [("split_csv", VBool true); ("bool_map", VDict [("S", VBool true); ("N", VBool false)])].


(** A rule with a default and casing options, for a key the record lacks. *)
Definition rule_with_default : rule :=
  Full [("from", VStr "pais"); ("default", VStr " es "); ("strip", VBool true);
        ("upper", VBool true)].

(** ** Vocabulary of the further properties *)

(** The kind of value each typed collection holds. *)
Definition kind_ok (key : string) (v : var_value) : bool :=
  match v with
  | StrValue _ => String.eqb key "dateVariables" || String.eqb key "stringVariables"
  | DoubleValue _ => String.eqb key "doubleVariables"
  | IntegerValue _ => String.eqb key "integerVariables"
  | ListValue _ => String.eqb key "listOfDoubleVariables"
  end.

(** [c in s] *)
Definition contains_char (c : ascii) (s : string) : bool :=
  existsb (Ascii.eqb c) (list_ascii_of_string s).

(** A date of the calendar, as [date(y, m, d)] accepts it. *)
Definition valid_date (d : PyDate.date) : Prop :=
  1 <= PyDate.year d <= 9999 /\ 1 <= PyDate.month d <= 12
  /\ 1 <= PyDate.day d <= PyDate.days_in_month (PyDate.year d) (PyDate.month d).

(** Every value of the dictionary can be encoded as JSON. *)
Definition all_json_ok (d : dict pyval) : bool := forallb (fun '(_, x) => json_ok x) d.

Definition rule_json_ok (spec : rule) : bool :=
  match spec with
  | Shorthand _ => true
  | Full d => all_json_ok d
  end.

(** The date step is configured: [date_in] is a key, or [as_date] is true. *)
Definition date_enabled (cfg : dict pyval) : bool :=
  dict_mem "date_in" cfg || truthy (get "as_date" cfg).

Definition mapping_scalar_overwrite : mapping_t :=
  {| co_fields := [("customerType", Full [("from", VStr "tipo_cliente");
                                          ("map_from", VDict [("P", VStr "PARTICULAR")])]);
                   ("channel", Shorthand "canal")];
     variables := [("double", [("loanAmount", Full [("from", VStr "monto");
                                                    ("scale", VFloat 0.5)])])];
     constants_co_fields := [("customerType", VStr "UNKNOWN"); ("channel", VStr "WEB")];
     constants_variables := [];
     required_odm := ["channel"; "loanAmount"] |}.

Definition record_scalar_overwrite : dict pyval :=
  [("tipo_cliente", VStr "P"); ("monto", VInt 3000)].

(** The five typed collections are in [co], each a list of entries of its
    kind with nothing else in it. *)
Definition collections_ready (co : dict co_value) : Prop :=
  forall key, In key collection_keys ->
    exists entries, dict_get key co = Some (Vars [] entries)
                    /\ forallb (fun e => kind_ok key (var_value_of e)) entries = true.

(** The decimal numeral of [y] has four digits that read as [y]. *)
Definition four_digit_text (y : Z) : bool :=
  match Text.decimal y with
  | String a (String b (String c (String e EmptyString))) =>
      Text.is_digit a && Text.is_digit b && Text.is_digit c && Text.is_digit e
      && (1000 * Text.digit_val a + 100 * Text.digit_val b
          + 10 * Text.digit_val c + Text.digit_val e =? y)
  | _ => false
  end.

(** Every value held in [co] can be encoded as JSON. *)
Definition co_all_json_ok (co : dict co_value) : bool :=
  forallb (fun '(_, v) => co_json_ok v) co.



(** The rules of one group hold no value that JSON cannot encode. *)
Definition rules_json_ok (rules : dict rule) : bool :=
  forallb (fun '(_, spec) => rule_json_ok spec) rules.

(** A mapping as [json.load] returns it: its constants and the options of
    its rules hold no native date and no int over the digit cap. *)
Definition mapping_json_ok (mapping : mapping_t) : bool :=
  all_json_ok (constants_co_fields mapping)
  && rules_json_ok (co_fields mapping)
  && forallb (fun '(_, rules) => rules_json_ok rules) (variables mapping)
  && forallb (fun '(_, d) => all_json_ok d) (constants_variables mapping).
(** ** Dictionaries *)

Section DictFacts.
Context {V : Type}.
Implicit Types (d : dict V) (k : string) (v : V).

Lemma dict_get_set_eq k v d : dict_get k (dict_set k v d) = Some v.
Proof.
  induction d as [|[k' v'] d IH]; simpl.
  - now rewrite String.eqb_refl.
  - destruct (String.eqb k' k) eqn:E; simpl; rewrite E; auto.
Qed.

Lemma dict_get_set_ne k k' v d : k <> k' -> dict_get k' (dict_set k v d) = dict_get k' d.
Proof.
  intros Hne. induction d as [|[k0 v0] d IH]; simpl.
  - apply String.eqb_neq in Hne. now rewrite Hne.
  - destruct (String.eqb k0 k) eqn:E; simpl.
    + apply String.eqb_eq in E. subst k0.
      apply String.eqb_neq in Hne. now rewrite Hne.
    + now rewrite IH.
Qed.

Lemma dict_get_pop_eq k d : dict_get k (dict_pop k d) = None.
Proof.
  induction d as [|[k0 v0] d IH]; simpl; auto.
  destruct (String.eqb k0 k) eqn:E; simpl; auto. now rewrite E.
Qed.

Lemma dict_get_pop_ne k k' d : k <> k' -> dict_get k' (dict_pop k d) = dict_get k' d.
Proof.
  intros Hne. induction d as [|[k0 v0] d IH]; simpl; auto.
  destruct (String.eqb k0 k) eqn:E; simpl.
  - apply String.eqb_eq in E. subst k0.
    apply String.eqb_neq in Hne. now rewrite Hne.
  - now rewrite IH.
Qed.

End DictFacts.

(** ** Loops and comprehensions *)

Lemma bind_ok {A B : Type} (r : result A) (k : A -> result B) (b : B) :
  bind r k = Ok b -> exists a, r = Ok a /\ k a = Ok b.
Proof. destruct r as [a|e]; simpl; [eauto | discriminate]. Qed.

Lemma bind_raise {A B : Type} (r : result A) (k : A -> result B) (e : pyexc) :
  bind r k = Raise e -> r = Raise e \/ exists a, r = Ok a /\ k a = Raise e.
Proof. destruct r as [a|e']; simpl; [eauto | intros [= ->]; auto]. Qed.

(** A quantity that every iteration extends by [out x] is, after the loop,
    extended by all of them in order. *)
Lemma for_each_trace {A S T : Type} (body : S -> A -> result S)
    (proj : S -> list T) (out : A -> list T) :
  (forall s x s', body s x = Ok s' -> proj s' = proj s ++ out x) ->
  forall l s s', for_each body l s = Ok s' -> proj s' = proj s ++ flat_map out l.
Proof.
  intros Hstep l. induction l as [|x l IH]; simpl; intros s s' H.
  - injection H as <-. now rewrite app_nil_r.
  - apply bind_ok in H as (s1 & H1 & H2).
    rewrite (IH _ _ H2), (Hstep _ _ _ H1). now rewrite app_assoc.
Qed.

(** A property that every iteration keeps holds after the loop. *)
Lemma for_each_keeps {A S : Type} (body : S -> A -> result S) (P : S -> Prop)
    (l : list A) :
  (forall s x s', In x l -> body s x = Ok s' -> P s -> P s') ->
  forall s s', for_each body l s = Ok s' -> P s -> P s'.
Proof.
  induction l as [|x l IH]; simpl; intros Hstep s s' H Hs.
  - now injection H as <-.
  - apply bind_ok in H as (s1 & H1 & H2).
    apply (IH (fun s x s' Hin => Hstep s x s' (or_intror Hin)) _ _ H2).
    eapply Hstep; eauto.
Qed.

Lemma for_each_app {A S : Type} (body : S -> A -> result S) (l1 l2 : list A) (s : S) :
  for_each body (l1 ++ l2) s = (s' <- for_each body l1 s ;; for_each body l2 s').
Proof.
  revert s. induction l1 as [|x l1 IH]; simpl; intros s; auto.
  destruct (body s x); simpl; auto.
Qed.

Lemma map_result_ok {A B : Type} (f : A -> result B) (l : list A) (ys : list B) :
  map_result f l = Ok ys <-> Forall2 (fun x y => f x = Ok y) l ys.
Proof.
  revert ys. induction l as [|x l IH]; simpl; intros ys.
  - split; [intros [= <-]; constructor | intros H; now inversion H].
  - split.
    + intros H. apply bind_ok in H as (y & Hy & H).
      apply bind_ok in H as (ys' & Hys & [= <-]).
      constructor; [assumption | now apply IH].
    + intros H. inversion H as [|? y ? ys' Hy Hys]; subst.
      rewrite Hy. simpl. apply IH in Hys. now rewrite Hys.
Qed.

Lemma map_result_raise {A B : Type} (f : A -> result B) (l : list A) :
  (exists e, map_result f l = Raise e) <-> Exists (fun x => exists e, f x = Raise e) l.
Proof.
  induction l as [|x l IH]; simpl.
  - split; [intros [e H]; discriminate | intros H; inversion H].
  - split.
    + intros [e H]. destruct (f x) as [y|e'] eqn:Hx; simpl in H.
      * right. apply IH. destruct (map_result f l) as [ys|e'']; simpl in H;
          [discriminate | eauto].
      * left. eauto.
    + intros H. destruct (f x) as [y|e'] eqn:Hx; simpl; [|eauto].
      inversion H as [? ? [e He]|? ? Hl]; subst; [congruence|].
      apply IH in Hl as [e He]. rewrite He. simpl. eauto.
Qed.

(** ** Date normalisation *)

(** C9. Date normalisation maps null and the empty string to null, whatever
    the input format; ["15/08/2023"] read with ["%d/%m/%Y"] becomes
    ["2023-08-15"], and ["2021-05-10"] read without an input format stays
    ["2021-05-10"]. *)
Theorem normalize_date_examples :
  (forall fmt_in, _normalize_date VNone fmt_in = Ok VNone)
  /\ (forall fmt_in, _normalize_date (VStr "") fmt_in = Ok VNone)
  /\ _normalize_date (VStr "15/08/2023") (VStr "%d/%m/%Y") = Ok (VStr "2023-08-15")
  /\ _normalize_date (VStr "2021-05-10") VNone = Ok (VStr "2021-05-10").
Proof. repeat split; intros; vm_compute; reflexivity. Qed.

Lemma make_raises y m d e : PyDate.make y m d = Raise e -> e = DateParseError.
Proof. unfold PyDate.make. destruct (_ && _); congruence. Qed.

Lemma directive_raises c e :
  PyDate.directive c = Raise e -> e = DateParseError \/ e = DateFormatUnmodelled.
Proof.
  unfold PyDate.directive.
  repeat match goal with |- context [if ?b then _ else _] => destruct b end;
    intros [=]; auto.
Qed.

Lemma parse_format_raises fmt :
  (forall e, PyDate.parse_format fmt = Raise e ->
             e = DateParseError \/ e = DateFormatUnmodelled)
  /\ (forall c e, PyDate.parse_format (String c fmt) = Raise e ->
                 e = DateParseError \/ e = DateFormatUnmodelled).
Proof.
  assert (Hlit : forall c rest e,
             (forall e, PyDate.parse_format rest = Raise e ->
                        e = DateParseError \/ e = DateFormatUnmodelled) ->
             (items <- PyDate.parse_format rest ;;
              if Text.is_space c then
                match items with
                | PyDate.FSpace :: _ => Ok items
                | _ => Ok (PyDate.FSpace :: items)
                end
              else Ok (PyDate.FLit c :: items)) = Raise e ->
             e = DateParseError \/ e = DateFormatUnmodelled).
  { intros c rest e IH H. apply bind_raise in H as [H|(items & _ & H)]; [now apply IH|].
    destruct (Text.is_space c); [destruct items as [|[] ?]|]; discriminate. }
  induction fmt as [|c' rest [IH1 IH2]].
  - split; [discriminate|]. intros c e. simpl.
    destruct (Ascii.eqb c "%"); [intros [= <-]; auto | destruct (Text.is_space c); discriminate].
  - split; [apply IH2|]. intros c e H.
    change (PyDate.parse_format (String c (String c' rest)))
      with (if Ascii.eqb c "%"
            then it <- PyDate.directive c' ;; items <- PyDate.parse_format rest ;; Ok (it :: items)
            else items <- PyDate.parse_format (String c' rest) ;;
                 if Text.is_space c then
                   match items with
                   | PyDate.FSpace :: _ => Ok items
                   | _ => Ok (PyDate.FSpace :: items)
                   end
                 else Ok (PyDate.FLit c :: items)) in H.
    destruct (Ascii.eqb c "%").
    + apply bind_raise in H as [H|(it & _ & H)]; [now apply directive_raises in H|].
      apply bind_raise in H as [H|(items & _ & H)]; [now apply IH1 | discriminate].
    + now apply (Hlit c (String c' rest) e (IH2 c')).
Qed.

Lemma iso_date_raises y w d e :
  ('(y', m', d') <- PyDate.iso_to_ymd y w d ;; PyDate.make y' m' d') = Raise e ->
  e = DateParseError.
Proof.
  intros H. apply bind_raise in H as [H|([[y' m'] d'] & _ & H)].
  - unfold PyDate.iso_to_ymd in H.
    repeat match type of H with
           | (if ?x then _ else _) = _ => destruct x; try (now injection H as <-)
           end.
    discriminate H.
  - now apply make_raises in H.
Qed.

Lemma fromisoformat_raises s e : PyDate.fromisoformat s = Raise e -> e = DateParseError.
Proof.
  unfold PyDate.fromisoformat. intros H.
  repeat match type of H with
         | _ = _ => first [ apply iso_date_raises in H; exact H
                          | apply make_raises in H; exact H ]
         | (if ?x then _ else _) = _ => destruct x; try (now injection H as <-)
         | match ?x with _ => _ end = _ => destruct x; try (now injection H as <-)
         end.
Qed.

Lemma normalize_date_raises v fmt_in e : _normalize_date v fmt_in = Raise e -> date_error e.
Proof.
  unfold _normalize_date, date_error. destruct v as [| | | |s| | |d|d t]; try (intros [= <-]; auto); try discriminate.
  destruct (String.eqb s ""); [discriminate|].
  destruct (truthy fmt_in).
  - destruct fmt_in as [| | | |f| | | |]; try (intros [= <-]; auto).
    intros H. apply bind_raise in H as [H|(d & _ & H)]; [|discriminate].
    unfold PyDate.strptime in H.
    apply bind_raise in H as [H|(items & _ & H)].
    + apply parse_format_raises in H as [->| ->]; auto.
    + destruct (negb _); [injection H as <-; auto|].
      destruct (PyDate.match_items _ _ _) as [[f' [|]]|];
        try (injection H as <-; auto).
      apply make_raises in H. auto.
  - intros H. apply bind_raise in H as [H|(d & _ & H)]; [|discriminate].
    apply fromisoformat_raises in H. auto.
Qed.

(** ** The transform pipeline *)

Lemma get_default_raises m key dflt e :
  get_default m key dflt = Raise e -> e = Unhashable /\ hashable key = false.
Proof.
  unfold get_default. destruct (hashable key) eqn:Hk.
  - destruct key; discriminate.
  - now intros [= <-].
Qed.

(** C4, as the code has it. The pipeline raises only an exception of the
    date step, or [TypeError] when the value looked up in the substitution
    table or in the boolean table is a list or a dict, which cannot be
    hashed. The numeric scaling is the last step and never raises: a value
    that [float] rejects, or a scale that it rejects, leaves the value as
    it was. *)
Theorem apply_transform_raises (value : pyval) (cfg : dict pyval) :
  (forall e, _apply_transform value cfg = Raise e ->
     (date_error e /\ exists v, step_date cfg v = Raise e)
     \/ (e = Unhashable
         /\ exists v, hashable v = false
                      /\ (step_map_from cfg v = Raise e \/ step_bool_map cfg v = Raise e)))
  /\ (forall r, _apply_transform value cfg = Ok r -> exists v, r = step_scale cfg v)
  /\ (forall e, py_float value = Raise e -> step_scale cfg value = value)
  /\ (forall e, py_float (get "scale" cfg) = Raise e -> step_scale cfg value = value).
Proof.
  repeat split.
  - intros e H. unfold _apply_transform in H.
    apply bind_raise in H as [H|(v1 & _ & H)].
    { right. pose proof H as H'. unfold step_map_from in H'.
      destruct (py_or _ _); try discriminate.
      apply get_default_raises in H' as [-> Hh]. eauto 6. }
    apply bind_raise in H as [H|(v2 & _ & H)].
    { left. split; [|eauto]. unfold step_date in H.
      destruct (_ || _); [|discriminate]. eapply normalize_date_raises; eauto. }
    apply bind_raise in H as [H|(v3 & _ & H)]; [|discriminate].
    right. pose proof H as H'. unfold step_bool_map in H'.
    destruct (get "bool_map" cfg); try discriminate.
    apply get_default_raises in H' as [-> Hh]. eauto 6.
  - intros r H. unfold _apply_transform in H.
    apply bind_ok in H as (v1 & _ & H). apply bind_ok in H as (v2 & _ & H).
    apply bind_ok in H as (v3 & _ & [= <-]). eauto.
  - intros e H. unfold step_scale. rewrite H.
    destruct value; try reflexivity; destruct (dict_mem "scale" cfg); reflexivity.
  - intros e H. unfold step_scale. rewrite H.
    destruct value; try reflexivity;
      destruct (dict_mem "scale" cfg); try reflexivity;
      match goal with |- match ?x with _ => _ end = _ => destruct x; reflexivity end.
Qed.

(** The theorem on the split value of C4's example and on a text that
    [float] rejects. *)
Lemma apply_transform_raises_witness :
  (Unhashable = Unhashable
   /\ exists v, hashable v = false
                /\ (step_map_from cfg_split_bool v = Raise Unhashable
                    \/ step_bool_map cfg_split_bool v = Raise Unhashable))
  /\ step_scale [("scale", VFloat 2)] (VStr "abc") = VStr "abc".
Proof.
  destruct (apply_transform_raises (VStr "S,N") cfg_split_bool) as (H & _).
  destruct (apply_transform_raises (VStr "abc") [("scale", VFloat 2)]) as (_ & _ & H2 & _).
  split.
  - destruct (H Unhashable eq_refl) as [[[He|[He|[He|He]]] _]|Hr];
      [discriminate He .. | exact Hr].
  - exact (H2 FloatOfBadText eq_refl).
Defined.

(** C4 as stated fails: a split value is a list, and looking a list up in
    the boolean table raises [TypeError], with no date step configured. *)
Lemma apply_transform_unhashable :
  _apply_transform (VStr "S,N") cfg_split_bool = Raise Unhashable
  /\ class_of Unhashable = TypeError
  /\ step_date cfg_split_bool (VList [VStr "S"; VStr "N"]) = Ok (VList [VStr "S"; VStr "N"]).
Proof. repeat split. Qed.

(** ** Typed collections *)

(** C3, as the code has it. For a non-null value of type [list_double] the
    entry holds [list_double_values value]. When the value is a list, every
    element is coerced with [float], and an exception is raised exactly when
    some element is not convertible. A value that is not a list is not
    wrapped: it is iterated, so a false value gives the empty list, a text
    gives the coercion of each of its characters, a dict that of its keys,
    and a number, a true boolean or a date raises [TypeError]. *)
Theorem list_double_coercion (co : dict co_value) (name : string) (value : pyval) :
  value <> VNone ->
  _add_var co "list_double" name value
  = (vals <- list_double_values value ;;
     append_var co "listOfDoubleVariables" name (Ok (ListValue vals)))
  /\ (forall l, value = VList l ->
        (forall vals, list_double_values value = Ok vals
                      <-> Forall2 (fun x f => py_float x = Ok f) l vals)
        /\ ((exists e, list_double_values value = Raise e)
            <-> Exists (fun x => ~ convertible x) l))
  /\ ((forall l, value <> VList l) ->
      list_double_values value
      = if truthy value then
          match value with
          | VStr s => map_result py_float (map VStr (Text.chars s))
          | VDict d => map_result py_float (map VStr (keys d))
          | _ => Raise NotIterable
          end
        else Ok []).
Proof.
  intros Hnone. split; [|split].
  - destruct value; try reflexivity. now elim Hnone.
  - intros l ->. clear Hnone. simpl. split.
    + intros vals. apply map_result_ok.
    + rewrite map_result_raise. split; intros H.
      * induction H as [x l' [e He]|x l' _ IH]; [left | now right].
        intros [f Hf]. congruence.
      * induction H as [x l' H|x l' _ IH]; [left | now right].
        unfold convertible in H. destruct (py_float x) as [f|e]; [|eauto].
        elim H. eauto.
  - intros Hlist. unfold list_double_values.
    destruct value; try reflexivity; try (now elim (Hlist _ eq_refl)).
    + simpl. now destruct b.
    + simpl. now destruct (negb (z =? 0)).
    + simpl. now destruct (PyFloat.truthy f).
    + simpl. destruct (negb (String.eqb s "")); reflexivity.
    + simpl. destruct d as [|kv d]; [reflexivity|].
      unfold keys. now rewrite map_map.
Qed.

(** The theorem on a list of a text and an int. *)
Lemma list_double_coercion_witness :
  _add_var [] "list_double" "amortization" (VList [VStr "1.0"; VInt 2])
  = Ok [("listOfDoubleVariables",
         Vars [] [{| var_name := "amortization"; var_value_of := ListValue [1%float; 2%float] |}])].
Proof.
  exact (proj1 (list_double_coercion [] "amortization" (VList [VStr "1.0"; VInt 2])
                  ltac:(discriminate))).
Defined.

(** C3 as stated fails: the number 5 is not wrapped as [[5.0]]; iterating
    it raises [TypeError], whereas the one-element list is accepted. *)
Lemma list_double_scalar_not_wrapped :
  _add_var [] "list_double" "amortization" (VInt 5) = Raise NotIterable
  /\ class_of NotIterable = TypeError
  /\ _add_var [] "list_double" "amortization" (VList [VInt 5])
     = Ok [("listOfDoubleVariables",
            Vars [] [{| var_name := "amortization"; var_value_of := ListValue [5%float] |}])]
  /\ _add_var [] "list_double" "amortization" (VStr "12")
     = Ok [("listOfDoubleVariables",
            Vars [] [{| var_name := "amortization";
                        var_value_of := ListValue [1%float; 2%float] |}])].
Proof. repeat split. Qed.

(** ** Serialising before a build *)

(** C7, as the code has it. On a controller that has just been constructed,
    [get_request_json] raises [RuntimeError] exactly when no decision
    identifier, or an empty one, was given to the constructor; given an
    identifier, the controller holds a request with that identifier and an
    empty [coRequest] from the start, and that request is serialised. A
    build that raises leaves the controller as it was. *)
Theorem get_request_json_after_init (env : environment) (url : string)
    (hdrs : option (dict string)) (tmo : Z) (decision_id path : option string)
    (indent : Z) :
  get_request_json (__init__ env url hdrs tmo decision_id path) indent
  = match nonempty decision_id with
    | None => Raise NoRequestBuilt
    | Some id => Ok (JsonDumps {| DecisionID := id; coRequest := [] |} indent)
    end
  /\ forall self external_flat path' decision_id' validate_required fresh,
       match build_request_from_mapping_file env self external_flat path' decision_id'
               validate_required fresh with
       | (Raise _, self') => self' = self
       | (Ok odm_req, self') => odm_request self' = Some odm_req
       end.
Proof.
  split.
  - unfold get_request_json, __init__. simpl. now destruct (nonempty decision_id).
  - intros. unfold build_request_from_mapping_file.
    now destruct (build_result _ _ _ _ _ _ _).
Qed.

(** C7 as stated fails: a controller constructed with a decision identifier
    serialises a request although nothing was built. *)
Lemma get_request_json_with_decision_id :
  get_request_json
    (__init__ (env_with empty_mapping slot_b_first) DEFAULT_ODM_URL None 15 (Some "D-1") None) 2
  = Ok (JsonDumps {| DecisionID := "D-1"; coRequest := [] |} 2).
Proof. reflexivity. Qed.

(** ** Resolving one rule *)

(** C6. When the source key of a rule is not in the record: with a default
    configured, the value is the default as written, not the result of the
    pipeline; a scalar rule stores it, a typed rule hands it to [_add_var],
    and the target is recorded as produced. Without a default nothing is
    stored and nothing is recorded. *)
Theorem missing_source_key_default (external_flat : dict pyval) (co : dict co_value)
    (produced_targets : list string) (vtype odm_name : string) (spec : rule) :
  find external_flat (fst (source_and_cfg spec)) = Ok None ->
  let cfg := snd (source_and_cfg spec) in
  (dict_mem "default" cfg = true ->
     rule_value external_flat spec = Some (get "default" cfg)
     /\ co_field_step external_flat (co, produced_targets) (odm_name, spec)
        = Ok (dict_set odm_name (Scalar (get "default" cfg)) co,
              produced_targets ++ [odm_name])
     /\ variable_step external_flat vtype (co, produced_targets) (odm_name, spec)
        = (co' <- _add_var co vtype odm_name (get "default" cfg) ;;
           Ok (co', produced_targets ++ [odm_name])))
  /\ (dict_mem "default" cfg = false ->
     rule_value external_flat spec = None
     /\ co_field_step external_flat (co, produced_targets) (odm_name, spec)
        = Ok (co, produced_targets)
     /\ variable_step external_flat vtype (co, produced_targets) (odm_name, spec)
        = Ok (co, produced_targets)).
Proof.
  intros Hfind cfg. subst cfg.
  unfold rule_value, co_field_step, variable_step.
  destruct (source_and_cfg spec) as [src_key cfg]. simpl in *.
  rewrite Hfind. simpl.
  split; intros ->; auto.
Qed.

(** The theorem on a rule with a default and casing options, and on a
    shorthand rule, for a key the record lacks: the default is stored with
    its blanks and in lower case. *)
Lemma missing_source_key_default_witness :
  co_field_step [("ciudad", VStr "Madrid")] ([], []) ("countryCode", rule_with_default)
  = Ok ([("countryCode", Scalar (VStr " es "))], ["countryCode"])
  /\ co_field_step [("ciudad", VStr "Madrid")] ([], []) ("countryCode", Shorthand "pais")
     = Ok ([], []).
Proof.
  split.
  - exact (proj1 (proj2 (proj1 (missing_source_key_default
             [("ciudad", VStr "Madrid")] [] [] "string" "countryCode" rule_with_default
             eq_refl) eq_refl))).
  - exact (proj1 (proj2 (proj2 (missing_source_key_default
             [("ciudad", VStr "Madrid")] [] [] "string" "countryCode" (Shorthand "pais")
             eq_refl) eq_refl))).
Defined.

(** ** Required targets *)

Lemma mem_In x l : mem x l = true <-> In x l.
Proof.
  unfold mem. rewrite existsb_exists. split.
  - intros (y & Hy & E). apply String.eqb_eq in E. now subst.
  - intros H. exists x. split; [assumption | apply String.eqb_refl].
Qed.

Lemma mem_not_In x l : mem x l = false <-> ~ In x l.
Proof.
  rewrite <- mem_In. destruct (mem x l); split; congruence.
Qed.

Lemma insert_by_In rank x y l : In y (insert_by rank x l) <-> y = x \/ In y l.
Proof.
  induction l as [|z l IH]; simpl.
  - intuition.
  - destruct (rank x <? rank z)%nat; simpl; [intuition|]. rewrite IH. intuition.
Qed.

Lemma insert_by_NoDup rank x l : ~ In x l -> NoDup l -> NoDup (insert_by rank x l).
Proof.
  induction l as [|z l IH]; simpl; intros Hx Hl.
  - constructor; [auto | constructor].
  - destruct (rank x <? rank z)%nat.
    + constructor; assumption.
    + inversion Hl as [|? ? Hz Hl']; subst. constructor.
      * rewrite insert_by_In. intros [->|H]; [apply Hx; now left | contradiction].
      * apply IH; [intros H; apply Hx; now right | assumption].
Qed.

Lemma py_set_fold rank l : forall acc,
  NoDup acc ->
  NoDup (fold_left (fun acc x => if mem x acc then acc else insert_by rank x acc) l acc)
  /\ forall y, In y (fold_left (fun acc x => if mem x acc then acc else insert_by rank x acc) l acc)
               <-> In y acc \/ In y l.
Proof.
  induction l as [|x l IH]; simpl; intros acc Hacc.
  - split; [assumption | intuition].
  - destruct (mem x acc) eqn:E.
    + destruct (IH acc Hacc) as [Hn Hin]. split; [assumption|].
      intros y. rewrite Hin. apply mem_In in E. intuition (subst; auto).
    + apply mem_not_In in E.
      destruct (IH (insert_by rank x acc) (insert_by_NoDup rank x acc E Hacc)) as [Hn Hin].
      split; [assumption|]. intros y. rewrite Hin, insert_by_In. intuition.
Qed.

(** A set holds each element of the list once, whatever its order. *)
Lemma py_set_spec rank l :
  NoDup (py_set rank l) /\ forall y, In y (py_set rank l) <-> In y l.
Proof.
  destruct (py_set_fold rank l [] (NoDup_nil _)) as [Hn Hin].
  split; [assumption|]. intros y. unfold py_set. rewrite Hin. simpl. intuition.
Qed.

(** C1, as the code has it. When the record is a dict, the mapping file is
    read, the request is assembled, the validation is on and some required
    target was not produced, the build raises [ValueError] whose list holds
    every missing required name, each once; its order is the iteration order
    of the set of required names, which is not sorted. The controller keeps
    the request it had. *)
Theorem missing_required_reported_in_full (env : environment) (self : odm_controller)
    (external_flat : dict pyval) (path decision_id : option string) (fresh : string)
    (mapping : mapping_t) (odm_req : odm_request_t) (produced_targets : list string) :
  _load_mapping_file_json env
    (match nonempty path with Some p => p | None => mapping_path self end) = Ok mapping ->
  _build_by_odm_keys self external_flat mapping decision_id fresh
  = Ok (odm_req, produced_targets) ->
  (exists t, In t (required_odm mapping) /\ ~ In t produced_targets) ->
  exists missing,
    build_request_from_mapping_file env self (VDict external_flat) path decision_id true fresh
    = (Raise (MissingRequired missing), self)
    /\ class_of (MissingRequired missing) = ValueError
    /\ missing = missing_required env mapping produced_targets
    /\ NoDup missing
    /\ forall t, In t missing <-> In t (required_odm mapping) /\ ~ In t produced_targets.
Proof.
  intros Hload Hbuild (t & Hreq & Hnot).
  destruct (py_set_spec (set_slot env) (required_odm mapping)) as [Hnd Hin].
  assert (Hall : forall t, In t (missing_required env mapping produced_targets)
                           <-> In t (required_odm mapping) /\ ~ In t produced_targets).
  { intros u. unfold missing_required. rewrite filter_In, Hin, negb_true_iff, mem_not_In.
    reflexivity. }
  exists (missing_required env mapping produced_targets).
  split; [|split; [|split; [|split]]]; try reflexivity.
  - unfold build_request_from_mapping_file, build_result.
    rewrite Hload. simpl. rewrite Hbuild. simpl.
    destruct (missing_required env mapping produced_targets) as [|m ms] eqn:E; [|reflexivity].
    exfalso. apply (proj2 (Hall t)). now split.
  - unfold missing_required. now apply NoDup_filter.
  - apply Hall.
Qed.

(** The theorem on a record that feeds one of two required targets. *)
Lemma missing_required_reported_in_full_witness :
  exists missing,
    build_request_from_mapping_file (env_with mapping_two_required slot_b_first)
      (fresh_controller (env_with mapping_two_required slot_b_first))
      (VDict [("fuente_a", VInt 1)]) None None true "5f2a9c01d3e4"
    = (Raise (MissingRequired missing),
       fresh_controller (env_with mapping_two_required slot_b_first))
    /\ class_of (MissingRequired missing) = ValueError
    /\ missing = ["b"]
    /\ NoDup missing
    /\ forall t, In t missing <-> In t ["a"; "b"] /\ ~ In t ["a"].
Proof.
  apply (missing_required_reported_in_full
           (env_with mapping_two_required slot_b_first)
           (fresh_controller (env_with mapping_two_required slot_b_first))
           [("fuente_a", VInt 1)] None None "5f2a9c01d3e4" mapping_two_required
           {| DecisionID := "Decision_5f2a9c01d3e4"; coRequest := [("a", Scalar (VInt 1))] |}
           ["a"] eq_refl eq_refl).
  exists "b". split; [simpl; auto|].
  simpl. intros [H|[]]. discriminate H.
Defined.

(** C1 as stated fails: with two required names missing, the list follows
    the set's iteration order, here ["b"] before ["a"], and is not sorted. *)
Lemma missing_required_not_sorted :
  build_request_from_mapping_file (env_with mapping_two_required slot_b_first)
    (fresh_controller (env_with mapping_two_required slot_b_first))
    (VDict []) None None true "5f2a9c01d3e4"
  = (Raise (MissingRequired ["b"; "a"]),
     fresh_controller (env_with mapping_two_required slot_b_first))
  /\ sortedb ["b"; "a"] = false.
Proof. split; reflexivity. Qed.

(** ** The stages of a build *)

(** A build that returns went through its four loops. *)
Lemma build_stages self external_flat mapping decision_id fresh odm_req produced_targets :
  _build_by_odm_keys self external_flat mapping decision_id fresh
  = Ok (odm_req, produced_targets) ->
  exists st1 st2 st3 st4,
    for_each constant_field_step (constants_co_fields mapping) ([], []) = Ok st1
    /\ for_each (co_field_step external_flat) (co_fields mapping) st1 = Ok st2
    /\ for_each constant_vars_loop (constants_variables mapping)
         (init_collections (fst st2), snd st2) = Ok st3
    /\ for_each (variables_loop external_flat) (variables mapping) st3 = Ok st4
    /\ odm_req = {| DecisionID := choose_decision_id self decision_id fresh;
                    coRequest := fold_left prune collection_keys (fst st4) |}
    /\ produced_targets = snd st4.
Proof.
  unfold _build_by_odm_keys. intros H.
  apply bind_ok in H as (st1 & H1 & H). apply bind_ok in H as (st2 & H2 & H).
  apply bind_ok in H as (st3 & H3 & H). apply bind_ok in H as (st4 & H4 & H).
  injection H as <- <-. exists st1, st2, st3, st4. auto 6.
Qed.

(** Neither the controller, nor the identifier asked for, nor the random
    token decide whether a build returns, what it puts into [coRequest] or
    which targets it records. *)
Lemma build_independent self external_flat mapping decision_id fresh :
  forall self' decision_id' fresh',
    match _build_by_odm_keys self external_flat mapping decision_id fresh with
    | Ok (odm_req, produced_targets) =>
        _build_by_odm_keys self' external_flat mapping decision_id' fresh'
        = Ok ({| DecisionID := choose_decision_id self' decision_id' fresh';
                 coRequest := coRequest odm_req |}, produced_targets)
    | Raise e =>
        _build_by_odm_keys self' external_flat mapping decision_id' fresh' = Raise e
    end.
Proof.
  intros. unfold _build_by_odm_keys.
  destruct (for_each constant_field_step _ _) as [st1|]; simpl; [|reflexivity].
  destruct (for_each (co_field_step external_flat) _ _) as [st2|]; simpl; [|reflexivity].
  destruct (for_each constant_vars_loop _ _) as [st3|]; simpl; [|reflexivity].
  destruct (for_each (variables_loop external_flat) _ _) as [st4|]; simpl; reflexivity.
Qed.

(** *** What each step records *)

Lemma constant_field_step_produced st kv st' :
  constant_field_step st kv = Ok st' -> snd st' = snd st ++ [].
Proof.
  destruct st as [co p], kv as [k v]. simpl. intros [= <-]. simpl. now rewrite app_nil_r.
Qed.

Lemma co_field_step_produced external_flat st item st' :
  co_field_step external_flat st item = Ok st' ->
  snd st' = snd st ++ produced_by external_flat item.
Proof.
  destruct st as [co p], item as [name spec]. unfold co_field_step, produced_by. simpl.
  destruct (source_and_cfg spec) as [src cfg]. simpl. intros H.
  apply bind_ok in H as (found & -> & H). destruct found as [v|].
  - apply bind_ok in H as (val & _ & [= <-]). reflexivity.
  - destruct (dict_mem "default" cfg); injection H as <-; simpl; auto using app_nil_r.
Qed.

Lemma variable_step_produced external_flat vtype st item st' :
  variable_step external_flat vtype st item = Ok st' ->
  snd st' = snd st ++ produced_by external_flat item.
Proof.
  destruct st as [co p], item as [name spec]. unfold variable_step, produced_by. simpl.
  destruct (source_and_cfg spec) as [src cfg]. simpl. intros H.
  apply bind_ok in H as (found & -> & H). destruct found as [v|].
  - apply bind_ok in H as (val & _ & H). apply bind_ok in H as (co' & _ & [= <-]). reflexivity.
  - destruct (dict_mem "default" cfg).
    + apply bind_ok in H as (co' & _ & [= <-]). reflexivity.
    + injection H as <-. simpl. auto using app_nil_r.
Qed.

Lemma constant_var_step_produced vtype st kv st' :
  constant_var_step vtype st kv = Ok st' -> snd st' = snd st ++ [fst kv].
Proof.
  destruct st as [co p], kv as [name value]. unfold constant_var_step. intros H.
  apply bind_ok in H as (co' & _ & [= <-]). reflexivity.
Qed.

(** [produced_targets], exactly: the scalar rules that resolve, then all
    constants of [constants.variables], then the typed rules that resolve. *)
Lemma produced_targets_exact self external_flat mapping decision_id fresh odm_req
    produced_targets :
  _build_by_odm_keys self external_flat mapping decision_id fresh
  = Ok (odm_req, produced_targets) ->
  produced_targets
  = flat_map (produced_by external_flat) (co_fields mapping)
    ++ flat_map (fun group => flat_map (fun kv => [fst kv]) (snd group))
                (constants_variables mapping)
    ++ flat_map (fun group => flat_map (produced_by external_flat) (snd group))
                (variables mapping).
Proof.
  intros H. apply build_stages in H as (st1 & st2 & st3 & st4 & H1 & H2 & H3 & H4 & _ & ->).
  apply (for_each_trace _ snd (fun _ => [])) in H1; [|apply constant_field_step_produced].
  apply (for_each_trace _ snd (produced_by external_flat)) in H2;
    [|apply co_field_step_produced].
  apply (for_each_trace _ snd (fun group => flat_map (fun kv => [fst kv]) (snd group))) in H3.
  2:{ intros s [vtype d] s' Hs. simpl in *.
      apply (for_each_trace _ snd (fun kv => [fst kv])) in Hs; [assumption|].
      apply constant_var_step_produced. }
  apply (for_each_trace _ snd
           (fun group => flat_map (produced_by external_flat) (snd group))) in H4.
  2:{ intros s [vtype d] s' Hs. simpl in *.
      apply (for_each_trace _ snd (produced_by external_flat)) in Hs; [assumption|].
      apply variable_step_produced. }
  rewrite H4, H3. simpl. rewrite H2, H1. simpl.
  assert (E : flat_map (fun _ : string * pyval => @nil string) (constants_co_fields mapping) = []).
  { induction (constants_co_fields mapping); simpl; auto. }
  rewrite E. simpl. now rewrite <- app_assoc.
Qed.

Lemma in_produced_by external_flat t l :
  In t (flat_map (produced_by external_flat) l)
  <-> exists spec, In (t, spec) l /\ resolves external_flat spec.
Proof.
  rewrite in_flat_map. unfold produced_by, resolves. split.
  - intros ([name spec] & Hin & Ht). simpl in Ht. exists spec.
    destruct (find external_flat _) as [[v|]|]; simpl in Ht.
    + destruct Ht as [->|[]]. eauto.
    + destruct (dict_mem "default" _) eqn:E; [|destruct Ht].
      destruct Ht as [->|[]]. eauto.
    + destruct Ht.
  - intros (spec & Hin & Hr). exists (t, spec). split; [assumption|]. simpl.
    destruct Hr as [[v ->]|[-> ->]]; simpl; auto.
Qed.

(** C5, as the code has it. After a build that returns, a target name is
    recorded as produced if and only if it is a constant of
    [constants.variables], or some rule for it resolves: the rule's source
    key is in the record, or it is not and a default is configured. So a
    rule whose source key is missing and that has no default does not
    record its target, but a constant variable of that name does. *)
Theorem produced_targets_iff (self : odm_controller) (external_flat : dict pyval)
    (mapping : mapping_t) (decision_id : option string) (fresh : string)
    (odm_req : odm_request_t) (produced_targets : list string) (t : string) :
  _build_by_odm_keys self external_flat mapping decision_id fresh
  = Ok (odm_req, produced_targets) ->
  (In t produced_targets
   <-> constant_variable mapping t
       \/ exists spec, rule_for mapping t spec /\ resolves external_flat spec).
Proof.
  intros H. rewrite (produced_targets_exact _ _ _ _ _ _ _ H).
  rewrite !in_app_iff, in_produced_by. unfold constant_variable, rule_for. split.
  - intros [(spec & Hin & Hr)|[Hc|Hv]].
    + right. eauto.
    + left. apply in_flat_map in Hc as ([vtype d] & Hg & Hc). simpl in Hc.
      apply in_flat_map in Hc as ([name value] & Hd & [<-|[]]). simpl. eauto.
    + right. apply in_flat_map in Hv as ([vtype d] & Hg & Hv). simpl in Hv.
      apply in_produced_by in Hv as (spec & Hd & Hr). eauto 8.
  - intros [(vtype & d & value & Hg & Hd)|(spec & [Hs|(vtype & d & Hg & Hd)] & Hr)].
    + right. left. apply in_flat_map. exists (vtype, d). split; [assumption|]. simpl.
      apply in_flat_map. exists (t, value). simpl. auto.
    + left. eauto.
    + right. right. apply in_flat_map. exists (vtype, d). split; [assumption|]. simpl.
      apply in_produced_by. eauto.
Qed.

(** The theorem on a mapping whose only entry is a constant variable. *)
Lemma produced_targets_iff_witness :
  In "channel" ["channel"]
  <-> constant_variable mapping_constant_only "channel"
      \/ exists spec, rule_for mapping_constant_only "channel" spec /\ resolves [] spec.
Proof.
  exact (produced_targets_iff
           (fresh_controller (env_with mapping_constant_only slot_b_first)) []
           mapping_constant_only None "5f2a9c01d3e4"
           {| DecisionID := "Decision_5f2a9c01d3e4";
              coRequest := [("stringVariables",
                             Vars [] [{| var_name := "channel";
                                         var_value_of := StrValue (Plain "WEB") |}])] |}
           ["channel"] "channel" eq_refl).
Defined.

(** C5 as stated fails: a constant variable is recorded as produced although
    no value came from the record and no default was substituted; with it
    required, the validation passes on an empty record. *)
Lemma constant_variable_is_produced :
  _build_by_odm_keys (fresh_controller (env_with mapping_constant_only slot_b_first)) []
    mapping_constant_only None "5f2a9c01d3e4"
  = Ok ({| DecisionID := "Decision_5f2a9c01d3e4";
           coRequest := [("stringVariables",
                          Vars [] [{| var_name := "channel";
                                      var_value_of := StrValue (Plain "WEB") |}])] |},
        ["channel"])
  /\ co_fields mapping_constant_only = []
  /\ variables mapping_constant_only = []
  /\ fst (build_request_from_mapping_file (env_with mapping_constant_only slot_b_first)
            (fresh_controller (env_with mapping_constant_only slot_b_first))
            (VDict []) None None true "5f2a9c01d3e4")
     = Ok {| DecisionID := "Decision_5f2a9c01d3e4";
             coRequest := [("stringVariables",
                            Vars [] [{| var_name := "channel";
                                        var_value_of := StrValue (Plain "WEB") |}])] |}.
Proof. repeat split. Qed.

(** ** The typed collections of a build *)

Lemma append_var_inv co key name r co' :
  append_var co key name r = Ok co' ->
  exists plain entries v,
    co' = dict_set key (Vars plain (entries ++ [{| var_name := name; var_value_of := v |}])) co
    /\ entries_of co key = entries.
Proof.
  unfold append_var, setdefault_list, entries_of. intros H.
  apply bind_ok in H as ([plain entries] & Hs & H).
  apply bind_ok in H as (v & _ & [= <-]).
  exists plain, entries, v. split; [reflexivity|].
  destruct (dict_get key co) as [[[]|]|]; try discriminate; now injection Hs as <- <-.
Qed.

Lemma append_var_names co key name r co' k :
  append_var co key name r = Ok co' ->
  map var_name (entries_of co' k)
  = map var_name (entries_of co k) ++ (if String.eqb key k then [name] else []).
Proof.
  intros H. apply append_var_inv in H as (plain & entries & v & -> & <-).
  unfold entries_of at 1. destruct (String.eqb key k) eqn:E.
  - apply String.eqb_eq in E. subst k. rewrite dict_get_set_eq, map_app. reflexivity.
  - apply String.eqb_neq in E. rewrite dict_get_set_ne by assumption.
    now rewrite app_nil_r.
Qed.

Lemma append_var_other co key name r co' k :
  append_var co key name r = Ok co' -> key <> k -> dict_get k co' = dict_get k co.
Proof.
  intros H Hne. apply append_var_inv in H as (plain & entries & v & -> & _).
  now apply dict_get_set_ne.
Qed.

(** [_add_var] returns its argument for a null value, and otherwise appends
    one entry to the collection of the type. *)
Lemma add_var_cases co vtype name value co' :
  _add_var co vtype name value = Ok co' ->
  (value = VNone /\ co' = co)
  \/ (is_none value = false
      /\ exists key r, collection_of vtype = Some key /\ append_var co key name r = Ok co').
Proof.
  intros H.
  assert (Hgen : is_none value = false ->
                 exists key r, collection_of vtype = Some key
                               /\ append_var co key name r = Ok co').
  { intros Hn. unfold _add_var in H. unfold collection_of.
    destruct (String.eqb vtype "date");
      [destruct value; try discriminate Hn; eauto|].
    destruct (String.eqb vtype "double");
      [destruct value; try discriminate Hn; eauto|].
    destruct (String.eqb vtype "integer");
      [destruct value; try discriminate Hn; eauto|].
    destruct (String.eqb vtype "string");
      [destruct value; try discriminate Hn; eauto|].
    destruct (String.eqb vtype "list_double").
    - assert (H' : (vals <- list_double_values value ;;
                    append_var co "listOfDoubleVariables" name (Ok (ListValue vals))) = Ok co')
        by (destruct value; try discriminate Hn; exact H).
      apply bind_ok in H' as (vals & _ & H'). eauto.
    - destruct value; discriminate. }
  destruct value; try (right; split; [reflexivity | now apply Hgen]).
  left. split; [reflexivity | now injection H].
Qed.

Lemma collection_of_keys vtype key : collection_of vtype = Some key -> In key collection_keys.
Proof.
  unfold collection_of, collection_keys.
  repeat match goal with |- context [if ?b then _ else _] => destruct b end;
    intros [= <-]; simpl; auto 6.
Qed.

Lemma add_var_names co vtype name value co' k :
  _add_var co vtype name value = Ok co' ->
  map var_name (entries_of co' k)
  = map var_name (entries_of co k) ++ (if adds_to k vtype value then [name] else []).
Proof.
  intros H. unfold adds_to.
  apply add_var_cases in H as [[-> ->]|(-> & key & r & -> & H)]; simpl.
  - now rewrite app_nil_r.
  - now apply append_var_names with (k := k) in H.
Qed.

Lemma add_var_other co vtype name value co' k :
  _add_var co vtype name value = Ok co' -> ~ In k collection_keys ->
  dict_get k co' = dict_get k co.
Proof.
  intros H Hk. apply add_var_cases in H as [[_ ->]|(_ & key & r & Hc & H)]; [reflexivity|].
  apply (append_var_other _ _ _ _ _ k H). intros ->.
  apply Hk. eapply collection_of_keys; eauto.
Qed.

Lemma init_collections_get co key :
  In key collection_keys -> dict_get key (init_collections co) = Some (Vars [] []).
Proof.
  unfold init_collections, collection_keys. simpl.
  intros [<-|[<-|[<-|[<-|[<-|[]]]]]];
    repeat first [ rewrite dict_get_set_eq; reflexivity
                 | rewrite dict_get_set_ne by discriminate ].
Qed.

Lemma init_collections_other co k :
  ~ In k collection_keys -> dict_get k (init_collections co) = dict_get k co.
Proof.
  unfold init_collections, collection_keys. simpl. intros Hk.
  repeat (rewrite dict_get_set_ne; [|intros <-; apply Hk; simpl; auto 6]).
  reflexivity.
Qed.

Lemma prune_entries co k key : entries_of (prune co k) key = entries_of co key.
Proof.
  unfold prune. destruct (dict_get k co) as [v|] eqn:Hv; [|reflexivity].
  destruct (is_empty v) eqn:He; [|reflexivity].
  unfold entries_of. destruct (string_dec k key) as [->|Hne].
  - rewrite dict_get_pop_eq, Hv. destruct v as [|[] []]; try reflexivity; discriminate.
  - now rewrite dict_get_pop_ne.
Qed.

Lemma prune_all_entries keys co key :
  entries_of (fold_left prune keys co) key = entries_of co key.
Proof.
  revert co. induction keys as [|k ks IH]; simpl; intros co; [reflexivity|].
  now rewrite IH, prune_entries.
Qed.

Lemma prune_all_other ks co k :
  ~ In k ks -> dict_get k (fold_left prune ks co) = dict_get k co.
Proof.
  revert co. induction ks as [|k' ks IH]; simpl; intros co Hk; [reflexivity|].
  rewrite IH by tauto. unfold prune.
  destruct (dict_get k' co) as [v|]; [|reflexivity].
  destruct (is_empty v); [|reflexivity].
  apply dict_get_pop_ne. tauto.
Qed.

Lemma constant_var_step_names key vtype st kv st' :
  constant_var_step vtype st kv = Ok st' ->
  map var_name (entries_of (fst st') key)
  = map var_name (entries_of (fst st) key)
    ++ (let '(name, value) := kv in if adds_to key vtype value then [name] else []).
Proof.
  destruct st as [co p], kv as [name value]. unfold constant_var_step. intros H.
  apply bind_ok in H as (co' & H & [= <-]). simpl. now apply add_var_names.
Qed.

Lemma variable_step_names external_flat key vtype st item st' :
  variable_step external_flat vtype st item = Ok st' ->
  map var_name (entries_of (fst st') key)
  = map var_name (entries_of (fst st) key)
    ++ (let '(name, spec) := item in
        match rule_value external_flat spec with
        | Some val => if adds_to key vtype val then [name] else []
        | None => []
        end).
Proof.
  destruct st as [co p], item as [name spec]. unfold variable_step, rule_value.
  destruct (source_and_cfg spec) as [src cfg]. simpl. intros H.
  apply bind_ok in H as (found & -> & H). destruct found as [v|].
  - apply bind_ok in H as (val & -> & H). apply bind_ok in H as (co' & H & [= <-]).
    simpl. now apply add_var_names.
  - destruct (dict_mem "default" cfg).
    + apply bind_ok in H as (co' & H & [= <-]). simpl. now apply add_var_names.
    + injection H as <-. simpl. now rewrite app_nil_r.
Qed.





(** ** Null results *)

Lemma co_field_step_other external_flat st item st' k :
  co_field_step external_flat st item = Ok st' -> fst item <> k ->
  dict_get k (fst st') = dict_get k (fst st).
Proof.
  destruct st as [co p], item as [name spec]. unfold co_field_step.
  destruct (source_and_cfg spec) as [src cfg]. simpl. intros H Hne.
  apply bind_ok in H as (found & _ & H). destruct found as [v|].
  - apply bind_ok in H as (val & _ & [= <-]). simpl. now apply dict_get_set_ne.
  - destruct (dict_mem "default" cfg); injection H as <-; simpl;
      [now apply dict_get_set_ne | reflexivity].
Qed.

Lemma typed_loops_other external_flat k :
  ~ In k collection_keys ->
  (forall l st st', for_each constant_vars_loop l st = Ok st' ->
                    dict_get k (fst st') = dict_get k (fst st))
  /\ (forall l st st', for_each (variables_loop external_flat) l st = Ok st' ->
                       dict_get k (fst st') = dict_get k (fst st)).
Proof.
  intros Hk. split; intros l st st' H.
  - revert st st' H. induction l as [|[vtype d] l IH]; simpl; intros st st' H.
    + now injection H as <-.
    + apply bind_ok in H as (s1 & H1 & H2). rewrite (IH _ _ H2). clear IH H2.
      revert st s1 H1. induction d as [|[name value] d IHd]; simpl; intros st s1 H1.
      * now injection H1 as <-.
      * apply bind_ok in H1 as (s2 & Hs & H1). rewrite (IHd _ _ H1).
        destruct st as [co p]. unfold constant_var_step in Hs.
        apply bind_ok in Hs as (co' & Hs & [= <-]). simpl.
        eapply add_var_other; eauto.
  - revert st st' H. induction l as [|[vtype d] l IH]; simpl; intros st st' H.
    + now injection H as <-.
    + apply bind_ok in H as (s1 & H1 & H2). rewrite (IH _ _ H2). clear IH H2.
      revert st s1 H1. induction d as [|[name spec] d IHd]; simpl; intros st s1 H1.
      * now injection H1 as <-.
      * apply bind_ok in H1 as (s2 & Hs & H1). rewrite (IHd _ _ H1).
        destruct st as [co p]. unfold variable_step in Hs.
        destruct (source_and_cfg spec) as [src cfg].
        apply bind_ok in Hs as (found & _ & Hs). destruct found as [v|].
        -- apply bind_ok in Hs as (val & _ & Hs). apply bind_ok in Hs as (co' & Hs & [= <-]).
           simpl. eapply add_var_other; eauto.
        -- destruct (dict_mem "default" cfg).
           ++ apply bind_ok in Hs as (co' & Hs & [= <-]). simpl. eapply add_var_other; eauto.
           ++ now injection Hs as <-.
Qed.

(** C10. A scalar rule whose source key is in the record and whose pipeline
    yields null stores the target with the value null and records it as
    produced; in the request that a build returns, the target is there with
    the value null (for a target that is not named like one of the five
    collections). A typed rule in the same situation hands null to
    [_add_var], which adds no entry, and the target is recorded as produced
    all the same. *)
Theorem null_scalar_kept_null_variable_dropped (external_flat : dict pyval)
    (co : dict co_value) (produced_targets : list string) (vtype odm_name : string)
    (spec : rule) (v : pyval) :
  find external_flat (fst (source_and_cfg spec)) = Ok (Some v) ->
  _apply_transform v (snd (source_and_cfg spec)) = Ok VNone ->
  (co_field_step external_flat (co, produced_targets) (odm_name, spec)
   = Ok (dict_set odm_name (Scalar VNone) co, produced_targets ++ [odm_name])
   /\ dict_get odm_name (dict_set odm_name (Scalar VNone) co) = Some (Scalar VNone))
  /\ (variable_step external_flat vtype (co, produced_targets) (odm_name, spec)
      = Ok (co, produced_targets ++ [odm_name])
      /\ forall key, adds_to key vtype VNone = false)
  /\ forall self mapping decision_id fresh odm_req produced',
       In (odm_name, spec) (co_fields mapping) ->
       NoDup (keys (co_fields mapping)) ->
       ~ In odm_name collection_keys ->
       _build_by_odm_keys self external_flat mapping decision_id fresh
       = Ok (odm_req, produced') ->
       dict_get odm_name (coRequest odm_req) = Some (Scalar VNone)
       /\ In odm_name produced'.
Proof.
  intros Hfind Hval.
  assert (Hstep : forall co p, co_field_step external_flat (co, p) (odm_name, spec)
                               = Ok (dict_set odm_name (Scalar VNone) co, p ++ [odm_name])).
  { intros co0 p0. unfold co_field_step.
    destruct (source_and_cfg spec) as [src cfg]. simpl in *.
    rewrite Hfind. simpl. rewrite Hval. reflexivity. }
  split; [|split].
  - split; [apply Hstep | apply dict_get_set_eq].
  - split; [|reflexivity]. unfold variable_step.
    destruct (source_and_cfg spec) as [src cfg]. simpl in *.
    rewrite Hfind. simpl. rewrite Hval. reflexivity.
  - intros self mapping decision_id fresh odm_req produced' Hin Hnd Hk H.
    split.
    2:{ rewrite (produced_targets_exact _ _ _ _ _ _ _ H).
        apply in_or_app. left. apply in_produced_by. exists spec.
        split; [assumption|]. left. eauto. }
    apply build_stages in H as (st1 & st2 & st3 & st4 & _ & H2 & H3 & H4 & -> & _).
    cbn [coRequest]. rewrite prune_all_other by assumption.
    destruct (typed_loops_other external_flat odm_name Hk) as [Hc Hv].
    rewrite (Hv _ _ _ H4), (Hc _ _ _ H3). cbn [fst].
    rewrite init_collections_other by assumption.
    apply in_split in Hin as (l1 & l2 & E). rewrite E in H2, Hnd.
    rewrite for_each_app in H2. apply bind_ok in H2 as ([coa pa] & _ & H2).
    cbn [for_each] in H2. rewrite Hstep in H2. cbn [bind] in H2.
    unfold keys in Hnd. rewrite map_app in Hnd. simpl in Hnd.
    apply NoDup_remove_2 in Hnd.
    assert (Hl2 : forall x, In x l2 -> fst x <> odm_name).
    { intros x Hx Ex. apply Hnd. apply in_or_app. right. rewrite <- Ex. now apply in_map. }
    refine (for_each_keeps _ (fun st => dict_get odm_name (fst st) = Some (Scalar VNone))
              l2 _ _ _ H2 _).
    + intros s x s' Hx Hs Hp. rewrite (co_field_step_other _ _ _ _ _ Hs (Hl2 x Hx)).
      exact Hp.
    + apply dict_get_set_eq.
Qed.

(** The theorem on a date rule fed with the empty text, which the date
    step turns into null. *)
Lemma null_scalar_kept_null_variable_dropped_witness :
  co_field_step [("fecha_nacimiento", VStr "")] ([], [])
    ("birthDate", Full [("from", VStr "fecha_nacimiento"); ("as_date", VBool true)])
  = Ok ([("birthDate", Scalar VNone)], ["birthDate"])
  /\ variable_step [("fecha_nacimiento", VStr "")] "date" ([], [])
       ("birthDate", Full [("from", VStr "fecha_nacimiento"); ("as_date", VBool true)])
     = Ok ([], ["birthDate"])
  /\ dict_get "birthDate"
       [("birthDate", Scalar VNone)] = Some (Scalar VNone).
Proof.
  pose proof (null_scalar_kept_null_variable_dropped
                [("fecha_nacimiento", VStr "")] [] [] "date" "birthDate"
                (Full [("from", VStr "fecha_nacimiento"); ("as_date", VBool true)])
                (VStr "") eq_refl eq_refl) as ((H1 & _) & (H2 & _) & H3).
  split; [exact H1 | split; [exact H2|]].
  refine (proj1 (H3 (fresh_controller (env_with mapping_null_scalar slot_b_first))
                    mapping_null_scalar None "5f2a9c01d3e4"
                    {| DecisionID := "Decision_5f2a9c01d3e4";
                       coRequest := [("birthDate", Scalar VNone)] |}
                    ["birthDate"; "birthDate"] _ _ _ eq_refl)).
  - left. reflexivity.
  - repeat constructor. intros [].
  - simpl. intros [H|[H|[H|[H|[H|[]]]]]]; discriminate H.
Defined.

(** ** Repeated builds *)

Lemma nonempty_Some o s : nonempty o = Some s -> nonempty (Some s) = Some s.
Proof.
  unfold nonempty. destruct o as [s'|]; [|discriminate].
  destruct (String.eqb s' "") eqn:E; [discriminate|]. intros [= <-]. now rewrite E.
Qed.

(** The identifier of a request is never empty. *)
Lemma choose_decision_id_nonempty self decision_id fresh :
  nonempty (Some (choose_decision_id self decision_id fresh))
  = Some (choose_decision_id self decision_id fresh).
Proof.
  unfold choose_decision_id.
  destruct (nonempty decision_id) as [id|] eqn:E1; [now apply nonempty_Some in E1|].
  destruct (nonempty (option_map DecisionID (odm_request self))) as [held|] eqn:E2;
    [now apply nonempty_Some in E2 | reflexivity].
Qed.

(** A controller that holds the request of a build chooses that request's
    identifier again, whatever the random token. *)
Lemma choose_decision_id_held self self' decision_id fresh fresh' odm_req :
  odm_request self' = Some odm_req ->
  DecisionID odm_req = choose_decision_id self decision_id fresh ->
  choose_decision_id self' decision_id fresh' = choose_decision_id self decision_id fresh.
Proof.
  intros Hreq Hid. unfold choose_decision_id at 1.
  destruct (nonempty decision_id) as [id|] eqn:E.
  - unfold choose_decision_id. now rewrite E.
  - rewrite Hreq. cbn [option_map]. now rewrite Hid, choose_decision_id_nonempty.
Qed.

(** Two builds of one record with one mapping differ at most in the
    identifier they choose. *)
Lemma build_result_shape env self self' external_flat path decision_id decision_id'
    validate_required fresh fresh' :
  mapping_path self' = mapping_path self ->
  match build_result env self external_flat path decision_id validate_required fresh with
  | Ok odm_req =>
      build_result env self' external_flat path decision_id' validate_required fresh'
      = Ok {| DecisionID := choose_decision_id self' decision_id' fresh';
              coRequest := coRequest odm_req |}
      /\ DecisionID odm_req = choose_decision_id self decision_id fresh
  | Raise e =>
      build_result env self' external_flat path decision_id' validate_required fresh'
      = Raise e
  end.
Proof.
  intros Hpath. unfold build_result. destruct external_flat; try reflexivity.
  rewrite Hpath.
  destruct (_load_mapping_file_json env _) as [mapping|]; simpl; [|reflexivity].
  pose proof (build_independent self d mapping decision_id fresh
                self' decision_id' fresh') as H'.
  pose proof (build_independent self d mapping decision_id fresh
                self decision_id fresh) as H.
  destruct (_build_by_odm_keys self d mapping decision_id fresh) as [[odm_req p]|e];
    [|rewrite H'; reflexivity].
  rewrite H'. injection H as H. simpl.
  assert (Hid : DecisionID odm_req = choose_decision_id self decision_id fresh)
    by (rewrite H; reflexivity).
  destruct validate_required; [|now split].
  destruct (missing_required env mapping p); [now split | reflexivity].
Qed.

(** C8, as the code has it. Two builds in a row on one controller, with
    the same record, mapping, identifier and validation flag, return the
    same request or raise the same exception, whatever random tokens [uuid4]
    draws: when no identifier is passed the second build reuses the one the
    first build stored. The controller is the same after both. With an
    identifier passed, the result depends neither on the request the
    controller holds nor on the token. With no identifier passed, on
    controllers that hold none, the requests have the same [coRequest] but
    each gets the identifier made from its own token: the output is then
    not decided by the record, the mapping and the identifier alone. *)
Theorem repeated_build_same_result (env : environment) (self : odm_controller)
    (external_flat : pyval) (path decision_id : option string) (validate_required : bool)
    (fresh1 fresh2 : string) :
  let first := build_request_from_mapping_file env self external_flat path decision_id
                 validate_required fresh1 in
  let second := build_request_from_mapping_file env (snd first) external_flat path
                  decision_id validate_required fresh2 in
  (fst second = fst first /\ snd second = snd first)
  /\ (forall self' fresh',
        nonempty decision_id <> None ->
        mapping_path self' = mapping_path self ->
        fst (build_request_from_mapping_file env self' external_flat path decision_id
               validate_required fresh') = fst first)
  /\ (forall self' fresh' req,
        nonempty decision_id = None ->
        odm_request self = None -> odm_request self' = None ->
        mapping_path self' = mapping_path self ->
        fst first = Ok req ->
        DecisionID req = ("Decision_" ++ fresh1)%string
        /\ fst (build_request_from_mapping_file env self' external_flat path decision_id
                  validate_required fresh')
           = Ok {| DecisionID := ("Decision_" ++ fresh')%string;
                   coRequest := coRequest req |}).
Proof.
  cbv zeta. unfold build_request_from_mapping_file. split; [|split].
  - pose proof (fun self' Hp => build_result_shape env self self' external_flat path
                                  decision_id decision_id validate_required fresh1 fresh2 Hp)
      as H.
    destruct (build_result env self external_flat path decision_id validate_required fresh1)
      as [odm_req|e]; cbn [fst snd].
    + match goal with
      | |- context [build_result env ?s _ _ _ _ _] =>
          destruct (H s eq_refl) as [H1 H2]; rewrite H1;
          rewrite (choose_decision_id_held self s decision_id fresh1 fresh2 odm_req
                     eq_refl H2), <- H2
      end.
      destruct odm_req. split; reflexivity.
    + rewrite (H self eq_refl). split; reflexivity.
  - intros self' fresh' Hid Hpath.
    pose proof (build_result_shape env self self' external_flat path decision_id
                  decision_id validate_required fresh1 fresh' Hpath) as H.
    destruct (build_result env self external_flat path decision_id validate_required fresh1)
      as [odm_req|e]; cbn [fst snd].
    + destruct H as [-> H2]. cbn [fst].
      assert (E : choose_decision_id self' decision_id fresh' = DecisionID odm_req).
      { rewrite H2. unfold choose_decision_id.
        destruct (nonempty decision_id); [reflexivity | now elim Hid]. }
      rewrite E. now destruct odm_req.
    + now rewrite H.
  - intros self' fresh' req Hid Hself Hself' Hpath.
    pose proof (build_result_shape env self self' external_flat path decision_id
                  decision_id validate_required fresh1 fresh' Hpath) as H.
    destruct (build_result env self external_flat path decision_id validate_required fresh1)
      as [odm_req|e]; cbn [fst snd]; [|discriminate].
    intros [= ->]. destruct H as [-> H2]. cbn [fst].
    unfold choose_decision_id in *. rewrite Hid in *. rewrite Hself in H2. rewrite Hself'.
    split; [exact H2 | reflexivity].
Qed.

(** The theorem on two builds with different tokens, on two controllers
    given one identifier, and on two controllers given none. *)
Lemma repeated_build_same_result_witness :
  fst (build_request_from_mapping_file (env_with mapping_constant_and_rule slot_b_first)
         (snd (build_request_from_mapping_file
                 (env_with mapping_constant_and_rule slot_b_first)
                 (fresh_controller (env_with mapping_constant_and_rule slot_b_first))
                 (VDict [("segmento", VStr "B")]) None None true "5f2a9c01d3e4"))
         (VDict [("segmento", VStr "B")]) None None true "77b0c4e2a916")
  = fst (build_request_from_mapping_file (env_with mapping_constant_and_rule slot_b_first)
           (fresh_controller (env_with mapping_constant_and_rule slot_b_first))
           (VDict [("segmento", VStr "B")]) None None true "5f2a9c01d3e4")
  /\ fst (build_request_from_mapping_file (env_with mapping_constant_and_rule slot_b_first)
            (__init__ (env_with mapping_constant_and_rule slot_b_first) DEFAULT_ODM_URL None 15
               (Some "held") None)
            (VDict [("segmento", VStr "B")]) None (Some "D-1") true "77b0c4e2a916")
     = fst (build_request_from_mapping_file (env_with mapping_constant_and_rule slot_b_first)
              (fresh_controller (env_with mapping_constant_and_rule slot_b_first))
              (VDict [("segmento", VStr "B")]) None (Some "D-1") true "5f2a9c01d3e4")
  /\ fst (build_request_from_mapping_file (env_with mapping_constant_and_rule slot_b_first)
            (fresh_controller (env_with mapping_constant_and_rule slot_b_first))
            (VDict [("segmento", VStr "B")]) None None true "77b0c4e2a916")
     = Ok {| DecisionID := "Decision_77b0c4e2a916";
             coRequest :=
               [("stringVariables",
                 Vars [] [{| var_name := "segment"; var_value_of := StrValue (Plain "A") |};
                          {| var_name := "segment"; var_value_of := StrValue (Plain "B") |}])] |}.
Proof.
  split; [|split].
  - exact (proj1 (proj1 (repeated_build_same_result
             (env_with mapping_constant_and_rule slot_b_first)
             (fresh_controller (env_with mapping_constant_and_rule slot_b_first))
             (VDict [("segmento", VStr "B")]) None None true
             "5f2a9c01d3e4" "77b0c4e2a916"))).
  - refine (proj1 (proj2 (repeated_build_same_result
             (env_with mapping_constant_and_rule slot_b_first)
             (fresh_controller (env_with mapping_constant_and_rule slot_b_first))
             (VDict [("segmento", VStr "B")]) None (Some "D-1") true
             "5f2a9c01d3e4" "5f2a9c01d3e4")) _ "77b0c4e2a916" _ eq_refl).
    discriminate.
  - exact (proj2 (proj2 (proj2 (repeated_build_same_result
             (env_with mapping_constant_and_rule slot_b_first)
             (fresh_controller (env_with mapping_constant_and_rule slot_b_first))
             (VDict [("segmento", VStr "B")]) None None true
             "5f2a9c01d3e4" "5f2a9c01d3e4"))
             (fresh_controller (env_with mapping_constant_and_rule slot_b_first))
             "77b0c4e2a916"
             {| DecisionID := "Decision_5f2a9c01d3e4";
                coRequest :=
                  [("stringVariables",
                    Vars [] [{| var_name := "segment"; var_value_of := StrValue (Plain "A") |};
                             {| var_name := "segment";
                                var_value_of := StrValue (Plain "B") |}])] |}
             eq_refl eq_refl eq_refl eq_refl eq_refl)).
Defined.

(** C8 as stated fails: the same record, mapping and (absent) identifier
    give two different requests on two new controllers, one per token. *)
Lemma fresh_controllers_differ :
  fst (build_request_from_mapping_file (env_with mapping_constant_and_rule slot_b_first)
         (fresh_controller (env_with mapping_constant_and_rule slot_b_first))
         (VDict [("segmento", VStr "B")]) None None true "5f2a9c01d3e4")
  = Ok {| DecisionID := "Decision_5f2a9c01d3e4";
          coRequest :=
            [("stringVariables",
              Vars [] [{| var_name := "segment"; var_value_of := StrValue (Plain "A") |};
                       {| var_name := "segment"; var_value_of := StrValue (Plain "B") |}])] |}
  /\ fst (build_request_from_mapping_file (env_with mapping_constant_and_rule slot_b_first)
            (fresh_controller (env_with mapping_constant_and_rule slot_b_first))
            (VDict [("segmento", VStr "B")]) None None true "77b0c4e2a916")
     = Ok {| DecisionID := "Decision_77b0c4e2a916";
             coRequest :=
               [("stringVariables",
                 Vars [] [{| var_name := "segment"; var_value_of := StrValue (Plain "A") |};
                          {| var_name := "segment"; var_value_of := StrValue (Plain "B") |}])] |}
  /\ String.eqb "Decision_5f2a9c01d3e4" "Decision_77b0c4e2a916" = false.
Proof. repeat split; reflexivity. Qed.

(** ** The examples of the documentation *)

Example substitution_example :
  co_field_step [("tipo_cliente", VStr "P")] ([], [])
    ("customerType", Full [("from", VStr "tipo_cliente");
                           ("map_from", VDict [("P", VStr "PARTICULAR")])])
  = Ok ([("customerType", Scalar (VStr "PARTICULAR"))], ["customerType"]).
Proof. reflexivity. Qed.

Example split_csv_example :
  _apply_transform (VStr "1, 2;3") [("split_csv", VBool true)]
  = Ok (VList [VStr "1"; VStr "2"; VStr "3"])
  /\ _add_var [] "list_double" "plan" (VList [VStr "1"; VStr "2"; VStr "3"])
     = Ok [("listOfDoubleVariables",
            Vars [] [{| var_name := "plan";
                        var_value_of := ListValue [1%float; 2%float; 3%float] |}])].
Proof. split; reflexivity. Qed.

Example scale_example :
  _apply_transform (VStr "100") [("scale", VStr "0.01")] = Ok (VFloat 1%float).
Proof. reflexivity. Qed.

Example empty_collections_pruned :
  _build_by_odm_keys (fresh_controller (env_with empty_mapping slot_b_first)) []
    empty_mapping (Some "D-1") "5f2a9c01d3e4"
  = Ok ({| DecisionID := "D-1"; coRequest := [] |}, []).
Proof. reflexivity. Qed.

(** * Further properties of the controller *)

(** ** The pipeline on blank values and on rules without options *)

(** X1. A value that is present but blank (null, or a text of blanks only)
    is treated, when a default is configured, exactly as if the record held
    the default: the default goes through the whole pipeline. This is the
    opposite of a missing key, whose default bypasses the pipeline. *)
Theorem blank_value_takes_default (value : pyval) (cfg : dict pyval) :
  is_blank value = true ->
  dict_mem "default" cfg = true ->
  _apply_transform value cfg = _apply_transform (get "default" cfg) cfg.
Proof.
  intros Hb Hd. unfold _apply_transform.
  assert (E : step_default cfg value = step_default cfg (get "default" cfg)).
  { unfold step_default. rewrite Hb, Hd. simpl.
    now destruct (is_blank (get "default" cfg)). }
  now rewrite E.
Qed.

(** The theorem on a text of two blanks, for a rule with a default and
    casing options: the default is stripped and put in upper case. *)
Lemma blank_value_takes_default_witness :
  _apply_transform (VStr "  ") (snd (source_and_cfg rule_with_default)) = Ok (VStr "ES").
Proof.
  exact (blank_value_takes_default (VStr "  ") (snd (source_and_cfg rule_with_default))
           eq_refl eq_refl).
Defined.

(** The pipeline without options is the identity, on every value. *)
Lemma apply_transform_no_options (value : pyval) : _apply_transform value [] = Ok value.
Proof.
  unfold _apply_transform, step_default, step_map_from, step_split_csv, step_date,
    step_strings, step_bool_map, step_scale.
  simpl. rewrite andb_false_r. simpl.
  destruct value; reflexivity.
Qed.

(** X2. A rule without options, the shorthand ["source_key"] or a
    dictionary with [from] alone, copies the value of the record unchanged,
    whatever its type, lists and dicts included: a scalar rule stores it, a
    typed rule hands it to [_add_var]. *)
Theorem rule_without_options_copies (external_flat : dict pyval) (co : dict co_value)
    (produced_targets : list string) (vtype odm_name : string) (spec : rule) (v : pyval) :
  snd (source_and_cfg spec) = [] ->
  find external_flat (fst (source_and_cfg spec)) = Ok (Some v) ->
  rule_value external_flat spec = Some v
  /\ co_field_step external_flat (co, produced_targets) (odm_name, spec)
     = Ok (dict_set odm_name (Scalar v) co, produced_targets ++ [odm_name])
  /\ variable_step external_flat vtype (co, produced_targets) (odm_name, spec)
     = (co' <- _add_var co vtype odm_name v ;; Ok (co', produced_targets ++ [odm_name])).
Proof.
  intros Hcfg Hfind. unfold rule_value, co_field_step, variable_step.
  destruct (source_and_cfg spec) as [src cfg]. simpl in *. subst cfg.
  rewrite Hfind. cbn [bind]. rewrite apply_transform_no_options. cbn [bind]. auto.
Qed.

(** The theorem on a rule [{"from": "plan"}] and a list value. *)
Lemma rule_without_options_copies_witness :
  co_field_step [("plan", VList [VInt 1; VStr "x"])] ([], [])
    ("plan", Full [("from", VStr "plan")])
  = Ok ([("plan", Scalar (VList [VInt 1; VStr "x"]))], ["plan"]).
Proof.
  exact (proj1 (proj2 (rule_without_options_copies
           [("plan", VList [VInt 1; VStr "x"])] [] [] "string" "plan"
           (Full [("from", VStr "plan")]) (VList [VInt 1; VStr "x"]) eq_refl eq_refl))).
Defined.

(** ** Variable types *)

Lemma append_var_inv' co key name r co' :
  append_var co key name r = Ok co' ->
  exists plain entries v,
    setdefault_list co key = Ok (plain, entries)
    /\ r = Ok v
    /\ co' = dict_set key
               (Vars plain (entries ++ [{| var_name := name; var_value_of := v |}])) co.
Proof.
  unfold append_var. intros H.
  apply bind_ok in H as ([plain entries] & Hs & H).
  apply bind_ok in H as (v & Hv & [= <-]). eauto 6.
Qed.

Lemma append_var_not_unsupported co key name r vtype :
  append_var co key name r = Raise (UnsupportedVarType vtype) ->
  r = Raise (UnsupportedVarType vtype).
Proof.
  unfold append_var. intros H.
  apply bind_raise in H as [H|([plain entries] & _ & H)].
  - unfold setdefault_list in H. destruct (dict_get key co) as [[[]|]|]; discriminate.
  - apply bind_raise in H as [H|(v & _ & H)]; [assumption | discriminate].
Qed.

Lemma py_float_not_unsupported v vtype : py_float v <> Raise (UnsupportedVarType vtype).
Proof.
  destruct v; simpl; try discriminate.
  - destruct (PyFloat.of_int z); discriminate.
  - destruct (PyFloat.of_string s); discriminate.
Qed.

Lemma py_int_not_unsupported v vtype : py_int v <> Raise (UnsupportedVarType vtype).
Proof.
  destruct v; simpl; try discriminate.
  - unfold PyFloat.to_int. destruct (Prim2SF f); discriminate.
  - destruct (int_of_string s); discriminate.
Qed.

Lemma py_str_not_unsupported v vtype : py_str v <> Raise (UnsupportedVarType vtype).
Proof. unfold py_str. destruct (ints_ok v); discriminate. Qed.

Lemma map_py_float_not_unsupported l vtype :
  map_result py_float l <> Raise (UnsupportedVarType vtype).
Proof.
  induction l as [|x l IH]; simpl; [discriminate|]. intros H.
  apply bind_raise in H as [H|(f & _ & H)]; [now apply py_float_not_unsupported in H|].
  apply bind_raise in H as [H|(fs & _ & H)]; [now apply IH in H | discriminate].
Qed.

Lemma list_double_values_not_unsupported v vtype :
  list_double_values v <> Raise (UnsupportedVarType vtype).
Proof.
  intros H.
  destruct v; try (now apply map_py_float_not_unsupported in H);
    unfold list_double_values in H;
    (apply bind_raise in H as [H|(xs & _ & H)];
     [ destruct (truthy _); simpl in H; discriminate H
     | now apply map_py_float_not_unsupported in H ]).
Qed.

(** X3. [_add_var] raises the unsupported-type [ValueError] exactly when
    the value is not null and the type is none of the five; a null value is
    accepted under any type name and leaves [co] as it is. *)
Theorem add_var_unsupported_type (co : dict co_value) (vtype name : string) (value : pyval) :
  (_add_var co vtype name value = Raise (UnsupportedVarType vtype)
   <-> value <> VNone /\ collection_of vtype = None)
  /\ _add_var co vtype name VNone = Ok co
  /\ class_of (UnsupportedVarType vtype) = ValueError.
Proof.
  split; [|split; reflexivity]. split.
  - intros H. split; [intros ->; discriminate H|].
    assert (Hv : is_none value = false) by (destruct value; [discriminate H | reflexivity ..]).
    unfold collection_of.
    assert (Hbody :
      (if String.eqb vtype "date" then
         append_var co "dateVariables" name (t <- py_str value ;; Ok (StrValue t))
       else if String.eqb vtype "double" then
         append_var co "doubleVariables" name (f <- py_float value ;; Ok (DoubleValue f))
       else if String.eqb vtype "integer" then
         append_var co "integerVariables" name (z <- py_int value ;; Ok (IntegerValue z))
       else if String.eqb vtype "string" then
         append_var co "stringVariables" name (t <- py_str value ;; Ok (StrValue t))
       else if String.eqb vtype "list_double" then
         vals <- list_double_values value ;;
         append_var co "listOfDoubleVariables" name (Ok (ListValue vals))
       else Raise (UnsupportedVarType vtype)) = Raise (UnsupportedVarType vtype))
      by (destruct value; [discriminate Hv | exact H ..]).
    clear H. revert Hbody.
    destruct (String.eqb vtype "date").
    { intros H. apply append_var_not_unsupported in H.
      apply bind_raise in H as [H|(f & _ & H)];
        [now apply py_str_not_unsupported in H | discriminate]. }
    destruct (String.eqb vtype "double").
    { intros H. apply append_var_not_unsupported in H.
      apply bind_raise in H as [H|(f & _ & H)];
        [now apply py_float_not_unsupported in H | discriminate]. }
    destruct (String.eqb vtype "integer").
    { intros H. apply append_var_not_unsupported in H.
      apply bind_raise in H as [H|(f & _ & H)];
        [now apply py_int_not_unsupported in H | discriminate]. }
    destruct (String.eqb vtype "string").
    { intros H. apply append_var_not_unsupported in H.
      apply bind_raise in H as [H|(f & _ & H)];
        [now apply py_str_not_unsupported in H | discriminate]. }
    destruct (String.eqb vtype "list_double"); [|reflexivity].
    intros H. apply bind_raise in H as [H|(vals & _ & H)];
      [now apply list_double_values_not_unsupported in H|].
    apply append_var_not_unsupported in H. discriminate.
  - intros [Hv Hc]. unfold collection_of in Hc. unfold _add_var.
    destruct (String.eqb vtype "date"); [discriminate|].
    destruct (String.eqb vtype "double"); [discriminate|].
    destruct (String.eqb vtype "integer"); [discriminate|].
    destruct (String.eqb vtype "string"); [discriminate|].
    destruct (String.eqb vtype "list_double"); [discriminate|].
    destruct value; try reflexivity. now elim Hv.
Qed.

(** The theorem on a null constant under an unknown type name, and on a
    text under that name. *)
Lemma add_var_unsupported_type_witness :
  _add_var [] "decimal" "rate" (VStr "1.5") = Raise (UnsupportedVarType "decimal")
  /\ _add_var [] "decimal" "rate" VNone = Ok [].
Proof.
  destruct (add_var_unsupported_type [] "decimal" "rate" (VStr "1.5")) as ([_ H] & H0 & _).
  split; [apply H; split; [discriminate | reflexivity] | exact H0].
Defined.

(** ** Validation *)

Lemma missing_required_In env mapping produced_targets t :
  In t (missing_required env mapping produced_targets)
  <-> In t (required_odm mapping) /\ ~ In t produced_targets.
Proof.
  unfold missing_required.
  rewrite filter_In, (proj2 (py_set_spec (set_slot env) (required_odm mapping))).
  now rewrite negb_true_iff, mem_not_In.
Qed.

(** X4. Once the request is assembled, the validation decides alone: with
    it, the build returns the request exactly when every required target is
    among the produced ones; without it, the build always returns the
    request. The validation never changes the request. *)
Theorem validation_passes_iff (env : environment) (self : odm_controller)
    (external_flat : dict pyval) (path decision_id : option string) (fresh : string)
    (mapping : mapping_t) (odm_req : odm_request_t) (produced_targets : list string) :
  _load_mapping_file_json env
    (match nonempty path with Some p => p | None => mapping_path self end) = Ok mapping ->
  _build_by_odm_keys self external_flat mapping decision_id fresh
  = Ok (odm_req, produced_targets) ->
  (build_result env self (VDict external_flat) path decision_id true fresh = Ok odm_req
   <-> forall t, In t (required_odm mapping) -> In t produced_targets)
  /\ build_result env self (VDict external_flat) path decision_id false fresh = Ok odm_req
  /\ forall r, build_result env self (VDict external_flat) path decision_id true fresh = Ok r ->
               r = odm_req.
Proof.
  intros Hload Hbuild. unfold build_result. rewrite Hload. simpl. rewrite Hbuild. simpl.
  pose proof (missing_required_In env mapping produced_targets) as Hin.
  destruct (missing_required env mapping produced_targets) as [|m ms].
  - repeat split; try congruence.
    intros _ t Ht. destruct (in_dec string_dec t produced_targets) as [|Hn]; [assumption|].
    destruct (proj2 (Hin t) (conj Ht Hn)).
  - repeat split; try discriminate.
    intros Hall. exfalso. destruct (proj1 (Hin m) (or_introl eq_refl)) as [Hr Hn]. auto.
Qed.

(** The theorem on a record that feeds every required target. *)
Lemma validation_passes_iff_witness :
  build_result (env_with mapping_scalar_overwrite slot_b_first)
    (fresh_controller (env_with mapping_scalar_overwrite slot_b_first))
    (VDict (("canal", VStr "APP") :: record_scalar_overwrite)) None (Some "D-7") true
    "5f2a9c01d3e4"
  = Ok {| DecisionID := "D-7";
          coRequest := [("customerType", Scalar (VStr "PARTICULAR"));
                        ("channel", Scalar (VStr "APP"));
                        ("doubleVariables",
                         Vars [] [{| var_name := "loanAmount";
                                     var_value_of := DoubleValue 1500%float |}])] |}.
Proof.
  apply (proj1 (validation_passes_iff (env_with mapping_scalar_overwrite slot_b_first)
                  (fresh_controller (env_with mapping_scalar_overwrite slot_b_first))
                  (("canal", VStr "APP") :: record_scalar_overwrite) None (Some "D-7")
                  "5f2a9c01d3e4" mapping_scalar_overwrite _
                  ["customerType"; "channel"; "loanAmount"] eq_refl eq_refl)).
  simpl. intros t [<-|[<-|[]]]; auto.
Defined.

(** ** The identifier across builds *)



(** ** The shape of the typed collections *)

Lemma add_var_nonnull co vtype name value :
  is_none value = false ->
  _add_var co vtype name value
  = if String.eqb vtype "date" then
      append_var co "dateVariables" name (t <- py_str value ;; Ok (StrValue t))
    else if String.eqb vtype "double" then
      append_var co "doubleVariables" name (f <- py_float value ;; Ok (DoubleValue f))
    else if String.eqb vtype "integer" then
      append_var co "integerVariables" name (z <- py_int value ;; Ok (IntegerValue z))
    else if String.eqb vtype "string" then
      append_var co "stringVariables" name (t <- py_str value ;; Ok (StrValue t))
    else if String.eqb vtype "list_double" then
      vals <- list_double_values value ;;
      append_var co "listOfDoubleVariables" name (Ok (ListValue vals))
    else Raise (UnsupportedVarType vtype).
Proof. destruct value; [discriminate | reflexivity ..]. Qed.

(** What [_add_var] does to [co] when it returns: nothing for a null value,
    and otherwise one more entry, of the kind of its collection. *)
Lemma add_var_kind co vtype name value co' :
  _add_var co vtype name value = Ok co' ->
  (value = VNone /\ co' = co)
  \/ exists key plain entries v,
       collection_of vtype = Some key
       /\ kind_ok key v = true
       /\ setdefault_list co key = Ok (plain, entries)
       /\ co' = dict_set key
                  (Vars plain (entries ++ [{| var_name := name; var_value_of := v |}])) co.
Proof.
  intros H. destruct (is_none value) eqn:Hn.
  { left. destruct value; try discriminate Hn. split; [reflexivity | now injection H]. }
  right. rewrite (add_var_nonnull _ _ _ _ Hn) in H. unfold collection_of.
  destruct (String.eqb vtype "date").
  { apply append_var_inv' in H as (plain & entries & v & Hs & Hv & ->).
    apply bind_ok in Hv as (t & _ & [= <-]).
    exists "dateVariables", plain, entries, (StrValue t). auto. }
  destruct (String.eqb vtype "double").
  { apply append_var_inv' in H as (plain & entries & v & Hs & Hv & ->).
    apply bind_ok in Hv as (f & _ & [= <-]).
    exists "doubleVariables", plain, entries, (DoubleValue f). auto. }
  destruct (String.eqb vtype "integer").
  { apply append_var_inv' in H as (plain & entries & v & Hs & Hv & ->).
    apply bind_ok in Hv as (z & _ & [= <-]).
    exists "integerVariables", plain, entries, (IntegerValue z). auto. }
  destruct (String.eqb vtype "string").
  { apply append_var_inv' in H as (plain & entries & v & Hs & Hv & ->).
    apply bind_ok in Hv as (t & _ & [= <-]).
    exists "stringVariables", plain, entries, (StrValue t). auto. }
  destruct (String.eqb vtype "list_double"); [|discriminate].
  apply bind_ok in H as (vals & _ & H).
  apply append_var_inv' in H as (plain & entries & v & Hs & [= <-] & ->).
  exists "listOfDoubleVariables", plain, entries, (ListValue vals). auto.
Qed.

Lemma add_var_ready co vtype name value co' :
  _add_var co vtype name value = Ok co' -> collections_ready co -> collections_ready co'.
Proof.
  intros H Hr.
  apply add_var_kind in H as [[_ ->]|(key0 & plain & entries & v & Hc & Hk & Hs & ->)];
    [assumption|].
  intros key Hkey. destruct (string_dec key0 key) as [->|Hne].
  - destruct (Hr key Hkey) as (es & Hg & Hes).
    unfold setdefault_list in Hs. rewrite Hg in Hs. injection Hs as <- <-.
    exists (es ++ [{| var_name := name; var_value_of := v |}]).
    rewrite dict_get_set_eq, forallb_app, Hes. simpl. now rewrite Hk.
  - rewrite dict_get_set_ne by assumption. now apply Hr.
Qed.

Lemma init_collections_ready co : collections_ready (init_collections co).
Proof.
  intros key Hkey. exists []. rewrite init_collections_get by assumption.
  split; reflexivity.
Qed.

Lemma typed_loops_ready external_flat :
  (forall l st st', for_each constant_vars_loop l st = Ok st' ->
                    collections_ready (fst st) -> collections_ready (fst st'))
  /\ (forall l st st', for_each (variables_loop external_flat) l st = Ok st' ->
                       collections_ready (fst st) -> collections_ready (fst st')).
Proof.
  split; intros l st st';
    apply (for_each_keeps _ (fun st => collections_ready (fst st)));
    intros s [vtype d] s' _; simpl;
    apply (for_each_keeps _ (fun st => collections_ready (fst st))).
  - intros [co p] [name value] s2 _ H. unfold constant_var_step in H.
    apply bind_ok in H as (co' & H & [= <-]). simpl. exact (add_var_ready _ _ _ _ _ H).
  - intros [co p] [name spec] s2 _ H. unfold variable_step in H.
    destruct (source_and_cfg spec) as [src cfg].
    apply bind_ok in H as (found & _ & H). destruct found as [v|].
    + apply bind_ok in H as (val & _ & H). apply bind_ok in H as (co' & H & [= <-]).
      simpl. exact (add_var_ready _ _ _ _ _ H).
    + destruct (dict_mem "default" cfg).
      * apply bind_ok in H as (co' & H & [= <-]). simpl. exact (add_var_ready _ _ _ _ _ H).
      * injection H as <-. auto.
Qed.

(** Pruning a list of distinct keys: a key of the list goes when its value
    is empty and stays otherwise. *)
Lemma prune_all_key ks : NoDup ks -> forall co key v,
  In key ks -> dict_get key co = Some v ->
  dict_get key (fold_left prune ks co) = if is_empty v then None else Some v.
Proof.
  induction 1 as [|k ks Hk Hnd IH]; intros co key v Hin Hv; [destruct Hin|].
  simpl. destruct (string_dec k key) as [->|Hne].
  - rewrite prune_all_other by assumption. unfold prune. rewrite Hv.
    destruct (is_empty v); [apply dict_get_pop_eq | assumption].
  - destruct Hin as [->|Hin]; [now elim Hne|].
    apply IH; [assumption|]. unfold prune.
    destruct (dict_get k co) as [w|]; [|assumption].
    destruct (is_empty w); [|assumption]. now rewrite dict_get_pop_ne.
Qed.

Lemma collection_keys_NoDup : NoDup collection_keys.
Proof.
  unfold collection_keys.
  repeat (constructor; [simpl; intuition discriminate|]).
  constructor.
Qed.

(** The names in a collection when the loops are done, before pruning. *)
Lemma stage_names external_flat mapping st2 st3 st4 key :
  for_each constant_vars_loop (constants_variables mapping)
    (init_collections (fst st2), snd st2) = Ok st3 ->
  for_each (variables_loop external_flat) (variables mapping) st3 = Ok st4 ->
  In key collection_keys ->
  map var_name (entries_of (fst st4) key)
  = constant_names mapping key ++ rule_names external_flat mapping key.
Proof.
  intros H3 H4 Hkey.
  apply (for_each_trace _ (fun st => map var_name (entries_of (fst st) key))
           (fun '(vtype, d) =>
              flat_map (fun '(name, value) =>
                          if adds_to key vtype value then [name] else []) d)) in H3.
  2:{ intros s [vtype d] s' Hs. simpl in Hs.
      apply (for_each_trace _ (fun st => map var_name (entries_of (fst st) key))
               (fun '(name, value) => if adds_to key vtype value then [name] else []))
        in Hs; [exact Hs|]. intros ? ? ?. apply constant_var_step_names. }
  apply (for_each_trace _ (fun st => map var_name (entries_of (fst st) key))
           (fun '(vtype, d) =>
              flat_map (fun '(name, spec) =>
                          match rule_value external_flat spec with
                          | Some val => if adds_to key vtype val then [name] else []
                          | None => []
                          end) d)) in H4.
  2:{ intros s [vtype d] s' Hs. simpl in Hs.
      apply (for_each_trace _ (fun st => map var_name (entries_of (fst st) key))
               (fun '(name, spec) =>
                  match rule_value external_flat spec with
                  | Some val => if adds_to key vtype val then [name] else []
                  | None => []
                  end)) in Hs; [exact Hs|]. intros ? ? ?. apply variable_step_names. }
  rewrite H4, H3. simpl. unfold entries_of at 1.
  rewrite init_collections_get by assumption. reflexivity.
Qed.

(** X6. In the request of a build, each of the five collection keys is
    either absent, when no constant and no rule put an entry there, or
    bound to a non-empty list of entries: never to an empty list, and never
    to a scalar, so a scalar field named like a collection is lost. *)
Theorem collection_absent_or_filled (self : odm_controller) (external_flat : dict pyval)
    (mapping : mapping_t) (decision_id : option string) (fresh : string)
    (odm_req : odm_request_t) (produced_targets : list string) (key : string) :
  _build_by_odm_keys self external_flat mapping decision_id fresh
  = Ok (odm_req, produced_targets) ->
  In key collection_keys ->
  (constant_names mapping key ++ rule_names external_flat mapping key = []
   /\ dict_get key (coRequest odm_req) = None)
  \/ exists entries,
       entries <> []
       /\ dict_get key (coRequest odm_req) = Some (Vars [] entries)
       /\ map var_name entries
          = constant_names mapping key ++ rule_names external_flat mapping key.
Proof.
  intros H Hkey.
  apply build_stages in H as (st1 & st2 & st3 & st4 & _ & _ & H3 & H4 & -> & _).
  cbn [coRequest].
  pose proof (stage_names _ _ _ _ _ key H3 H4 Hkey) as Hnames.
  destruct (typed_loops_ready external_flat) as [Hc Hv].
  pose proof (Hv _ _ _ H4 (Hc _ _ _ H3 (init_collections_ready _))) as Hready.
  destruct (Hready key Hkey) as (es & Hg & _).
  rewrite (prune_all_key _ collection_keys_NoDup _ _ _ Hkey Hg).
  unfold entries_of in Hnames. rewrite Hg in Hnames.
  destruct es as [|e es]; simpl.
  - left. split; [now rewrite <- Hnames | reflexivity].
  - right. exists (e :: es). repeat split; [discriminate | exact Hnames].
Qed.

(** The theorem on a mapping with one rule of type [double]: the
    collection of the doubles is filled, that of the texts is absent. *)
Lemma collection_absent_or_filled_witness :
  (constant_names mapping_scalar_overwrite "stringVariables"
   ++ rule_names record_scalar_overwrite mapping_scalar_overwrite "stringVariables" = []
   /\ dict_get "stringVariables"
        [("customerType", Scalar (VStr "PARTICULAR")); ("channel", Scalar (VStr "WEB"));
         ("doubleVariables",
          Vars [] [{| var_name := "loanAmount"; var_value_of := DoubleValue 1500%float |}])]
      = None)
  \/ exists entries,
       entries <> []
       /\ dict_get "stringVariables"
            [("customerType", Scalar (VStr "PARTICULAR")); ("channel", Scalar (VStr "WEB"));
             ("doubleVariables",
              Vars [] [{| var_name := "loanAmount";
                          var_value_of := DoubleValue 1500%float |}])]
          = Some (Vars [] entries)
       /\ map var_name entries
          = constant_names mapping_scalar_overwrite "stringVariables"
            ++ rule_names record_scalar_overwrite mapping_scalar_overwrite "stringVariables".
Proof.
  exact (collection_absent_or_filled
           (fresh_controller (env_with mapping_scalar_overwrite slot_b_first))
           record_scalar_overwrite mapping_scalar_overwrite (Some "D-7") "5f2a9c01d3e4"
           {| DecisionID := "D-7";
              coRequest :=
                [("customerType", Scalar (VStr "PARTICULAR")); ("channel", Scalar (VStr "WEB"));
                 ("doubleVariables",
                  Vars [] [{| var_name := "loanAmount";
                              var_value_of := DoubleValue 1500%float |}])] |}
           ["customerType"; "loanAmount"] "stringVariables" eq_refl
           (or_intror (or_intror (or_intror (or_introl eq_refl))))).
Defined.

(** X7. Every entry of a typed collection of a request holds a value of
    the kind of that collection: a text in [dateVariables] and
    [stringVariables], a float in [doubleVariables], an int in
    [integerVariables], a list of floats in [listOfDoubleVariables]. *)
Theorem collection_entries_typed (self : odm_controller) (external_flat : dict pyval)
    (mapping : mapping_t) (decision_id : option string) (fresh : string)
    (odm_req : odm_request_t) (produced_targets : list string) (key : string)
    (e : var_entry) :
  _build_by_odm_keys self external_flat mapping decision_id fresh
  = Ok (odm_req, produced_targets) ->
  In key collection_keys ->
  In e (entries_of (coRequest odm_req) key) ->
  kind_ok key (var_value_of e) = true.
Proof.
  intros H Hkey He.
  apply build_stages in H as (st1 & st2 & st3 & st4 & _ & _ & H3 & H4 & -> & _).
  cbn [coRequest] in He. rewrite prune_all_entries in He.
  destruct (typed_loops_ready external_flat) as [Hc Hv].
  pose proof (Hv _ _ _ H4 (Hc _ _ _ H3 (init_collections_ready _))) as Hready.
  destruct (Hready key Hkey) as (es & Hg & Hes).
  unfold entries_of in He. rewrite Hg in He.
  rewrite forallb_forall in Hes. now apply Hes.
Qed.

(** The theorem on the entry of the rule of type [double]. *)
Lemma collection_entries_typed_witness :
  kind_ok "doubleVariables" (DoubleValue 1500%float) = true.
Proof.
  exact (collection_entries_typed
           (fresh_controller (env_with mapping_scalar_overwrite slot_b_first))
           record_scalar_overwrite mapping_scalar_overwrite (Some "D-7") "5f2a9c01d3e4"
           {| DecisionID := "D-7";
              coRequest :=
                [("customerType", Scalar (VStr "PARTICULAR")); ("channel", Scalar (VStr "WEB"));
                 ("doubleVariables",
                  Vars [] [{| var_name := "loanAmount";
                              var_value_of := DoubleValue 1500%float |}])] |}
           ["customerType"; "loanAmount"] "doubleVariables"
           {| var_name := "loanAmount"; var_value_of := DoubleValue 1500%float |}
           eq_refl (or_intror (or_introl eq_refl)) (or_introl eq_refl)).
Defined.

(** X8. Every name that has an entry in a typed collection of a request is
    among the produced targets: what the request holds as a typed variable
    never fails the validation. *)
Theorem collection_names_are_produced (self : odm_controller) (external_flat : dict pyval)
    (mapping : mapping_t) (decision_id : option string) (fresh : string)
    (odm_req : odm_request_t) (produced_targets : list string) (key name : string) :
  _build_by_odm_keys self external_flat mapping decision_id fresh
  = Ok (odm_req, produced_targets) ->
  In key collection_keys ->
  In name (map var_name (entries_of (coRequest odm_req) key)) ->
  In name produced_targets.
Proof.
  intros H Hkey Hname.
  rewrite (produced_targets_exact _ _ _ _ _ _ _ H).
  apply build_stages in H as (st1 & st2 & st3 & st4 & _ & _ & H3 & H4 & -> & _).
  cbn [coRequest] in Hname.
  rewrite prune_all_entries, (stage_names _ _ _ _ _ key H3 H4 Hkey) in Hname.
  apply in_or_app. right. apply in_or_app.
  apply in_app_or in Hname as [Hc|Hr].
  - left. unfold constant_names in Hc.
    apply in_flat_map in Hc as ([vtype d] & Hg & Hc).
    apply in_flat_map in Hc as ([n value] & Hd & Hc).
    destruct (adds_to key vtype value); [|destruct Hc]. destruct Hc as [<-|[]].
    apply in_flat_map. exists (vtype, d). split; [assumption|]. simpl.
    apply in_flat_map. exists (n, value). simpl. auto.
  - right. unfold rule_names in Hr.
    apply in_flat_map in Hr as ([vtype d] & Hg & Hr).
    apply in_flat_map in Hr as ([n spec] & Hd & Hr).
    apply in_flat_map. exists (vtype, d). split; [assumption|]. simpl.
    apply in_flat_map. exists (n, spec). split; [assumption|].
    unfold rule_value in Hr. unfold produced_by. simpl.
    destruct (find external_flat _) as [[v|]|]; [| |destruct Hr].
    + destruct (_apply_transform v _) as [val|]; [|destruct Hr].
      destruct (adds_to key vtype val); [|destruct Hr]. destruct Hr as [<-|[]]. now left.
    + destruct (dict_mem "default" _); [|destruct Hr].
      destruct (adds_to key vtype _); [|destruct Hr]. destruct Hr as [<-|[]]. now left.
Qed.

(** The theorem on the entry of the rule of type [double]. *)
Lemma collection_names_are_produced_witness :
  In "loanAmount" ["customerType"; "loanAmount"].
Proof.
  exact (collection_names_are_produced
           (fresh_controller (env_with mapping_scalar_overwrite slot_b_first))
           record_scalar_overwrite mapping_scalar_overwrite (Some "D-7") "5f2a9c01d3e4"
           {| DecisionID := "D-7";
              coRequest :=
                [("customerType", Scalar (VStr "PARTICULAR")); ("channel", Scalar (VStr "WEB"));
                 ("doubleVariables",
                  Vars [] [{| var_name := "loanAmount";
                              var_value_of := DoubleValue 1500%float |}])] |}
           ["customerType"; "loanAmount"] "doubleVariables" "loanAmount"
           eq_refl (or_intror (or_introl eq_refl)) (or_introl eq_refl)).
Defined.

(** ** Scalar fields: constants and rules *)

(** What a scalar rule does when its step returns. *)
Lemma co_field_step_value external_flat co p name spec st' :
  co_field_step external_flat (co, p) (name, spec) = Ok st' ->
  match rule_value external_flat spec with
  | Some val => st' = (dict_set name (Scalar val) co, p ++ [name])
  | None => st' = (co, p)
  end.
Proof.
  unfold co_field_step, rule_value.
  destruct (source_and_cfg spec) as [src cfg]. simpl. intros H.
  apply bind_ok in H as (found & -> & H). destruct found as [v|].
  - apply bind_ok in H as (val & -> & [= <-]). reflexivity.
  - destruct (dict_mem "default" cfg); now injection H as <-.
Qed.

(** A scalar field that is in [co] after the loop over [co_fields] is in
    the request, unless it is named like a collection. *)
Lemma scalar_kept_after_rules external_flat mapping st2 st3 st4 name :
  for_each constant_vars_loop (constants_variables mapping)
    (init_collections (fst st2), snd st2) = Ok st3 ->
  for_each (variables_loop external_flat) (variables mapping) st3 = Ok st4 ->
  ~ In name collection_keys ->
  dict_get name (fold_left prune collection_keys (fst st4)) = dict_get name (fst st2).
Proof.
  intros H3 H4 Hk.
  rewrite prune_all_other by assumption.
  destruct (typed_loops_other external_flat name Hk) as [Hc Hv].
  rewrite (Hv _ _ _ H4), (Hc _ _ _ H3). cbn [fst].
  now apply init_collections_other.
Qed.

(** After a loop of assignments over distinct keys, each key has its value. *)
Lemma constant_fields_get l : forall st st' k v,
  for_each constant_field_step l st = Ok st' ->
  In (k, v) l -> NoDup (keys l) ->
  dict_get k (fst st') = Some (Scalar v).
Proof.
  induction l as [|[k0 v0] l IH]; intros [co p] st' k v H Hin Hnd; [destruct Hin|].
  simpl in H. unfold keys in Hnd. simpl in Hnd. inversion Hnd as [|? ? Hk0 Hnd']; subst.
  destruct Hin as [[= -> ->]|Hin].
  - assert (Hkeep : forall l' st st',
               for_each constant_field_step l' st = Ok st' -> ~ In k (keys l') ->
               dict_get k (fst st') = dict_get k (fst st)).
    { induction l' as [|[k1 v1] l' IH']; intros [co1 p1] st1 H1 Hn; simpl in H1.
      - now injection H1 as <-.
      - rewrite (IH' _ _ H1); [|intros Hc; apply Hn; now right].
        simpl. apply dict_get_set_ne. intros ->. apply Hn. now left. }
    rewrite (Hkeep _ _ _ H Hk0). simpl. apply dict_get_set_eq.
  - eapply IH; eauto.
Qed.

(** The value of a scalar rule is in [co] after the loop over [co_fields],
    when no other rule has its name. *)
Lemma scalar_rule_after_rules external_flat l st1 st2 name spec val :
  for_each (co_field_step external_flat) l st1 = Ok st2 ->
  In (name, spec) l -> NoDup (keys l) ->
  rule_value external_flat spec = Some val ->
  dict_get name (fst st2) = Some (Scalar val).
Proof.
  intros H2 Hin Hnd Hval.
  apply in_split in Hin as (l1 & l2 & E). rewrite E in H2, Hnd.
  rewrite for_each_app in H2. apply bind_ok in H2 as ([coa pa] & _ & H2).
  cbn [for_each] in H2. apply bind_ok in H2 as (sb & Hstep & H2).
  apply co_field_step_value in Hstep. rewrite Hval in Hstep. subst sb.
  unfold keys in Hnd. rewrite map_app in Hnd. simpl in Hnd.
  apply NoDup_remove_2 in Hnd.
  refine (for_each_keeps _ (fun st => dict_get name (fst st) = Some (Scalar val))
            l2 _ _ _ H2 _).
  - intros s x s' Hx Hs Hp. rewrite (co_field_step_other _ _ _ _ _ Hs); [exact Hp|].
    intros Ex. apply Hnd. apply in_or_app. right. rewrite <- Ex. now apply in_map.
  - apply dict_get_set_eq.
Qed.

(** X9. Scalar fields, in a request, for a name that is no collection key.
    A scalar rule that yields a value decides the field, whether or not a
    constant has the same name: the rule wins. A constant whose name has no
    scalar rule that yields a value is in the request as it was written. *)
Theorem scalar_rule_overrides_constant (self : odm_controller) (external_flat : dict pyval)
    (mapping : mapping_t) (decision_id : option string) (fresh : string)
    (odm_req : odm_request_t) (produced_targets : list string) (name : string) :
  _build_by_odm_keys self external_flat mapping decision_id fresh
  = Ok (odm_req, produced_targets) ->
  ~ In name collection_keys ->
  (forall spec val,
     In (name, spec) (co_fields mapping) -> NoDup (keys (co_fields mapping)) ->
     rule_value external_flat spec = Some val ->
     dict_get name (coRequest odm_req) = Some (Scalar val))
  /\ (forall v,
        In (name, v) (constants_co_fields mapping) ->
        NoDup (keys (constants_co_fields mapping)) ->
        (forall spec, In (name, spec) (co_fields mapping) ->
                      rule_value external_flat spec = None) ->
        dict_get name (coRequest odm_req) = Some (Scalar v)).
Proof.
  intros H Hk.
  apply build_stages in H as (st1 & st2 & st3 & st4 & H1 & H2 & H3 & H4 & -> & _).
  cbn [coRequest]. rewrite (scalar_kept_after_rules _ _ _ _ _ name H3 H4 Hk).
  split.
  - intros spec val Hin Hnd Hval. eapply scalar_rule_after_rules; eauto.
  - intros v Hin Hnd Hnone.
    pose proof (constant_fields_get _ _ _ _ _ H1 Hin Hnd) as Hc.
    refine (for_each_keeps _ (fun st => dict_get name (fst st) = Some (Scalar v))
              (co_fields mapping) _ _ _ H2 Hc).
    intros [co p] [n spec] s' Hx Hs Hp.
    destruct (string_dec n name) as [->|Hne].
    + apply co_field_step_value in Hs. rewrite (Hnone _ Hx) in Hs. now subst s'.
    + now rewrite (co_field_step_other _ _ _ _ _ Hs Hne).
Qed.

(** The theorem on a mapping with two constants: [customerType], which a
    rule overrides, and [channel], whose rule finds no source key. *)
Lemma scalar_rule_overrides_constant_witness :
  dict_get "customerType"
    [("customerType", Scalar (VStr "PARTICULAR")); ("channel", Scalar (VStr "WEB"));
     ("doubleVariables",
      Vars [] [{| var_name := "loanAmount"; var_value_of := DoubleValue 1500%float |}])]
  = Some (Scalar (VStr "PARTICULAR")).
Proof.
  refine (proj1 (scalar_rule_overrides_constant
           (fresh_controller (env_with mapping_scalar_overwrite slot_b_first))
           record_scalar_overwrite mapping_scalar_overwrite (Some "D-7") "5f2a9c01d3e4"
           {| DecisionID := "D-7";
              coRequest :=
                [("customerType", Scalar (VStr "PARTICULAR")); ("channel", Scalar (VStr "WEB"));
                 ("doubleVariables",
                  Vars [] [{| var_name := "loanAmount";
                              var_value_of := DoubleValue 1500%float |}])] |}
           ["customerType"; "loanAmount"] "customerType" eq_refl _)
           (Full [("from", VStr "tipo_cliente");
                  ("map_from", VDict [("P", VStr "PARTICULAR")])])
           (VStr "PARTICULAR") (or_introl eq_refl) _ eq_refl).
  - simpl. intuition discriminate.
  - repeat constructor; simpl; intuition discriminate.
Defined.

Lemma not_resolves_rule_value external_flat spec :
  ~ resolves external_flat spec -> rule_value external_flat spec = None.
Proof.
  unfold resolves, rule_value. intros Hn.
  destruct (find external_flat _) as [[v|]|]; [| |reflexivity].
  - elim Hn. eauto.
  - destruct (dict_mem "default" _) eqn:E; [|reflexivity]. elim Hn. auto.
Qed.

(** X10. A constant of [constants.co_fields] is not a produced target.
    When no rule resolves for its name and no constant variable has it,
    listing the name in [required_odm] makes the validated build raise the
    missing-targets [ValueError] with that name, while the build without
    validation returns the request. That request holds the constant under
    its name whenever the name is not one of the five collection keys,
    which the build overwrites. *)
Theorem constant_field_is_not_produced (env : environment) (self : odm_controller)
    (external_flat : dict pyval) (path decision_id : option string) (fresh : string)
    (mapping : mapping_t) (odm_req : odm_request_t) (produced_targets : list string)
    (k : string) (v : pyval) :
  _load_mapping_file_json env
    (match nonempty path with Some p => p | None => mapping_path self end) = Ok mapping ->
  _build_by_odm_keys self external_flat mapping decision_id fresh
  = Ok (odm_req, produced_targets) ->
  In (k, v) (constants_co_fields mapping) ->
  ~ constant_variable mapping k ->
  (forall spec, rule_for mapping k spec -> ~ resolves external_flat spec) ->
  In k (required_odm mapping) ->
  ~ In k produced_targets
  /\ build_result env self (VDict external_flat) path decision_id false fresh = Ok odm_req
  /\ (exists missing,
        build_result env self (VDict external_flat) path decision_id true fresh
        = Raise (MissingRequired missing)
        /\ In k missing
        /\ class_of (MissingRequired missing) = ValueError)
  /\ (NoDup (keys (constants_co_fields mapping)) ->
      ~ In k collection_keys ->
      dict_get k (coRequest odm_req) = Some (Scalar v)).
Proof.
  intros Hload Hbuild Hin Hcv Hrules Hreq.
  assert (Hnp : ~ In k produced_targets).
  { rewrite (produced_targets_exact _ _ _ _ _ _ _ Hbuild).
    rewrite !in_app_iff, in_produced_by. intros [(spec & Hs & Hr)|[Hc|Hv]].
    - apply (Hrules spec); [now left | assumption].
    - apply Hcv. apply in_flat_map in Hc as ([vtype d] & Hg & Hc). simpl in Hc.
      apply in_flat_map in Hc as ([name value] & Hd & [<-|[]]). simpl.
      exists vtype, d, value. auto.
    - apply in_flat_map in Hv as ([vtype d] & Hg & Hv). simpl in Hv.
      apply in_produced_by in Hv as (spec & Hd & Hr).
      apply (Hrules spec); [right; eauto | assumption]. }
  split; [assumption|]. split; [|split].
  - unfold build_result. rewrite Hload. simpl. rewrite Hbuild. reflexivity.
  - unfold build_result. rewrite Hload. simpl. rewrite Hbuild. simpl.
    pose proof (proj2 (missing_required_In env mapping produced_targets k) (conj Hreq Hnp))
      as Hm.
    destruct (missing_required env mapping produced_targets) as [|m ms]; [destruct Hm|].
    eauto.
  - intros Hnd Hk. pose proof Hbuild as H.
    apply build_stages in H as (st1 & st2 & st3 & st4 & H1 & H2 & H3 & H4 & -> & _).
    cbn [coRequest]. rewrite (scalar_kept_after_rules _ _ _ _ _ k H3 H4 Hk).
    pose proof (constant_fields_get _ _ _ _ _ H1 Hin Hnd) as Hc.
    refine (for_each_keeps _ (fun st => dict_get k (fst st) = Some (Scalar v))
              (co_fields mapping) _ _ _ H2 Hc).
    intros [co p] [n spec] s' Hx Hs Hp.
    destruct (string_dec n k) as [->|Hne].
    + apply co_field_step_value in Hs.
      rewrite (not_resolves_rule_value _ _ (Hrules spec (or_introl Hx))) in Hs.
      now subst s'.
    + now rewrite (co_field_step_other _ _ _ _ _ Hs Hne).
Qed.

(** The theorem on a mapping whose constant [channel] is required while the
    record lacks the source key of its rule. *)
Lemma constant_field_is_not_produced_witness :
  dict_get "channel"
    [("customerType", Scalar (VStr "PARTICULAR")); ("channel", Scalar (VStr "WEB"));
     ("doubleVariables",
      Vars [] [{| var_name := "loanAmount"; var_value_of := DoubleValue 1500%float |}])]
  = Some (Scalar (VStr "WEB"))
  /\ exists missing,
       build_result (env_with mapping_scalar_overwrite slot_b_first)
         (fresh_controller (env_with mapping_scalar_overwrite slot_b_first))
         (VDict record_scalar_overwrite) None (Some "D-7") true "5f2a9c01d3e4"
       = Raise (MissingRequired missing)
       /\ In "channel" missing
       /\ class_of (MissingRequired missing) = ValueError.
Proof.
  destruct (constant_field_is_not_produced
              (env_with mapping_scalar_overwrite slot_b_first)
              (fresh_controller (env_with mapping_scalar_overwrite slot_b_first))
              record_scalar_overwrite None (Some "D-7") "5f2a9c01d3e4"
              mapping_scalar_overwrite
              {| DecisionID := "D-7";
                 coRequest :=
                   [("customerType", Scalar (VStr "PARTICULAR"));
                    ("channel", Scalar (VStr "WEB"));
                    ("doubleVariables",
                     Vars [] [{| var_name := "loanAmount";
                                 var_value_of := DoubleValue 1500%float |}])] |}
              ["customerType"; "loanAmount"] "channel" (VStr "WEB") eq_refl eq_refl)
    as (_ & _ & H2 & H1).
  - simpl. auto.
  - intros (vtype & d & value & [] & _).
  - unfold rule_for. simpl.
    intros spec [[H|[H|[]]]|(vtype & d & [H|[]] & H')]; try discriminate H.
    + injection H as <-. unfold resolves. cbv.
      intros [[v H]|[_ H]]; discriminate H.
    + injection H as <- <-. simpl in H'. destruct H' as [H'|[]]. discriminate H'.
  - simpl. auto.
  - split; [|exact H2]. apply H1.
    + repeat constructor; simpl; intuition discriminate.
    + simpl. intuition discriminate.
Defined.

(** ** Dates *)

Lemma make_valid y m d dt : PyDate.make y m d = Ok dt ->
  dt = {| PyDate.year := y; PyDate.month := m; PyDate.day := d |} /\ valid_date dt.
Proof.
  unfold PyDate.make, valid_date.
  destruct (_ && _) eqn:E; [|discriminate]. intros [= <-]. simpl.
  repeat (apply andb_prop in E as [E ?]). split; [reflexivity | lia].
Qed.

Lemma valid_make dt : valid_date dt ->
  PyDate.make (PyDate.year dt) (PyDate.month dt) (PyDate.day dt) = Ok dt.
Proof.
  unfold valid_date, PyDate.make. intros (Hy & Hm & Hd). destruct dt as [y m d]. simpl in *.
  replace (_ && _) with true; [reflexivity|].
  symmetry. repeat (apply andb_true_intro; split); lia.
Qed.

Lemma strptime_valid s f dt : PyDate.strptime s f = Ok dt -> valid_date dt.
Proof.
  unfold PyDate.strptime. intros H. apply bind_ok in H as (items & _ & H).
  destruct (negb _); [discriminate|].
  destruct (PyDate.match_items _ _ _) as [[fl [|]]|]; try discriminate.
  now apply make_valid in H.
Qed.

Lemma fromisoformat_valid s dt : PyDate.fromisoformat s = Ok dt -> valid_date dt.
Proof.
  unfold PyDate.fromisoformat. intros H.
  repeat match type of H with
         | PyDate.make _ _ _ = _ => apply make_valid in H; exact (proj2 H)
         | bind _ _ = _ =>
             apply bind_ok in H as ([[y' m'] d'] & _ & H);
             apply make_valid in H; exact (proj2 H)
         | (if ?x then _ else _) = _ => destruct x; try discriminate H
         | match ?x with _ => _ end = _ => destruct x; try discriminate H
         end.
Qed.

(** X11. What date normalisation returns. The result is null only for null
    and for the empty text; every other result is the canonical text of a
    date: the date itself for a native date, the date part for a datetime,
    and for a text a date of the calendar (never a 30th of February). *)
Theorem normalize_date_result (v fmt_in r : pyval) :
  _normalize_date v fmt_in = Ok r ->
  (r = VNone /\ (v = VNone \/ v = VStr ""))
  \/ exists d,
       r = VStr (PyDate.strftime d ODM_DATE_FORMAT)
       /\ (v = VDate d \/ (exists t, v = VDateTime d t)
           \/ (exists s, v = VStr s /\ s <> "" /\ valid_date d)).
Proof.
  unfold _normalize_date. destruct v as [| | | |s| | |d|d t]; try discriminate.
  - intros [= <-]. left. auto.
  - destruct (String.eqb s "") eqn:Es.
    + apply String.eqb_eq in Es. intros [= <-]. left. subst. auto.
    + apply String.eqb_neq in Es. intros H. right.
      assert (Hd : exists d, r = VStr (PyDate.strftime d ODM_DATE_FORMAT) /\ valid_date d).
      { destruct (truthy fmt_in).
        - destruct fmt_in; try discriminate H.
          apply bind_ok in H as (d & Hd & H). injection H as <-.
          apply strptime_valid in Hd. exists d. split; [reflexivity | assumption].
        - apply bind_ok in H as (d & Hd & H). injection H as <-.
          apply fromisoformat_valid in Hd. exists d. split; [reflexivity | assumption]. }
      destruct Hd as (d & -> & Hv). exists d. split; [reflexivity|]. right. right. eauto.
  - intros [= <-]. right. exists d. auto.
  - intros [= <-]. right. exists d. eauto.
Qed.

(** The theorem on the text of the documentation's example. *)
Lemma normalize_date_result_witness :
  (VStr "2023-08-15" = VNone /\ (VStr "15/08/2023" = VNone \/ VStr "15/08/2023" = VStr ""))
  \/ exists d,
       VStr "2023-08-15" = VStr (PyDate.strftime d ODM_DATE_FORMAT)
       /\ (VStr "15/08/2023" = VDate d \/ (exists t, VStr "15/08/2023" = VDateTime d t)
           \/ (exists s, VStr "15/08/2023" = VStr s /\ s <> "" /\ valid_date d)).
Proof.
  exact (normalize_date_result (VStr "15/08/2023") (VStr "%d/%m/%Y") (VStr "2023-08-15")
           eq_refl).
Defined.





(** *** The canonical text read back *)

Lemma is_digit_not_space c : Text.is_digit c = true -> Text.is_space c = false.
Proof. destruct c as [[] [] [] [] [] [] [] []]; cbv; congruence. Qed.

Lemma four_digit_text_range y : 1000 <= y <= 9999 -> four_digit_text y = true.
Proof.
  intros Hy.
  assert (Hall : forallb four_digit_text
                   (map Z.of_nat (seq (Z.to_nat 1000) (Z.to_nat 9000))) = true)
    by (vm_compute; reflexivity).
  rewrite forallb_forall in Hall. apply Hall.
  rewrite <- (Z2Nat.id y) by lia. apply in_map. apply in_seq. lia.
Qed.

(** The two-digit numeral of a day or month number, and how the patterns
    of [%d] and [%m] read it: the first alternative that matches takes both
    digits. *)
Lemma two_digit_text n : 1 <= n <= 31 ->
  exists a b,
    Text.padded 2 n = String a (String b EmptyString)
    /\ Text.is_digit a = true /\ Text.is_digit b = true
    /\ 10 * Text.digit_val a + Text.digit_val b = n
    /\ (forall rest, exists tl,
          PyDate.day_alts (String a (String b rest)) = (n, rest) :: tl)
    /\ (n <= 12 -> forall rest, exists tl,
          PyDate.month_alts (String a (String b rest)) = (n, rest) :: tl).
Proof.
  intros Hn.
  assert (Hin : In n (map Z.of_nat (seq 1 31))).
  { rewrite <- (Z2Nat.id n) by lia. apply in_map. apply in_seq. lia. }
  simpl in Hin.
  repeat (destruct Hin as [<-|Hin];
          [do 2 eexists; split; [reflexivity|];
           repeat split; try reflexivity;
           [intros rest; eexists; reflexivity
           |intros Hle rest; first [eexists; reflexivity | exfalso; lia]]|]).
  destruct Hin.
Qed.

Lemma days_in_month_le y m : PyDate.days_in_month y m <= 31.
Proof.
  unfold PyDate.days_in_month.
  repeat match goal with |- context [if ?b then _ else _] => destruct b end; lia.
Qed.

(** The canonical text of a date with a four-digit year. *)
Lemma strftime_canonical d :
  valid_date d -> 1000 <= PyDate.year d ->
  exists a b c e m1 m2 d1 d2,
    PyDate.strftime d ODM_DATE_FORMAT
    = String a (String b (String c (String e (String "-"
        (String m1 (String m2 (String "-" (String d1 (String d2 EmptyString)))))))))
    /\ (Text.is_digit a = true /\ Text.is_digit b = true /\ Text.is_digit c = true
        /\ Text.is_digit e = true /\ Text.is_digit m1 = true /\ Text.is_digit m2 = true
        /\ Text.is_digit d1 = true /\ Text.is_digit d2 = true)
    /\ 1000 * Text.digit_val a + 100 * Text.digit_val b + 10 * Text.digit_val c
       + Text.digit_val e = PyDate.year d
    /\ 10 * Text.digit_val m1 + Text.digit_val m2 = PyDate.month d
    /\ 10 * Text.digit_val d1 + Text.digit_val d2 = PyDate.day d
    /\ (forall rest, exists tl,
          PyDate.month_alts (String m1 (String m2 rest)) = (PyDate.month d, rest) :: tl)
    /\ (forall rest, exists tl,
          PyDate.day_alts (String d1 (String d2 rest)) = (PyDate.day d, rest) :: tl).
Proof.
  intros (Hy & Hm & Hd) Hy'. destruct d as [y m dd].
  cbn [PyDate.year PyDate.month PyDate.day] in *.
  pose proof (four_digit_text_range y ltac:(lia)) as H4. unfold four_digit_text in H4.
  pose proof (days_in_month_le y m) as Hle.
  destruct (two_digit_text m ltac:(lia)) as (m1 & m2 & Em & Hm1 & Hm2 & Vm & _ & Am).
  destruct (two_digit_text dd ltac:(lia)) as (d1 & d2 & Ed & Hd1 & Hd2 & Vd & Ad & _).
  assert (Es : PyDate.strftime {| PyDate.year := y; PyDate.month := m; PyDate.day := dd |}
                 ODM_DATE_FORMAT
               = (Text.decimal y ++ String "-" (Text.padded 2 m ++ String "-"
                    (Text.padded 2 dd ++ EmptyString)))%string) by reflexivity.
  rewrite Es, Em, Ed. clear Es.
  destruct (Text.decimal y) as [|a [|b [|c [|e [|]]]]]; try discriminate H4.
  apply andb_prop in H4 as [H4 Hval]. apply andb_prop in H4 as [H4 He].
  apply andb_prop in H4 as [H4 Hc]. apply andb_prop in H4 as [Ha Hb].
  apply Z.eqb_eq in Hval.
  exists a, b, c, e, m1, m2, d1, d2.
  split; [reflexivity|]. split; [auto 10|].
  split; [assumption|]. split; [assumption|]. split; [assumption|].
  split; [apply Am; lia | assumption].
Qed.

Lemma is_digit_not_W c : Text.is_digit c = true -> Ascii.eqb c "W" = false.
Proof.
  intros H. destruct (Ascii.eqb c "W") eqn:E; [|reflexivity].
  apply Ascii.eqb_eq in E. subst c. vm_compute in H. discriminate H.
Qed.

(** How [date.fromisoformat] reads a text of the form [YYYY-MM-DD]. *)
Lemma fromisoformat_extended a b c e m1 m2 d1 d2 :
  Text.is_digit a = true -> Text.is_digit b = true -> Text.is_digit c = true ->
  Text.is_digit e = true -> Text.is_digit m1 = true -> Text.is_digit m2 = true ->
  Text.is_digit d1 = true -> Text.is_digit d2 = true ->
  PyDate.fromisoformat
    (String a (String b (String c (String e (String "-"
       (String m1 (String m2 (String "-" (String d1 (String d2 EmptyString))))))))))
  = PyDate.make
      (1000 * Text.digit_val a + 100 * Text.digit_val b + 10 * Text.digit_val c
       + Text.digit_val e)
      (10 * Text.digit_val m1 + Text.digit_val m2)
      (10 * Text.digit_val d1 + Text.digit_val d2).
Proof.
  intros Ha Hb Hc He Hm1 Hm2 Hd1 Hd2. unfold PyDate.fromisoformat.
  cbn [String.length Nat.eqb orb negb PyDate.parse_digits].
  rewrite Ha, Hb, Hc, He.
  cbn [PyDate.peek PyDate.advance]. rewrite Ascii.eqb_refl.
  cbn [PyDate.peek PyDate.advance]. rewrite (is_digit_not_W _ Hm1).
  cbn [PyDate.parse_digits]. rewrite Hm1, Hm2.
  cbn [PyDate.peek PyDate.advance andb]. rewrite Ascii.eqb_refl.
  cbn [negb PyDate.parse_digits]. rewrite Hd1, Hd2.
  f_equal; lia.
Qed.

(** X13. The canonical text of a date is read back to itself: a date of
    the calendar with a four-digit year normalises to a text which, given
    again to the date normalisation, comes out unchanged, both without an
    input format and with the format of the output. *)
Theorem normalized_date_is_stable (d : PyDate.date) (fmt_in : pyval) :
  valid_date d ->
  1000 <= PyDate.year d ->
  _normalize_date (VDate d) fmt_in = Ok (VStr (PyDate.strftime d ODM_DATE_FORMAT))
  /\ _normalize_date (VStr (PyDate.strftime d ODM_DATE_FORMAT)) VNone
     = Ok (VStr (PyDate.strftime d ODM_DATE_FORMAT))
  /\ _normalize_date (VStr (PyDate.strftime d ODM_DATE_FORMAT)) (VStr ODM_DATE_FORMAT)
     = Ok (VStr (PyDate.strftime d ODM_DATE_FORMAT)).
Proof.
  intros Hv Hy. split; [reflexivity|].
  destruct (strftime_canonical d Hv Hy)
    as (a & b & c & e & m1 & m2 & d1 & d2 & Es & Hdig & Vy & Vm & Vd & Am & Ad).
  destruct Hdig as (Ha & Hb & Hc & He & Hm1 & Hm2 & Hd1 & Hd2).
  pose proof (is_digit_not_space _ Ha) as Sa. pose proof (is_digit_not_space _ Hd2) as Sd.
  assert (Estrip : Text.strip (PyDate.strftime d ODM_DATE_FORMAT)
                   = PyDate.strftime d ODM_DATE_FORMAT).
  { rewrite Es. unfold Text.strip. cbn [Text.lstrip]. rewrite Sa.
    cbn [Text.rstrip]. rewrite Sd. reflexivity. }
  unfold _normalize_date. rewrite Estrip.
  assert (Ene : String.eqb (PyDate.strftime d ODM_DATE_FORMAT) "" = false)
    by (rewrite Es; reflexivity).
  rewrite Ene. split.
  - cbn [truthy]. rewrite Es at 1.
    cbn [substring]. rewrite (fromisoformat_extended _ _ _ _ _ _ _ _ Ha Hb Hc He Hm1 Hm2 Hd1 Hd2).
    rewrite Vy, Vm, Vd, (valid_make d Hv). reflexivity.
  - assert (Et : truthy (VStr ODM_DATE_FORMAT) = true) by reflexivity.
    rewrite Et. rewrite Es at 1.
    unfold PyDate.strptime.
    assert (Ep : PyDate.parse_format ODM_DATE_FORMAT
                 = Ok [PyDate.FYear; PyDate.FLit "-"; PyDate.FMonth; PyDate.FLit "-";
                       PyDate.FDay]) by reflexivity.
    rewrite Ep. cbn [bind PyDate.used_once forallb filter PyDate.is_item List.length
                     Nat.leb negb andb].
    cbn [PyDate.match_items PyDate.alternatives PyDate.four_digits].
    rewrite Ha, Hb, Hc, He. cbn [andb map PyDate.find_first].
    rewrite Ascii.eqb_refl. cbn [PyDate.find_first PyDate.fY PyDate.fm PyDate.fd].
    destruct (Am (String "-" (String d1 (String d2 EmptyString)))) as [tlm ->].
    cbn [map PyDate.find_first PyDate.fY PyDate.fm PyDate.fd].
    rewrite Ascii.eqb_refl. cbn [PyDate.find_first].
    destruct (Ad EmptyString) as [tld ->].
    cbn [map PyDate.find_first PyDate.fY PyDate.fm PyDate.fd PyDate.or_default].
    rewrite Vy, (valid_make d Hv). reflexivity.
Qed.

(** The theorem on the date of the documentation's example. *)
Lemma normalized_date_is_stable_witness :
  _normalize_date (VStr "2023-08-15") VNone = Ok (VStr "2023-08-15")
  /\ _normalize_date (VStr "2023-08-15") (VStr "%Y-%m-%d") = Ok (VStr "2023-08-15").
Proof.
  refine (proj2 (normalized_date_is_stable
                   {| PyDate.year := 2023; PyDate.month := 8; PyDate.day := 15 |} VNone _ _)).
  - unfold valid_date. cbn [PyDate.year PyDate.month PyDate.day].
    change (PyDate.days_in_month 2023 8) with 31. lia.
  - cbn [PyDate.year]. lia.
Defined.

(** ** Splitting lists *)

Lemma contains_char_cons c a s :
  contains_char c (String a s) = Ascii.eqb c a || contains_char c s.
Proof. reflexivity. Qed.

Lemma split_fields_no_sep sep s f : In f (Text.split sep s) -> contains_char sep f = false.
Proof.
  revert f. induction s as [|c s IH]; simpl; intros f Hf.
  - destruct Hf as [<-|[]]. reflexivity.
  - destruct (Ascii.eqb c sep) eqn:E.
    + destruct Hf as [<-|Hf]; [reflexivity | now apply IH].
    + destruct (Text.split sep s) as [|f0 fs].
      * destruct Hf as [<-|[]]. rewrite contains_char_cons, Ascii.eqb_sym, E. reflexivity.
      * destruct Hf as [<-|Hf]; [|apply IH; now right].
        rewrite contains_char_cons, Ascii.eqb_sym, E. apply IH. now left.
Qed.

Lemma split_fields_sub sep c s f :
  In f (Text.split sep s) -> contains_char c f = true -> contains_char c s = true.
Proof.
  revert f. induction s as [|a s IH]; simpl; intros f Hf Hc.
  - destruct Hf as [<-|[]]. discriminate Hc.
  - rewrite contains_char_cons. destruct (Ascii.eqb a sep).
    + destruct Hf as [<-|Hf]; [discriminate Hc|].
      rewrite (IH _ Hf Hc). apply orb_true_r.
    + destruct (Text.split sep s) as [|f0 fs].
      * destruct Hf as [<-|[]]. rewrite contains_char_cons in Hc.
        apply orb_prop in Hc as [->|Hc]; [reflexivity | discriminate Hc].
      * destruct Hf as [<-|Hf].
        -- rewrite contains_char_cons in Hc. apply orb_prop in Hc as [->|Hc]; [reflexivity|].
           rewrite (IH f0 (or_introl eq_refl) Hc). apply orb_true_r.
        -- rewrite (IH f (or_intror Hf) Hc). apply orb_true_r.
Qed.

Lemma replace_char_removes a b s : a <> b -> contains_char a (Text.replace_char a b s) = false.
Proof.
  intros Hab. induction s as [|c s IH]; [reflexivity|].
  simpl. rewrite contains_char_cons, IH, orb_false_r.
  destruct (Ascii.eqb c a) eqn:E.
  - now apply Ascii.eqb_neq.
  - rewrite Ascii.eqb_sym. exact E.
Qed.

Lemma lstrip_sub c s : contains_char c (Text.lstrip s) = true -> contains_char c s = true.
Proof.
  induction s as [|a s IH]; simpl; [discriminate|].
  destruct (Text.is_space a); [|trivial].
  intros H. rewrite contains_char_cons, (IH H). apply orb_true_r.
Qed.

Lemma rstrip_sub c s : contains_char c (Text.rstrip s) = true -> contains_char c s = true.
Proof.
  induction s as [|a s IH]; simpl; [discriminate|].
  rewrite contains_char_cons. destruct (Text.rstrip s) as [|a' r].
  - destruct (Text.is_space a); [discriminate|].
    rewrite contains_char_cons. intros H. apply orb_prop in H as [->|H];
      [reflexivity | discriminate H].
  - rewrite contains_char_cons. intros H. apply orb_prop in H as [->|H]; [reflexivity|].
    rewrite (IH H). apply orb_true_r.
Qed.

Lemma rstrip_idem s : Text.rstrip (Text.rstrip s) = Text.rstrip s.
Proof.
  induction s as [|a s IH]; [reflexivity|]. simpl.
  destruct (Text.rstrip s) as [|a' r] eqn:E.
  - destruct (Text.is_space a) eqn:Ea; [reflexivity|]. simpl. now rewrite Ea.
  - simpl. simpl in IH. rewrite IH. reflexivity.
Qed.

Lemma lstrip_head s :
  Text.lstrip s = EmptyString
  \/ exists a r, Text.lstrip s = String a r /\ Text.is_space a = false.
Proof.
  induction s as [|a s IH]; simpl; [now left|].
  destruct (Text.is_space a) eqn:E; [assumption | right; eauto].
Qed.

Lemma rstrip_keeps_head a r :
  Text.is_space a = false -> exists r', Text.rstrip (String a r) = String a r'.
Proof.
  intros Ha. simpl. destruct (Text.rstrip r); [rewrite Ha|]; eauto.
Qed.

Lemma strip_idem s : Text.strip (Text.strip s) = Text.strip s.
Proof.
  unfold Text.strip. destruct (lstrip_head s) as [->|(a & r & -> & Ha)]; [reflexivity|].
  destruct (rstrip_keeps_head a r Ha) as [r' E]. rewrite E.
  simpl Text.lstrip. rewrite Ha, <- E. apply rstrip_idem.
Qed.

(** X14. The tokens of a split list: every token is non-empty, has no
    blank at either end, and holds neither a comma nor a semicolon. *)
Theorem split_csv_tokens (value t : string) :
  In t (split_csv value) ->
  t <> ""
  /\ Text.strip t = t
  /\ contains_char "," t = false
  /\ contains_char ";" t = false.
Proof.
  unfold split_csv. intros H. apply in_flat_map in H as (f & Hf & Ht).
  destruct (String.eqb (Text.strip f) "") eqn:E; [destruct Ht|].
  destruct Ht as [<-|[]]. apply String.eqb_neq in E.
  split; [assumption|]. split; [apply strip_idem|].
  assert (Hsub : forall c, contains_char c (Text.strip f) = true -> contains_char c f = true).
  { intros c Hc. unfold Text.strip in Hc. now apply lstrip_sub, rstrip_sub. }
  split.
  - destruct (contains_char "," (Text.strip f)) eqn:Hc; [|reflexivity].
    apply Hsub in Hc. now rewrite (split_fields_no_sep _ _ _ Hf) in Hc.
  - destruct (contains_char ";" (Text.strip f)) eqn:Hc; [|reflexivity].
    apply Hsub in Hc. apply (split_fields_sub _ _ _ _ Hf) in Hc.
    rewrite replace_char_removes in Hc; [discriminate Hc | discriminate].
Qed.

(** The theorem on the second token of the documentation's example. *)
Lemma split_csv_tokens_witness :
  "2" <> "" /\ Text.strip "2" = "2"
  /\ contains_char "," "2" = false /\ contains_char ";" "2" = false.
Proof.
  exact (split_csv_tokens "1, 2;3" "2" (or_intror (or_introl eq_refl))).
Defined.

(** ** Serialising the request of a build *)

Lemma all_json_ok_get d k : all_json_ok d = true -> json_ok (get k d) = true.
Proof.
  unfold get. induction d as [|[k' v] d IH]; simpl; [reflexivity|].
  intros H. apply andb_prop in H as [Hv Hd].
  destruct (String.eqb k' k); [assumption | now apply IH].
Qed.

Lemma all_json_ok_dict_get d k v :
  all_json_ok d = true -> dict_get k d = Some v -> json_ok v = true.
Proof.
  intros Hd Hg. pose proof (all_json_ok_get d k Hd) as H. unfold get in H.
  now rewrite Hg in H.
Qed.

Lemma all_json_ok_pop d k : all_json_ok d = true -> all_json_ok (dict_pop k d) = true.
Proof.
  unfold dict_pop. induction d as [|[k' v] d IH]; simpl; [reflexivity|].
  intros H. apply andb_prop in H as [Hv Hd].
  destruct (negb (String.eqb k' k)); simpl; [rewrite Hv|]; now apply IH.
Qed.

Lemma json_ok_dict m : json_ok (VDict m) = all_json_ok m.
Proof. reflexivity. Qed.

Lemma get_default_json_ok m key dflt r :
  json_ok (VDict m) = true -> json_ok dflt = true ->
  get_default m key dflt = Ok r -> json_ok r = true.
Proof.
  rewrite json_ok_dict. unfold get_default. intros Hm Hd.
  destruct (hashable key); [|discriminate].
  destruct key; intros [= <-]; try assumption.
  destruct (dict_get s m) as [v|] eqn:E; [|assumption].
  eapply all_json_ok_dict_get; eauto.
Qed.

Lemma normalize_date_json_ok v fmt_in r : _normalize_date v fmt_in = Ok r -> json_ok r = true.
Proof.
  unfold _normalize_date. destruct v; try discriminate; try (now intros [= <-]).
  destruct (String.eqb s ""); [now intros [= <-]|].
  destruct (truthy fmt_in).
  - destruct fmt_in; try discriminate. intros H.
    apply bind_ok in H as (d & _ & [= <-]). reflexivity.
  - intros H. apply bind_ok in H as (d & _ & [= <-]). reflexivity.
Qed.

Lemma apply_transform_json_ok_aux (value : pyval) (cfg : dict pyval) (r : pyval) :
  all_json_ok cfg = true ->
  json_ok value = true \/ date_enabled cfg = true ->
  _apply_transform value cfg = Ok r ->
  json_ok r = true.
Proof.
  intros Hcfg Hin H. unfold _apply_transform in H.
  apply bind_ok in H as (v1 & H1 & H). apply bind_ok in H as (v2 & H2 & H).
  apply bind_ok in H as (v3 & H3 & [= <-]).
  assert (Hget : forall k, json_ok (get k cfg) = true) by (intros; now apply all_json_ok_get).
  assert (P2 : json_ok v2 = true).
  { unfold step_date in H2. fold (date_enabled cfg) in H2.
    destruct (date_enabled cfg); [now apply normalize_date_json_ok in H2|].
    injection H2 as <-. destruct Hin as [Hv|]; [|discriminate].
    assert (P0 : json_ok (step_default cfg value) = true).
    { unfold step_default. destruct (_ && _); [apply Hget | assumption]. }
    assert (P1 : json_ok v1 = true).
    { unfold step_map_from in H1. pose proof (Hget "map_from") as Ha.
      pose proof (Hget "map") as Hb. unfold py_or in H1.
      destruct (truthy (get "map_from" cfg)).
      - destruct (get "map_from" cfg); try (now injection H1 as <-).
        exact (get_default_json_ok _ _ _ _ Ha P0 H1).
      - destruct (get "map" cfg); try (now injection H1 as <-).
        exact (get_default_json_ok _ _ _ _ Hb P0 H1). }
    unfold step_split_csv. destruct v1; try assumption.
    destruct (truthy (get "split_csv" cfg)); [|assumption].
    simpl. induction (split_csv s); simpl; auto. }
  assert (P3' : json_ok (step_strings cfg v2) = true).
  { unfold step_strings. destruct v2; assumption. }
  assert (P3 : json_ok v3 = true).
  { unfold step_bool_map in H3. pose proof (Hget "bool_map") as Ha.
    destruct (get "bool_map" cfg); try (now injection H3 as <-).
    exact (get_default_json_ok d _ (VBool (truthy (step_strings cfg v2))) _ Ha eq_refl H3). }
  unfold step_scale. destruct v3; try assumption;
    (destruct (dict_mem "scale" cfg); [|assumption]);
    match goal with
    | |- json_ok (match ?a with _ => _ end) = true =>
        destruct a; try assumption;
        match goal with
        | |- json_ok (match ?b with _ => _ end) = true => destruct b; try assumption
        | _ => idtac
        end
    end; reflexivity.
Qed.


(** X15. The pipeline keeps values encodable as JSON: with options read
    from a JSON document, the result can be encoded whenever the input can,
    and also, whatever the input, whenever the date step is configured (a
    native date comes out as text). *)
Theorem apply_transform_json_ok (value : pyval) (cfg : dict pyval) (r : pyval) :
  all_json_ok cfg = true ->
  json_ok value = true \/ date_enabled cfg = true ->
  _apply_transform value cfg = Ok r ->
  json_ok r = true.
Proof. apply apply_transform_json_ok_aux. Qed.

(** The theorem on a native date and a rule with [as_date]. *)
Lemma apply_transform_json_ok_witness :
  json_ok (VStr "2023-08-15") = true.
Proof.
  exact (apply_transform_json_ok
           (VDate {| PyDate.year := 2023; PyDate.month := 8; PyDate.day := 15 |})
           [("as_date", VBool true)] (VStr "2023-08-15") eq_refl (or_intror eq_refl) eq_refl).
Defined.

(** *** The digit cap *)

Lemma digit_val_range c : Text.is_digit c = true -> 0 <= Text.digit_val c <= 9.
Proof.
  unfold Text.is_digit, Text.digit_val. intros H. apply andb_prop in H as [H1 H2].
  apply Nat.leb_le in H1, H2. lia.
Qed.

Lemma digits_bound s : forall acc n v n' r,
  PyFloat.digits s acc n = (v, n', r) ->
  0 <= n -> 0 <= acc < 10 ^ n ->
  n <= n' /\ 0 <= v < 10 ^ n'.
Proof.
  induction s as [|c s IH]; simpl; intros acc n v n' r H Hn Hacc.
  - injection H as <- <- _. split; [lia | assumption].
  - destruct (Text.is_digit c) eqn:Hc.
    + apply digit_val_range in Hc.
      assert (Hacc' : 0 <= 10 * acc + Text.digit_val c < 10 ^ (n + 1))
        by (rewrite Z.pow_add_r, Z.pow_1_r by lia; lia).
      destruct (IH _ _ _ _ _ H ltac:(lia) Hacc') as [Hle Hv]. split; [lia | assumption].
    + injection H as <- <- _. split; [lia | assumption].
Qed.

Lemma int_str_ok_below z n :
  Z.abs z < 10 ^ n -> n <= int_max_str_digits -> int_str_ok z = true.
Proof.
  intros Hz Hn. unfold int_str_ok. apply Z.ltb_lt.
  apply Z.lt_le_trans with (10 ^ n); [assumption|].
  apply Z.pow_le_mono_r; [lia | assumption].
Qed.

(** [int(s)] never yields an int over the cap. *)
Lemma int_of_string_ok s z : int_of_string s = Some z -> int_str_ok z = true.
Proof.
  unfold int_of_string. destruct (PyFloat.sign (Text.strip_c s)) as [neg body].
  destruct body as [|c body]; [discriminate|].
  destruct (Text.is_digit c); [|discriminate].
  destruct (PyFloat.drop_underscores _ _) as [t|]; [|discriminate].
  destruct (PyFloat.digits t 0 0) as [[v n] r] eqn:Hd.
  destruct r; [|discriminate].
  destruct (n <=? int_max_str_digits) eqn:Hn; [|discriminate].
  intros [= <-]. apply Z.leb_le in Hn.
  apply digits_bound in Hd as [_ Hv]; [|lia|simpl; lia].
  apply (int_str_ok_below _ n); [|assumption]. destruct neg; lia.
Qed.

Lemma digits2_pos_bound m : Zpos m < 2 ^ Zpos (digits2_pos m).
Proof.
  induction m as [m IH|m IH|]; cbn [digits2_pos]; [| |reflexivity];
    rewrite Pos2Z.inj_succ, Z.pow_succ_r by lia; lia.
Qed.

(** [int(f)] never yields an int over the cap: a float is below [2 ^ 1024]. *)
Lemma float_to_int_ok f z : PyFloat.to_int f = Ok z -> int_str_ok z = true.
Proof.
  unfold PyFloat.to_int. pose proof (Prim2SF_valid f) as Hv.
  destruct (Prim2SF f) as [s|s| |s m e]; try discriminate.
  - intros [= <-]. reflexivity.
  - intros [= <-]. unfold valid_binary, bounded, canonical_mantissa, fexp in Hv.
    apply andb_prop in Hv as [Hc He]. apply Z.eqb_eq in Hc. apply Z.leb_le in He.
    pose proof (digits2_pos_bound m) as Hm.
    assert (Hd : Zpos (digits2_pos m) <= prec) by lia.
    assert (Hm' : Zpos m < 2 ^ prec).
    { apply Z.lt_le_trans with (2 ^ Zpos (digits2_pos m)); [assumption|].
      apply Z.pow_le_mono_r; lia. }
    assert (Ha : 0 <= (if 0 <=? e then Z.shiftl (Zpos m) e else Z.shiftr (Zpos m) (- e))
                 < 2 ^ emax).
    { assert (HA : 0 < 2 ^ prec) by (apply Z.pow_pos_nonneg; unfold prec; lia).
      destruct (0 <=? e) eqn:E.
      - apply Z.leb_le in E. rewrite Z.shiftl_mul_pow2 by assumption.
        assert (HB : 0 < 2 ^ e) by (apply Z.pow_pos_nonneg; lia).
        assert (HC : 2 ^ e <= 2 ^ (emax - prec)) by (apply Z.pow_le_mono_r; lia).
        replace (2 ^ emax) with (2 ^ prec * 2 ^ (emax - prec))
          by (rewrite <- Z.pow_add_r by (unfold prec, emax; lia); f_equal; lia).
        revert Hm' HA HB HC.
        generalize (2 ^ prec) (2 ^ e) (2 ^ (emax - prec)). intros A B C. nia.
      - apply Z.leb_gt in E. rewrite Z.shiftr_div_pow2 by lia.
        assert (HB : 0 < 2 ^ (- e)) by (apply Z.pow_pos_nonneg; lia).
        split; [apply Z.div_pos; lia|].
        apply Z.le_lt_trans with (Zpos m).
        + apply Z.div_le_upper_bound; [assumption | nia].
        + apply Z.lt_trans with (2 ^ prec); [assumption|].
          apply Z.pow_lt_mono_r; unfold prec, emax; lia. }
    unfold int_str_ok. apply Z.ltb_lt.
    apply Z.lt_le_trans with (2 ^ emax); [destruct s; lia|].
    apply Z.leb_le. vm_compute. reflexivity.
Qed.

Lemma py_int_ok value z : json_ok value = true -> py_int value = Ok z -> int_str_ok z = true.
Proof.
  destruct value; simpl; intros Hv H; try discriminate H.
  - injection H as Hz. subst z. destruct b; vm_compute; reflexivity.
  - injection H as Hz. now subst z.
  - exact (float_to_int_ok _ _ H).
  - destruct (int_of_string s) as [z'|] eqn:E; [|discriminate H].
    injection H as <-. exact (int_of_string_ok _ _ E).
Qed.

(** *** What the encoder raises, and when it raises nothing *)

Lemma first_error_none {A : Type} (f : A -> option pyexc) (ok : A -> bool) l :
  (forall x, In x l -> (f x = None <-> ok x = true)) ->
  (first_error f l = None <-> forallb ok l = true).
Proof.
  induction l as [|x l IH]; simpl; intros H; [tauto|].
  specialize (IH (fun y Hy => H y (or_intror Hy))).
  pose proof (H x (or_introl eq_refl)) as Hx.
  destruct (f x) as [e|]; destruct (ok x); simpl.
  - destruct Hx as [_ Hx]. discriminate (Hx eq_refl).
  - split; discriminate.
  - exact IH.
  - destruct Hx as [Hx _]. discriminate (Hx eq_refl).
Qed.

Lemma forallb_same {A : Type} (f g : A -> bool) l :
  (forall x, f x = g x) -> forallb f l = forallb g l.
Proof. intros H. induction l as [|x l IH]; simpl; [reflexivity | now rewrite H, IH]. Qed.

Lemma first_error_some {A : Type} (f : A -> option pyexc) l e :
  first_error f l = Some e -> exists x, In x l /\ f x = Some e.
Proof.
  induction l as [|x l IH]; simpl; [discriminate|].
  destruct (f x) as [e'|] eqn:E.
  - intros [= <-]. exists x. auto.
  - intros H. destruct (IH H) as (y & Hy & Hf). exists y. auto.
Qed.

Lemma pyval_nested_ind (P : pyval -> Prop) :
  P VNone -> (forall b, P (VBool b)) -> (forall z, P (VInt z)) -> (forall f, P (VFloat f)) ->
  (forall s, P (VStr s)) ->
  (forall l, Forall P l -> P (VList l)) ->
  (forall d, Forall (fun kv => P (snd kv)) d -> P (VDict d)) ->
  (forall d, P (VDate d)) -> (forall d t, P (VDateTime d t)) ->
  forall v, P v.
Proof.
  intros HN HB HI HF HS HL HD HDa HDt.
  fix IH 1. intros [|b|z|f|s|l|d|d|d t].
  - exact HN.
  - apply HB.
  - apply HI.
  - apply HF.
  - apply HS.
  - apply HL. induction l as [|x l IHl]; constructor; [apply IH | exact IHl].
  - apply HD. induction d as [|[k x] d IHd]; constructor; [apply IH | exact IHd].
  - apply HDa.
  - apply HDt.
Qed.

Lemma json_error_none v : json_error v = None <-> json_ok v = true.
Proof.
  induction v as [|b|z|f|s|l IH|d IH|d|d t] using pyval_nested_ind;
    simpl; try tauto; try (split; discriminate).
  - destruct (int_str_ok z); split; auto; discriminate.
  - apply first_error_none. intros x Hx. rewrite Forall_forall in IH. now apply IH.
  - replace (forallb (fun '(_, x) => json_ok x) d)
      with (forallb (fun kv => json_ok (snd kv)) d)
      by (apply forallb_same; now intros [k x]).
    apply first_error_none. intros x Hx. rewrite Forall_forall in IH. now apply IH.
Qed.

Lemma json_error_kind v e : json_error v = Some e -> e = NotSerializable \/ e = IntStrLimit.
Proof.
  revert e. induction v as [|b|z|f|s|l IH|d IH|d|d t] using pyval_nested_ind;
    simpl; intros e H; try discriminate H; try (injection H as <-; auto).
  - destruct (int_str_ok z); [discriminate H | injection H as <-; auto].
  - apply first_error_some in H as (x & Hx & H). rewrite Forall_forall in IH. eauto.
  - apply first_error_some in H as (x & Hx & H). rewrite Forall_forall in IH. eauto.
Qed.

Lemma entry_json_error_none e : entry_json_error e = None <-> entry_json_ok e = true.
Proof.
  unfold entry_json_error, entry_json_ok. destruct (var_value_of e); try tauto.
  destruct (int_str_ok z); split; auto; discriminate.
Qed.

Lemma co_json_error_none v : co_json_error v = None <-> co_json_ok v = true.
Proof.
  destruct v as [v|plain entries]; simpl; [apply json_error_none|].
  pose proof (first_error_none json_error json_ok plain
                (fun x _ => json_error_none x)) as Hp.
  pose proof (first_error_none entry_json_error entry_json_ok entries
                (fun x _ => entry_json_error_none x)) as He.
  destruct (first_error json_error plain); destruct (forallb json_ok plain); simpl.
  - destruct Hp as [_ Hp]. discriminate (Hp eq_refl).
  - split; discriminate.
  - exact He.
  - destruct Hp as [Hp _]. discriminate (Hp eq_refl).
Qed.

Lemma co_json_error_kind v e :
  co_json_error v = Some e -> e = NotSerializable \/ e = IntStrLimit.
Proof.
  destruct v as [v|plain entries]; simpl; [apply json_error_kind|].
  destruct (first_error json_error plain) as [e'|] eqn:E.
  - intros [= <-]. apply first_error_some in E as (x & _ & E). exact (json_error_kind _ _ E).
  - intros H. apply first_error_some in H as (x & _ & H). unfold entry_json_error in H.
    destruct (var_value_of x); try discriminate H.
    destruct (int_str_ok z); [discriminate H | injection H as <-; auto].
Qed.

(** The request is written exactly when every value of [coRequest] can be
    encoded; otherwise the call raises what the encoder met first. *)
Lemma get_request_json_cases self req indent :
  odm_request self = Some req ->
  (co_all_json_ok (coRequest req) = true
   /\ get_request_json self indent = Ok (JsonDumps req indent))
  \/ (co_all_json_ok (coRequest req) = false
      /\ exists e, get_request_json self indent = Raise e
                   /\ (e = NotSerializable \/ e = IntStrLimit)).
Proof.
  intros Hreq. unfold get_request_json. rewrite Hreq.
  pose proof (first_error_none (fun kv => co_json_error (snd kv))
                (fun kv => co_json_ok (snd kv)) (coRequest req)
                (fun x _ => co_json_error_none (snd x))) as H.
  replace (forallb (fun kv => co_json_ok (snd kv)) (coRequest req))
    with (co_all_json_ok (coRequest req)) in H
    by (apply forallb_same; now intros [k x]).
  destruct (first_error _ (coRequest req)) as [e|] eqn:E.
  - right. split.
    + destruct (co_all_json_ok (coRequest req)); [|reflexivity].
      destruct H as [_ H]. discriminate (H eq_refl).
    + exists e. split; [reflexivity|].
      apply first_error_some in E as (x & _ & E). exact (co_json_error_kind _ _ E).
  - left. split; [now apply H | reflexivity].
Qed.

(** *** The values of [co] stay encodable through a build *)

Lemma co_ok_set co k v :
  co_all_json_ok co = true -> co_json_ok v = true -> co_all_json_ok (dict_set k v co) = true.
Proof.
  unfold co_all_json_ok. intros Hco Hv. induction co as [|[k' v'] co IH]; simpl.
  - now rewrite Hv.
  - simpl in Hco. apply andb_prop in Hco as [Hv' Hco].
    destruct (String.eqb k' k); simpl; [now rewrite Hv, Hco | now rewrite Hv', IH].
Qed.

Lemma co_ok_pop co k : co_all_json_ok co = true -> co_all_json_ok (dict_pop k co) = true.
Proof.
  unfold co_all_json_ok, dict_pop. induction co as [|[k' v'] co IH]; simpl; [reflexivity|].
  intros H. apply andb_prop in H as [Hv Hco].
  destruct (negb (String.eqb k' k)); simpl; [rewrite Hv|]; now apply IH.
Qed.

Lemma co_ok_get co k v :
  co_all_json_ok co = true -> dict_get k co = Some v -> co_json_ok v = true.
Proof.
  unfold co_all_json_ok. induction co as [|[k' v'] co IH]; simpl; [discriminate|].
  intros H. apply andb_prop in H as [Hv Hco].
  destruct (String.eqb k' k); [now intros [= <-] | now apply IH].
Qed.

Lemma append_var_co_ok co key name r co' :
  append_var co key name r = Ok co' ->
  (forall v, r = Ok v -> entry_json_ok {| var_name := name; var_value_of := v |} = true) ->
  co_all_json_ok co = true -> co_all_json_ok co' = true.
Proof.
  intros H Hr Hco.
  apply append_var_inv' in H as (plain & entries & v & Hs & Hv & ->).
  apply co_ok_set; [assumption|]. cbn [co_json_ok].
  assert (Hpe : forallb json_ok plain && forallb entry_json_ok entries = true).
  { unfold setdefault_list in Hs.
    destruct (dict_get key co) as [[w|p es]|] eqn:Hg.
    - destruct w; try discriminate Hs. injection Hs as <- <-.
      pose proof (co_ok_get _ _ _ Hco Hg) as Hw. cbn [co_json_ok json_ok] in Hw.
      now rewrite Hw.
    - injection Hs as <- <-. exact (co_ok_get _ _ _ Hco Hg).
    - now injection Hs as <- <-. }
  apply andb_prop in Hpe as [Hp He]. rewrite Hp, forallb_app, He. cbn [andb forallb].
  now rewrite (Hr v Hv).
Qed.

(** [_add_var] keeps [co] encodable when the value it is given is. *)
Lemma add_var_co_ok co vtype name value co' :
  _add_var co vtype name value = Ok co' ->
  json_ok value = true ->
  co_all_json_ok co = true -> co_all_json_ok co' = true.
Proof.
  intros H Hv Hco. destruct (is_none value) eqn:Hn.
  { destruct value; try discriminate Hn. now injection H as <-. }
  rewrite (add_var_nonnull _ _ _ _ Hn) in H.
  destruct (String.eqb vtype "date").
  { apply (append_var_co_ok _ _ _ _ _ H); [|assumption].
    intros v E. apply bind_ok in E as (t & _ & [= <-]). reflexivity. }
  destruct (String.eqb vtype "double").
  { apply (append_var_co_ok _ _ _ _ _ H); [|assumption].
    intros v E. apply bind_ok in E as (t & _ & [= <-]). reflexivity. }
  destruct (String.eqb vtype "integer").
  { apply (append_var_co_ok _ _ _ _ _ H); [|assumption].
    intros v E. apply bind_ok in E as (z & Hz & [= <-]).
    exact (py_int_ok _ _ Hv Hz). }
  destruct (String.eqb vtype "string").
  { apply (append_var_co_ok _ _ _ _ _ H); [|assumption].
    intros v E. apply bind_ok in E as (t & _ & [= <-]). reflexivity. }
  destruct (String.eqb vtype "list_double"); [|discriminate].
  apply bind_ok in H as (vals & _ & H).
  apply (append_var_co_ok _ _ _ _ _ H); [|assumption].
  intros v [= <-]. reflexivity.
Qed.

Lemma rule_cfg_json_ok spec :
  rule_json_ok spec = true -> all_json_ok (snd (source_and_cfg spec)) = true.
Proof.
  destruct spec as [s|d]; simpl; [reflexivity|]. apply all_json_ok_pop.
Qed.

(** The value a rule resolves to is encodable when the record and the
    options of the rule are. *)
Lemma rule_value_json_ok external_flat spec val :
  all_json_ok external_flat = true -> rule_json_ok spec = true ->
  rule_value external_flat spec = Some val -> json_ok val = true.
Proof.
  intros Hrec Hspec Hval. apply rule_cfg_json_ok in Hspec.
  unfold rule_value in Hval.
  destruct (find external_flat _) as [[v|]|] eqn:Hf; [| |discriminate Hval].
  - destruct (_apply_transform v _) as [r|] eqn:Ht; [|discriminate Hval].
    injection Hval as <-.
    apply (apply_transform_json_ok_aux v _ r Hspec); [left|assumption].
    unfold find in Hf. destruct (hashable _); [|discriminate].
    destruct (fst (source_and_cfg spec)); try discriminate.
    injection Hf as Hf. exact (all_json_ok_dict_get _ _ _ Hrec Hf).
  - destruct (dict_mem "default" _); [|discriminate Hval].
    injection Hval as <-. now apply all_json_ok_get.
Qed.

(** With a record and a mapping that JSON can encode, every value of [co]
    can be encoded when the loops are done. *)
Lemma build_co_ok self external_flat mapping decision_id fresh odm_req produced_targets :
  _build_by_odm_keys self external_flat mapping decision_id fresh
  = Ok (odm_req, produced_targets) ->
  all_json_ok external_flat = true ->
  mapping_json_ok mapping = true ->
  co_all_json_ok (coRequest odm_req) = true.
Proof.
  intros H Hrec Hmap. unfold mapping_json_ok in Hmap.
  apply andb_prop in Hmap as [Hmap Hcv]. apply andb_prop in Hmap as [Hmap Hvars].
  apply andb_prop in Hmap as [Hconst Hrules].
  unfold rules_json_ok in Hrules. rewrite forallb_forall in Hrules, Hvars, Hcv.
  apply build_stages in H as (st1 & st2 & st3 & st4 & H1 & H2 & H3 & H4 & -> & _).
  cbn [coRequest].
  assert (P1 : co_all_json_ok (fst st1) = true).
  { refine (for_each_keeps _ (fun st => co_all_json_ok (fst st) = true) _ _ _ _ H1 eq_refl).
    intros [co p] [k v] s' Hin [= <-] Hco. simpl in *.
    apply co_ok_set; [assumption|]. simpl.
    unfold all_json_ok in Hconst. rewrite forallb_forall in Hconst.
    exact (Hconst _ Hin). }
  assert (P2 : co_all_json_ok (fst st2) = true).
  { refine (for_each_keeps _ (fun st => co_all_json_ok (fst st) = true) _ _ _ _ H2 P1).
    intros [co p] [name spec] s' Hin Hs Hco. simpl in Hco.
    pose proof (Hrules _ Hin) as Hspec. simpl in Hspec.
    pose proof (co_field_step_value _ _ _ _ _ _ Hs) as Hval.
    destruct (rule_value external_flat spec) as [val|] eqn:Hrv; subst s'; [|assumption].
    simpl. apply co_ok_set; [assumption|]. simpl.
    exact (rule_value_json_ok _ _ _ Hrec Hspec Hrv). }
  assert (P3 : co_all_json_ok (init_collections (fst st2)) = true).
  { unfold init_collections, collection_keys. simpl.
    repeat (apply co_ok_set; [|reflexivity]). assumption. }
  assert (P4 : co_all_json_ok (fst st4) = true).
  { refine (for_each_keeps _ (fun st => co_all_json_ok (fst st) = true) _ _ _ _ H4 _).
    - intros s [vtype d] s' Hin. simpl.
      pose proof (Hvars _ Hin) as Hd. simpl in Hd.
      unfold rules_json_ok in Hd. rewrite forallb_forall in Hd.
      apply (for_each_keeps _ (fun st => co_all_json_ok (fst st) = true)).
      intros [co p] [name spec] s2 Hin2 Hs. unfold variable_step in Hs.
      pose proof (Hd _ Hin2) as Hspec. simpl in Hspec.
      pose proof (rule_cfg_json_ok _ Hspec) as Hcfg.
      destruct (source_and_cfg spec) as [src cfg] eqn:Esc. cbn [snd] in Hcfg.
      apply bind_ok in Hs as (found & Hf & Hs). destruct found as [v|].
      + apply bind_ok in Hs as (val & Ht & Hs). apply bind_ok in Hs as (co' & Hs & [= <-]).
        apply (add_var_co_ok _ _ _ _ _ Hs).
        apply (apply_transform_json_ok_aux v _ val Hcfg); [left|assumption].
        unfold find in Hf. destruct (hashable _); [|discriminate].
        destruct src; try discriminate.
        injection Hf as Hf. exact (all_json_ok_dict_get _ _ _ Hrec Hf).
      + destruct (dict_mem "default" cfg).
        * apply bind_ok in Hs as (co' & Hs & [= <-]).
          apply (add_var_co_ok _ _ _ _ _ Hs). now apply all_json_ok_get.
        * injection Hs as <-. auto.
    - refine (for_each_keeps _ (fun st => co_all_json_ok (fst st) = true) _ _ _ _ H3 P3).
      intros s [vtype d] s' Hin. simpl.
      pose proof (Hcv _ Hin) as Hd. simpl in Hd.
      unfold all_json_ok in Hd. rewrite forallb_forall in Hd.
      apply (for_each_keeps _ (fun st => co_all_json_ok (fst st) = true)).
      intros [co p] [name value] s2 Hin2 Hs. unfold constant_var_step in Hs.
      apply bind_ok in Hs as (co' & Hs & [= <-]).
      apply (add_var_co_ok _ _ _ _ _ Hs). exact (Hd _ Hin2). }
  clear - P4. revert P4. generalize (fst st4). generalize collection_keys.
  intros ks. induction ks as [|k ks IH]; simpl; intros co Hco; [assumption|].
  apply IH. unfold prune. destruct (dict_get k co) as [v|]; [|assumption].
  destruct (is_empty v); [now apply co_ok_pop | assumption].
Qed.

(** A build that returns a request read a record that is a dict, loaded
    the mapping file and assembled that request. *)
Lemma build_result_ok env self external_flat path decision_id validate_required fresh req :
  build_result env self external_flat path decision_id validate_required fresh = Ok req ->
  exists record mapping produced_targets,
    external_flat = VDict record
    /\ _load_mapping_file_json env
         (match nonempty path with Some p => p | None => mapping_path self end) = Ok mapping
    /\ _build_by_odm_keys self record mapping decision_id fresh = Ok (req, produced_targets).
Proof.
  unfold build_result. destruct external_flat as [| | | | | |record| |]; try discriminate.
  intros H. apply bind_ok in H as (mapping & Hl & H).
  apply bind_ok in H as ([r p] & Hb & H).
  exists record, mapping, p. repeat split; [assumption|].
  destruct validate_required; [destruct (missing_required _ _ _); [|discriminate H]|];
    injection H as <-; assumption.
Qed.

Lemma load_of_files env path mapping :
  files env path = Some mapping -> _load_mapping_file_json env path = Ok mapping.
Proof. unfold _load_mapping_file_json. now intros ->. Qed.

(** ** Serialising what a build returned *)

(** X16. When the values of the record can be encoded as JSON (no native
    date, no int over the digit cap of the interpreter) and the mapping is
    as [json.load] gives it, every request that a build returns can be
    serialised: [get_request_json] on the controller returns the encoding of
    that very request. *)
Theorem built_request_serialises (env : environment) (self : odm_controller)
    (record : dict pyval) (path decision_id : option string) (validate_required : bool)
    (fresh : string) (mapping : mapping_t) (req : odm_request_t) (indent : Z) :
  files env (match nonempty path with Some p => p | None => mapping_path self end)
  = Some mapping ->
  all_json_ok record = true ->
  mapping_json_ok mapping = true ->
  fst (build_request_from_mapping_file env self (VDict record) path decision_id
         validate_required fresh) = Ok req ->
  get_request_json
    (snd (build_request_from_mapping_file env self (VDict record) path decision_id
            validate_required fresh)) indent
  = Ok (JsonDumps req indent).
Proof.
  intros Hfile Hrec Hmap. unfold build_request_from_mapping_file.
  destruct (build_result env self (VDict record) path decision_id validate_required fresh)
    as [r|e] eqn:Hb; cbn [fst snd]; [|discriminate].
  intros [= ->].
  apply build_result_ok in Hb as (record' & mapping' & p & [= <-] & Hl & Hb).
  rewrite (load_of_files _ _ _ Hfile) in Hl. injection Hl as <-.
  pose proof (build_co_ok _ _ _ _ _ _ _ Hb Hrec Hmap) as Hco.
  match goal with
  | |- get_request_json ?s _ = _ =>
      destruct (get_request_json_cases s req indent eq_refl) as [[_ H]|[H _]]
  end; [exact H | rewrite Hco in H; discriminate H].
Qed.

(** The theorem on a record of texts and numbers and a mapping with scalar
    rules, a constant and a typed variable. *)
Lemma built_request_serialises_witness :
  get_request_json
    (snd (build_request_from_mapping_file
            (env_with mapping_scalar_overwrite slot_b_first)
            (fresh_controller (env_with mapping_scalar_overwrite slot_b_first))
            (VDict record_scalar_overwrite) None (Some "D-7") false "5f2a9c01d3e4")) 2
  = Ok (JsonDumps
          {| DecisionID := "D-7";
             coRequest :=
               [("customerType", Scalar (VStr "PARTICULAR")); ("channel", Scalar (VStr "WEB"));
                ("doubleVariables",
                 Vars [] [{| var_name := "loanAmount";
                             var_value_of := DoubleValue 1500%float |}])] |} 2).
Proof.
  apply (built_request_serialises
           (env_with mapping_scalar_overwrite slot_b_first)
           (fresh_controller (env_with mapping_scalar_overwrite slot_b_first))
           record_scalar_overwrite None (Some "D-7") false "5f2a9c01d3e4"
           mapping_scalar_overwrite); vm_compute; reflexivity.
Defined.


